(** * The write serializers of temba/api/serializers.py

    A shallow embedding of the field types and write serializers of
    [src/temba/api/serializers.py].  Python values are an inductive type,
    the coerced attribute dictionary [attrs] is a finite map from field
    names to values, the database is a record of tables threaded through
    the code, and a raised exception is the left summand of a result. *)

From Stdlib Require Import ZArith String List Bool Ascii Lia.
From stdpp Require Import base option gmap strings list.

Open Scope Z_scope.
Open Scope string_scope.
Open Scope list_scope.

(** ** Model rows

    The Django models live in other applications of the repository; the
    records below carry the columns the serializers read or write. *)

Inductive direction := INCOMING | OUTGOING.
Inductive event_type := FLOW_EVENT | MESSAGE_EVENT.

Record Org := { org_id : Z; is_anon : bool }.

Record Country := { country_code : string }.

Record Channel := {
  ch_pk : Z; ch_org : Z; ch_is_active : bool; ch_last_seen : Z;
  ch_country : Country }.

Record Flow := {
  fl_pk : Z; fl_uuid : string; fl_org : Z; fl_is_active : bool;
  fl_is_archived : bool; fl_name : string;
  fl_single_message : option string }.

Record ContactURN := { urn_scheme : string; urn_path : string; urn_urn : string }.

Record Contact := {
  ct_pk : Z; ct_uuid : string; ct_org : Z; ct_is_active : bool;
  ct_urns : list ContactURN }.

Record ContactGroup := {
  gr_pk : Z; gr_uuid : string; gr_org : Z; gr_is_active : bool;
  gr_name : string }.

Record ContactField := {
  cf_pk : Z; cf_org : Z; cf_is_active : bool; cf_key : string; cf_label : string }.

Record Campaign := {
  ca_pk : Z; ca_uuid : string; ca_org : Z; ca_is_active : bool;
  ca_name : string; ca_group : Z }.

Record CampaignEvent := {
  ev_pk : Z; ev_uuid : string; ev_campaign : Z; ev_is_active : bool;
  ev_event_type : event_type; ev_flow : Z; ev_message : option string;
  ev_offset : Z; ev_unit : string; ev_delivery_hour : Z; ev_relative_to : Z }.

Record Label := { lb_pk : Z; lb_uuid : string; lb_org : Z; lb_name : string }.

Record Msg := {
  msg_pk : Z; msg_org : Z; msg_direction : direction;
  msg_visibility : string; msg_labels : list Z }.

(** A broadcast recipient: a contact, a group, or one address of a
    contact. *)
Inductive recipient :=
| ToContact (pk : Z)
| ToGroup (pk : Z)
| ToURN (contact_pk : Z) (scheme path : string).

Record Broadcast := {
  bc_pk : Z; bc_org : Z; bc_text : string;
  bc_recipients : list recipient; bc_channel : option Z }.

(** ** Python values *)

Inductive obj :=
| OChannel (c : Channel)
| OFlow (f : Flow)
| OContact (c : Contact)
| OGroup (g : ContactGroup)
| OCampaign (c : Campaign)
| OEvent (e : CampaignEvent)
| OLabel (l : Label)
| OBroadcast (b : Broadcast).

#[warnings="-register-all"]
Inductive value :=
| VNone
| VBool (b : bool)
| VInt (n : Z)
| VStr (s : string)
| VList (l : list value)
| VTuple (l : list value)
| VDict (d : list (string * value))
| VObj (o : obj).

(** Truth value testing: [None], [False], zero, and empty strings and
    containers are false; model instances are true. *)
Definition truthy (v : value) : bool :=
  match v with
  | VNone => false
  | VBool b => b
  | VInt n => negb (n =? 0)%Z
  | VStr s => negb (String.eqb s "")
  | VList l => match l with [] => false | _ => true end
  | VTuple l => match l with [] => false | _ => true end
  | VDict d => match d with [] => false | _ => true end
  | VObj _ => true
  end.

Definition isinstance_basestring (v : value) : bool :=
  match v with VStr _ => true | _ => false end.

Definition isinstance_list (v : value) : bool :=
  match v with VList _ => true | _ => false end.

Definition isinstance_dict (v : value) : bool :=
  match v with VDict _ => true | _ => false end.

(** ** Exceptions

    A [ValidationError] keeps the message template and the values
    substituted into it (the [str] and [unicode] conversions of the
    arguments are not rendered). *)
Inductive exn :=
| ValidationError (template : string) (args : list value)
| KeyError (key : string)
| TypeError
| AttributeError
| ValueError (msg : string)
| DoesNotExist
| MultipleObjectsReturned
| UnboundLocalError.

Inductive result (A : Type) :=
| Ok (a : A)
| Raise (e : exn).
Arguments Ok {A} a.
Arguments Raise {A} e.

#[global] Instance result_ret : MRet result := fun A a => Ok a.
#[global] Instance result_bind : MBind result := fun A B k r =>
  match r with
  | Ok a => k a
  | Raise e => Raise e
  end.

Definition is_validation_error {A} (r : result A) : Prop :=
  match r with
  | Raise (ValidationError _ _) => True
  | _ => False
  end.

(** Modelled from the spec: the constant [TEL_SCHEME] imported from
    temba.contacts.models, the telecom scheme that tags phone addresses
    (the scheme of "tel:+15555550100"). *)
Definition TEL_SCHEME : string := "tel".

(** ** Field types *)

Module PhoneArrayField.

(** The loop of [from_native] over a list: every element must be a
    string and is appended as a [(TEL_SCHEME, phone)] pair. *)
Fixpoint from_native_loop (data : list value) (urns : list (string * string))
  : result (list (string * string)) :=
  match data with
  | [] => Ok urns
  | phone :: rest =>
      if negb (isinstance_basestring phone)
      then Raise (ValidationError "Invalid phone: %s" [phone])
      else match phone with
           | VStr s => from_native_loop rest (urns ++ [(TEL_SCHEME, s)])
           | _ => Raise TypeError
           end
  end.

Definition from_native (data : value) : result (list (string * string)) :=
  match data with
  | VStr s => Ok [(TEL_SCHEME, s)]
  | VList l =>
      if (100 <? Z.of_nat (length l))%Z
      then Raise (ValidationError "You can only specify up to 100 numbers at a time." [])
      else from_native_loop l []
  | _ => Raise (ValidationError "Invalid phone: %s" [data])
  end.

End PhoneArrayField.

Module StringArrayField.

Fixpoint check_loop (data : list value) : result unit :=
  match data with
  | [] => Ok tt
  | v :: rest =>
      if negb (isinstance_basestring v)
      then Raise (ValidationError "Invalid, values must be strings: %s" [v])
      else check_loop rest
  end.

Definition from_native (data : value) : result value :=
  match data with
  | VStr s => Ok (VList [VStr s])
  | VList l => _ ← check_loop l; Ok (VList l)
  | _ => Raise (ValidationError "Invalid, must be array: %s" [data])
  end.

End StringArrayField.


(** ** The database

    One list per table, in primary-key order.  A queryset is the list of
    the rows that pass its filters; [.first()] is [head]. *)

Record Store := {
  channels : list Channel;
  flows : list Flow;
  contacts : list Contact;
  groups : list ContactGroup;
  contact_fields : list ContactField;
  campaigns : list Campaign;
  events : list CampaignEvent;
  msgs : list Msg;
  broadcasts : list Broadcast }.

Definition with_flows (fs : list Flow) (db : Store) : Store :=
  {| channels := channels db; flows := fs; contacts := contacts db;
     groups := groups db; contact_fields := contact_fields db;
     campaigns := campaigns db; events := events db; msgs := msgs db;
     broadcasts := broadcasts db |}.

Definition with_contacts (cs : list Contact) (db : Store) : Store :=
  {| channels := channels db; flows := flows db; contacts := cs;
     groups := groups db; contact_fields := contact_fields db;
     campaigns := campaigns db; events := events db; msgs := msgs db;
     broadcasts := broadcasts db |}.

Definition with_groups (gs : list ContactGroup) (db : Store) : Store :=
  {| channels := channels db; flows := flows db; contacts := contacts db;
     groups := gs; contact_fields := contact_fields db;
     campaigns := campaigns db; events := events db; msgs := msgs db;
     broadcasts := broadcasts db |}.

Definition with_contact_fields (cfs : list ContactField) (db : Store) : Store :=
  {| channels := channels db; flows := flows db; contacts := contacts db;
     groups := groups db; contact_fields := cfs;
     campaigns := campaigns db; events := events db; msgs := msgs db;
     broadcasts := broadcasts db |}.

Definition with_campaigns (cs : list Campaign) (db : Store) : Store :=
  {| channels := channels db; flows := flows db; contacts := contacts db;
     groups := groups db; contact_fields := contact_fields db;
     campaigns := cs; events := events db; msgs := msgs db;
     broadcasts := broadcasts db |}.

Definition with_events (es : list CampaignEvent) (db : Store) : Store :=
  {| channels := channels db; flows := flows db; contacts := contacts db;
     groups := groups db; contact_fields := contact_fields db;
     campaigns := campaigns db; events := es; msgs := msgs db;
     broadcasts := broadcasts db |}.

Definition with_msgs (ms : list Msg) (db : Store) : Store :=
  {| channels := channels db; flows := flows db; contacts := contacts db;
     groups := groups db; contact_fields := contact_fields db;
     campaigns := campaigns db; events := events db; msgs := ms;
     broadcasts := broadcasts db |}.

Definition with_broadcasts (bs : list Broadcast) (db : Store) : Store :=
  {| channels := channels db; flows := flows db; contacts := contacts db;
     groups := groups db; contact_fields := contact_fields db;
     campaigns := campaigns db; events := events db; msgs := msgs db;
     broadcasts := bs |}.

(** The primary key given to the next row of a table. *)
Definition next_pk {A} (pk : A -> Z) (rows : list A) : Z :=
  1 + foldr (fun r m => Z.max (pk r) m) 0 rows.

(** [Model.objects.get(...)] on the rows that matched. *)
Definition objects_get {A} (matched : list A) : result A :=
  match matched with
  | [] => Raise DoesNotExist
  | [r] => Ok r
  | _ => Raise MultipleObjectsReturned
  end.

(** ** The serializer and its driver *)

(** The serializer instance: [self.user] and [self.org]. *)
Record Self := { user : Z; org : Org }.

(** An error message: its template and the values substituted into it. *)
Definition message : Type := string * list value.

Abbreviation Attrs := (gmap string value).
Abbreviation Errors := (gmap string (list message)).

(** The per-field coercion that the base class runs over a JSON object
    from the declared field kinds ([Serializer.restore_fields] of the
    framework): the field errors and the coerced attributes. *)
Definition field_coercion : Type := list (string * value) -> Errors * Attrs.

(** [attrs[key]] *)
Definition getitem (attrs : Attrs) (key : string) : result value :=
  match attrs !! key with
  | Some v => Ok v
  | None => Raise (KeyError key)
  end.

(** [attrs.get(key, default)] *)
Definition get (attrs : Attrs) (key : string) (default : value) : value :=
  match attrs !! key with
  | Some v => v
  | None => default
  end.

(** [key in attrs] *)
Definition contains (attrs : Attrs) (key : string) : bool :=
  match attrs !! key with Some _ => true | None => false end.

(** A [validate_<field>(self, attrs, source)] method.  The methods modelled
    here only read the database; a raised exception leaves the attributes
    as they were when the method was entered. *)
Definition validate_method_t : Type := Self -> Store -> Attrs -> string -> result Attrs.

(** What a serializer class declares: its fields in declaration order
    (name, [required] flag and [source]), the [validate_<field>] methods,
    [validate] and [restore_object]. *)
Record Serializer := {
  ser_fields : list (string * bool * string);
  ser_validate_method : string -> option validate_method_t;
  ser_validate : Self -> Store -> Attrs -> result Attrs;
  ser_restore_object : Self -> Store -> Attrs -> result (value * Store) }.

Module WriteSerializer.

(** [WriteSerializer.restore_fields]: a body that is not a dict records
    the message under 'non_field_errors' and returns the empty dict;
    otherwise the base class coerces the declared fields. *)
Definition restore_fields (super_restore_fields : field_coercion)
    (data : value) (_errors : Errors) : Errors * Attrs :=
  match data with
  | VDict d =>
      let '(errs, attrs) := super_restore_fields d in
      (errs ∪ _errors, attrs)
  | _ =>
      (<["non_field_errors" := [("Request body should be a single JSON object", [])]]> _errors,
       ∅)
  end.

End WriteSerializer.

(** The driver of the base class [rest_framework.serializers.Serializer]
    (release 2.x of the framework, the one with [restore_fields],
    [perform_validation] and [restore_object]) that every write serializer
    inherits.  It is not part of the repository; it is written out here
    because it decides which of the serializer's own methods run. *)
Module rest_framework.

(** The loop of [perform_validation] over the declared fields: a field
    that already has an error is skipped; otherwise its
    [validate_<field>] method, when the class has one, runs on the
    attributes; a [ValidationError] is added to the field's errors and
    any other exception propagates. *)
Fixpoint perform_field_validation (S : Serializer) (self : Self) (db : Store)
    (fields : list (string * bool * string)) (_errors : Errors) (attrs : Attrs)
  : result (Errors * Attrs) :=
  match fields with
  | [] => Ok (_errors, attrs)
  | (field_name, _, source) :: rest =>
      match _errors !! field_name with
      | Some _ => perform_field_validation S self db rest _errors attrs
      | None =>
          match ser_validate_method S field_name with
          | None => perform_field_validation S self db rest _errors attrs
          | Some validate_field =>
              match validate_field self db attrs source with
              | Ok attrs' => perform_field_validation S self db rest _errors attrs'
              | Raise (ValidationError t a) =>
                  perform_field_validation S self db rest
                    (<[field_name := [(t, a)]]> _errors) attrs
              | Raise e => Raise e
              end
          end
      end
  end.

(** [perform_validation]: the field loop, then [validate] only when no
    error has been recorded so far. *)
Definition perform_validation (S : Serializer) (self : Self) (db : Store)
    (_errors : Errors) (attrs : Attrs) : result (Errors * Attrs) :=
  '(_errors, attrs) ← perform_field_validation S self db (ser_fields S) _errors attrs;
  if decide (_errors = ∅) then
    match ser_validate S self db attrs with
    | Ok attrs' => Ok (_errors, attrs')
    | Raise (ValidationError t a) =>
        Ok (<["non_field_errors" := [(t, a)]]> _errors, attrs)
    | Raise e => Raise e
    end
  else Ok (_errors, attrs).

(** What [from_native] leaves behind: the restored object and the
    database after [restore_object], or the error map and the database
    as it was. *)
Inductive outcome :=
| Restored (object : value) (db : Store)
| Invalid (_errors : Errors) (db : Store).

(** The part of [from_native] that follows [restore_fields]:
    [perform_validation] on the coerced attributes, then
    [restore_object] when no error was recorded.  The serializers are built
    from request data alone, so [restore_object] is called with
    [instance=None] and its [if instance:] guard is never taken. *)
Definition from_native_attrs (S : Serializer) (self : Self) (db : Store)
    (_errors : Errors) (attrs : Attrs) : result outcome :=
  '(_errors, attrs) ← perform_validation S self db _errors attrs;
  if decide (_errors = ∅) then
    '(object, db') ← ser_restore_object S self db attrs;
    Ok (Restored object db')
  else Ok (Invalid _errors db).

(** [from_native] for one request body ([files] is [None]).  A raised
    exception that is not a [ValidationError] leaves the driver. *)
Definition from_native (super_restore_fields : field_coercion)
    (S : Serializer) (self : Self) (db : Store) (data : value) : result outcome :=
  match data with
  | VNone => Ok (Invalid {["non_field_errors" := [("No input provided", [])]]} db)
  | _ =>
      let '(_errors, attrs) := WriteSerializer.restore_fields super_restore_fields data ∅ in
      from_native_attrs S self db _errors attrs
  end.

End rest_framework.

(** ** Collaborators

    Functions of other modules of the repository and of the phonenumbers
    library that the serializers call and whose code is not in this file:
    they are taken as parameters. *)
Class Collaborators := {
  (** [ContactURN.parse_urn]: the scheme and path of a "scheme:path"
      string, or the [ValueError] it raises. *)
  ContactURN_parse_urn : string -> result (string * string);
  (** [ContactURN.normalize_urn(scheme, path, country)]. *)
  ContactURN_normalize_urn : string -> string -> option Country -> string * string;
  (** [ContactURN.validate_urn(scheme, path)]. *)
  ContactURN_validate_urn : string -> string -> bool;
  (** [phonenumbers.parse(phone, region)] succeeds and
      [phonenumbers.is_possible_number] accepts the result. *)
  possible_number : string -> string -> bool;
  (** [org.get_send_channel(scheme)]. *)
  get_send_channel : Store -> Z -> string -> option Channel;
  (** [ContactField.api_make_key(label)]. *)
  api_make_key : string -> string;
  (** The display name [event.update_flow_name()] derives for the flow
      behind an event, from the event and the flow as it is stored. *)
  flow_display_name : CampaignEvent -> Flow -> string;
  (** The UUID generated for a new row of a table, from its primary key. *)
  uuid4 : Z -> string;
  (** [broadcast.send()], the hand-over to the delivery code. *)
  send : Broadcast -> Store -> Store }.

(** Iterating a value in a [for] loop. *)
Definition iter (v : value) : result (list value) :=
  match v with
  | VList l => Ok l
  | VTuple l => Ok l
  | VStr s => Ok ((fun c => VStr (String c EmptyString)) <$> list_ascii_of_string s)
  | VDict d => Ok ((fun kv => VStr (fst kv)) <$> d)
  | _ => Raise TypeError
  end.

(** Unpacking a [(scheme, path)] tuple. *)
Definition as_urn (v : value) : result (string * string) :=
  match v with
  | VTuple [VStr scheme; VStr path] => Ok (scheme, path)
  | _ => Raise TypeError
  end.

Definition as_channel (v : value) : result Channel :=
  match v with
  | VObj (OChannel c) => Ok c
  | _ => Raise AttributeError
  end.

(** A column compared with a lookup value: only a string matches a
    text column. *)
Definition str_is (v : value) (s : string) : bool :=
  match v with
  | VStr u => String.eqb u s
  | _ => false
  end.

(** [Contact.objects.filter(uuid=uuid, org=self.org, is_active=True)] *)
Definition contacts_by_uuid (db : Store) (self : Self) (uuid : value) : list Contact :=
  List.filter (fun c => str_is uuid (ct_uuid c) && (ct_org c =? org_id (org self))%Z && ct_is_active c)
              (contacts db).

(** [ContactGroup.user_groups.filter(uuid=uuid, org=self.org, is_active=True)] *)
Definition groups_by_uuid (db : Store) (self : Self) (uuid : value) : list ContactGroup :=
  List.filter (fun g => str_is uuid (gr_uuid g) && (gr_org g =? org_id (org self))%Z && gr_is_active g)
              (groups db).

(** The loop shared by the [validate_contact] and [validate_contacts]
    methods: every UUID must name an active contact of the org. *)
Fixpoint resolve_contacts (db : Store) (self : Self) (uuids : list value) (acc : list value)
  : result (list value) :=
  match uuids with
  | [] => Ok acc
  | uuid :: rest =>
      match head (contacts_by_uuid db self uuid) with
      | None => Raise (ValidationError "Unable to find contact with uuid: %s" [uuid])
      | Some contact => resolve_contacts db self rest (acc ++ [VObj (OContact contact)])
      end
  end.

(** The loop of the [validate_groups] methods over group UUIDs. *)
Fixpoint resolve_groups (db : Store) (self : Self) (uuids : list value) (acc : list value)
  : result (list value) :=
  match uuids with
  | [] => Ok acc
  | uuid :: rest =>
      match head (groups_by_uuid db self uuid) with
      | None => Raise (ValidationError "Unable to find contact group with uuid: %s" [uuid])
      | Some group => resolve_groups db self rest (acc ++ [VObj (OGroup group)])
      end
  end.

(** [channels.order_by('-last_seen')]: most recently seen first. *)
Fixpoint insert_by_last_seen (c : Channel) (l : list Channel) : list Channel :=
  match l with
  | [] => [c]
  | x :: r =>
      if (ch_last_seen x <=? ch_last_seen c)%Z then c :: l
      else x :: insert_by_last_seen c r
  end.

Definition order_by_last_seen_desc (l : list Channel) : list Channel :=
  foldr insert_by_last_seen [] l.

(** Modelled from the spec: [Contact.get_or_create(org, user, urns=[urn])]
    of temba.contacts.models.  If the address already maps to a contact of
    the tenant that contact is used; otherwise a contact owning the address
    is created. *)
Definition Contact_get_or_create `{Collaborators} (org : Z) (urn : string * string)
    (db : Store) : Contact * Store :=
  let owns c :=
    (ct_org c =? org)%Z &&
    existsb (fun u => String.eqb (urn_scheme u) (fst urn) && String.eqb (urn_path u) (snd urn))
            (ct_urns c) in
  match head (List.filter owns (contacts db)) with
  | Some contact => (contact, db)
  | None =>
      let pk := next_pk ct_pk (contacts db) in
      let contact :=
        {| ct_pk := pk; ct_uuid := uuid4 pk; ct_org := org; ct_is_active := true;
           ct_urns := [{| urn_scheme := fst urn; urn_path := snd urn;
                          urn_urn := (fst urn ++ ":" ++ snd urn)%string |}] |} in
      (contact, with_contacts (contacts db ++ [contact]) db)
  end.

(** Modelled from the spec: [Broadcast.create(org, user, text, recipients,
    channel)] of temba.msgs.models stores a new broadcast to the
    recipients. *)
Definition Broadcast_create (org : Z) (text : string) (recipients : list recipient)
    (channel : option Z) (db : Store) : Broadcast * Store :=
  let broadcast :=
    {| bc_pk := next_pk bc_pk (broadcasts db); bc_org := org; bc_text := text;
       bc_recipients := recipients; bc_channel := channel |} in
  (broadcast, with_broadcasts (broadcasts db ++ [broadcast]) db).

(** ** MsgCreateSerializer *)

Module MsgCreateSerializer.
Section WithCollaborators.
Context `{Collaborators}.

(** channel = ChannelField(required=False); text = CharField(required=True);
    urn, contact = StringArrayField(required=False);
    phone = PhoneArrayField(required=False). *)
Definition declared_fields : list (string * bool * string) :=
  [("channel", false, "channel"); ("text", true, "text"); ("urn", false, "urn");
   ("contact", false, "contact"); ("phone", false, "phone")].

Definition validate (self : Self) (db : Store) (attrs : Attrs) : result Attrs :=
  let urns := get attrs "urn" (VList []) in
  let phone := get attrs "phone" VNone in
  let contact := get attrs "contact" (VList []) in
  if (negb (truthy urns) && negb (truthy phone) && negb (truthy contact))
     || (truthy urns && truthy phone)
  then Raise (ValidationError "Must provide either urns or phone or contact and not both" [])
  else Ok attrs.

(** An omitted channel (a false value under the key) is replaced by the
    org's most recently seen active channel; only an org without active
    channels is an error. *)
Definition validate_channel (self : Self) (db : Store) (attrs : Attrs) (source : string)
  : result Attrs :=
  channel ← getitem attrs source;
  '(channel, attrs) ←
    (if negb (truthy channel) then
       let channels :=
         order_by_last_seen_desc
           (List.filter (fun c => ch_is_active c && (ch_org c =? org_id (org self))%Z)
                        (channels db)) in
       match channels with
       | [] => Raise (ValidationError "There are no channels for this organization." [])
       | channel :: _ =>
           Ok (VObj (OChannel channel), <[source := VObj (OChannel channel)]> attrs)
       end
     else Ok (channel, attrs));
  c ← as_channel channel;
  if negb (org_id (org self) =? ch_org c)%Z
  then Raise (ValidationError "Invalid pk '%d' - object does not exist." [VInt (ch_pk c)])
  else Ok attrs.

Definition validate_contact (self : Self) (db : Store) (attrs : Attrs) (source : string)
  : result Attrs :=
  uuids ← iter (get attrs source (VList []));
  contacts ← resolve_contacts db self uuids [];
  Ok (<["contact" := VList contacts]> attrs).

Fixpoint validate_urn_loop (country : Country) (l : list value) (urns : list value)
  : result (list value) :=
  match l with
  | [] => Ok urns
  | urn :: rest =>
      match urn with
      | VStr u =>
          match ContactURN_parse_urn u with
          | Raise e => Raise e
          | Ok (scheme, path) =>
              let '(norm_scheme, norm_path) := ContactURN_normalize_urn scheme path (Some country) in
              if negb (ContactURN_validate_urn norm_scheme norm_path)
              then Raise (ValidationError "Invalid URN: '%s'" [urn])
              else validate_urn_loop country rest
                     (urns ++ [VTuple [VStr norm_scheme; VStr norm_path]])
          end
      | _ => Raise AttributeError
      end
  end.

Definition validate_urn (self : Self) (db : Store) (attrs : Attrs) (source : string)
  : result Attrs :=
  if contains attrs "channel" && truthy (get attrs "channel" VNone) then
    channel ← as_channel (get attrs "channel" VNone);
    let country := ch_country channel in
    l ← iter (get attrs source (VList []));
    urns ← validate_urn_loop country l [];
    Ok (<["urn" := VList urns]> attrs)
  else Raise (ValidationError "You must specify a valid channel" []).

Fixpoint validate_phone_loop (country : Country) (l : list value) : result unit :=
  match l with
  | [] => Ok tt
  | item :: rest =>
      '(tel, phone) ← as_urn item;
      if negb (possible_number phone (country_code country))
      then Raise (ValidationError "Invalid phone number: '%s'" [VStr phone])
      else validate_phone_loop country rest
  end.

Definition validate_phone (self : Self) (db : Store) (attrs : Attrs) (source : string)
  : result Attrs :=
  if is_anon (org self)
  then Raise (ValidationError "Cannot create messages for anonymous organizations" [])
  else
    if contains attrs "channel" && truthy (get attrs "channel" VNone) then
      channel ← as_channel (get attrs "channel" VNone);
      let country := ch_country channel in
      l ← iter (get attrs source (VList []));
      _ ← validate_phone_loop country l;
      Ok attrs
    else Raise (ValidationError "You must specify a valid channel" []).

Definition validate_method (field_name : string) : option validate_method_t :=
  if String.eqb field_name "channel" then Some validate_channel
  else if String.eqb field_name "urn" then Some validate_urn
  else if String.eqb field_name "contact" then Some validate_contact
  else if String.eqb field_name "phone" then Some validate_phone
  else None.

(** The loop of [restore_object] that treats each urn as a separate
    contact of [channel.org]. *)
Fixpoint create_contacts (channel : value) (urns : list value) (contacts : list Contact)
    (db : Store) : result (list Contact * Store) :=
  match urns with
  | [] => Ok (contacts, db)
  | urn :: rest =>
      c ← as_channel channel;
      u ← as_urn urn;
      let '(contact, db) := Contact_get_or_create (ch_org c) u db in
      create_contacts channel rest (contacts ++ [contact]) db
  end.

Fixpoint append_contacts (l : list value) (contacts : list Contact) : result (list Contact) :=
  match l with
  | [] => Ok contacts
  | VObj (OContact c) :: rest => append_contacts rest (contacts ++ [c])
  | _ => Raise AttributeError
  end.

Definition restore_object (self : Self) (db : Store) (attrs : Attrs)
  : result (value * Store) :=
  let urns :=
    if contains attrs "urn" && truthy (get attrs "urn" VNone)
    then get attrs "urn" (VList [])
    else get attrs "phone" (VList []) in
  channel ← getitem attrs "channel";
  urns ← iter urns;
  '(contacts, db) ← create_contacts channel urns [] db;
  uuid_contacts ← iter (get attrs "contact" (VList []));
  contacts ← append_contacts uuid_contacts contacts;
  text ← getitem attrs "text";
  match text with
  | VStr text =>
      let '(broadcast, db) :=
        Broadcast_create (org_id (org self)) text (ToContact ∘ ct_pk <$> contacts) None db in
      Ok (VObj (OBroadcast broadcast), send broadcast db)
  | _ => Raise TypeError
  end.

Definition serializer : Serializer :=
  {| ser_fields := declared_fields;
     ser_validate_method := validate_method;
     ser_validate := validate;
     ser_restore_object := restore_object |}.

End WithCollaborators.
End MsgCreateSerializer.

(** ** BroadcastCreateSerializer *)

Module BroadcastCreateSerializer.
Section WithCollaborators.
Context `{Collaborators}.

(** urns, contacts, groups = StringArrayField(required=False);
    text = CharField(required=True); channel = ChannelField(required=False). *)
Definition declared_fields : list (string * bool * string) :=
  [("urns", false, "urns"); ("contacts", false, "contacts"); ("groups", false, "groups");
   ("text", true, "text"); ("channel", false, "channel")].

Definition validate (self : Self) (db : Store) (attrs : Attrs) : result Attrs :=
  if negb (truthy (get attrs "urns" (VList [])) || truthy (get attrs "contacts" VNone)
           || truthy (get attrs "groups" (VList [])))
  then Raise (ValidationError "Must provide either urns, contacts or groups" [])
  else Ok attrs.

Fixpoint validate_urns_loop (country : option Country) (l : list value) (urns : list value)
  : result (list value) :=
  match l with
  | [] => Ok urns
  | urn :: rest =>
      match urn with
      | VStr u =>
          match ContactURN_parse_urn u with
          | Raise (ValueError e_message) => Raise (ValidationError e_message [])
          | Raise e => Raise e
          | Ok (scheme, path) =>
              let '(norm_scheme, norm_path) := ContactURN_normalize_urn scheme path country in
              if negb (ContactURN_validate_urn norm_scheme norm_path)
              then Raise (ValidationError "Invalid URN: '%s'" [urn])
              else validate_urns_loop country rest
                     (urns ++ [VTuple [VStr norm_scheme; VStr norm_path]])
          end
      | _ => Raise AttributeError
      end
  end.

(** The tenant's anonymous flag is not consulted: the addresses are
    parsed, normalized with the country of the org's tel channel, and
    validated. *)
Definition validate_urns (self : Self) (db : Store) (attrs : Attrs) (source : string)
  : result Attrs :=
  let tel_sender := get_send_channel db (org_id (org self)) TEL_SCHEME in
  let country := match tel_sender with Some c => Some (ch_country c) | None => None end in
  l ← iter (get attrs source (VList []));
  urns ← validate_urns_loop country l [];
  Ok (<[source := VList urns]> attrs).

Definition validate_contacts (self : Self) (db : Store) (attrs : Attrs) (source : string)
  : result Attrs :=
  uuids ← iter (get attrs source (VList []));
  contacts ← resolve_contacts db self uuids [];
  Ok (<[source := VList contacts]> attrs).

Definition validate_groups (self : Self) (db : Store) (attrs : Attrs) (source : string)
  : result Attrs :=
  uuids ← iter (get attrs source (VList []));
  groups ← resolve_groups db self uuids [];
  Ok (<[source := VList groups]> attrs).

Definition validate_channel (self : Self) (db : Store) (attrs : Attrs) (source : string)
  : result Attrs :=
  let channel := get attrs source VNone in
  if truthy channel then
    c ← as_channel channel;
    if negb (ch_is_active c && (ch_org c =? org_id (org self))%Z)
    then Raise (ValidationError "Invalid pk '%d' - object does not exist." [VInt (ch_pk c)])
    else Ok attrs
  else Ok attrs.

Definition validate_method (field_name : string) : option validate_method_t :=
  if String.eqb field_name "urns" then Some validate_urns
  else if String.eqb field_name "contacts" then Some validate_contacts
  else if String.eqb field_name "groups" then Some validate_groups
  else if String.eqb field_name "channel" then Some validate_channel
  else None.

(** The elements of [attrs.get('contacts') + attrs.get('groups')] as
    recipients. *)
Fixpoint as_recipients (l : list value) : result (list recipient) :=
  match l with
  | [] => Ok []
  | VObj (OContact c) :: rest => rs ← as_recipients rest; Ok (ToContact (ct_pk c) :: rs)
  | VObj (OGroup g) :: rest => rs ← as_recipients rest; Ok (ToGroup (gr_pk g) :: rs)
  | _ => Raise AttributeError
  end.

(** [contact.urn_objects[urn]] *)
Definition urn_objects (contact : Contact) (urn : string * string) : result recipient :=
  match List.find (fun u => String.eqb (urn_scheme u) (fst urn)
                            && String.eqb (urn_path u) (snd urn)) (ct_urns contact) with
  | Some u => Ok (ToURN (ct_pk contact) (urn_scheme u) (urn_path u))
  | None => Raise (KeyError "urn_objects")
  end.

(** The loop of [restore_object] that creates contacts for URNs if
    necessary. *)
Fixpoint add_urn_recipients (org : Z) (urns : list value) (recipients : list recipient)
    (db : Store) : result (list recipient * Store) :=
  match urns with
  | [] => Ok (recipients, db)
  | urn :: rest =>
      u ← as_urn urn;
      let '(contact, db) := Contact_get_or_create org u db in
      contact_urn ← urn_objects contact u;
      add_urn_recipients org rest (recipients ++ [contact_urn]) db
  end.

Definition as_list (v : value) : result (list value) :=
  match v with
  | VList l => Ok l
  | _ => Raise TypeError
  end.

(** [send_broadcast_task.delay(broadcast.id)] only queues the task: the
    database is as [Broadcast.create] left it. *)
Definition restore_object (self : Self) (db : Store) (attrs : Attrs)
  : result (value * Store) :=
  contacts ← as_list (get attrs "contacts" VNone);
  groups ← as_list (get attrs "groups" VNone);
  recipients ← as_recipients (contacts ++ groups);
  urns ← iter (get attrs "urns" VNone);
  '(recipients, db) ← add_urn_recipients (org_id (org self)) urns recipients db;
  text ← getitem attrs "text";
  channel ← getitem attrs "channel";
  channel ← (match channel with
             | VNone => Ok None
             | VObj (OChannel c) => Ok (Some (ch_pk c))
             | _ => Raise AttributeError
             end);
  match text with
  | VStr text =>
      let '(broadcast, db) := Broadcast_create (org_id (org self)) text recipients channel db in
      Ok (VObj (OBroadcast broadcast), db)
  | _ => Raise TypeError
  end.

Definition serializer : Serializer :=
  {| ser_fields := declared_fields;
     ser_validate_method := validate_method;
     ser_validate := validate;
     ser_restore_object := restore_object |}.

End WithCollaborators.
End BroadcastCreateSerializer.

(** ** CampaignWriteSerializer *)

(** A primary key compared with a lookup value. *)
Definition int_is (v : value) (pk : Z) : bool :=
  match v with
  | VInt n => (n =? pk)%Z
  | _ => false
  end.

(** Modelled from the spec: [Campaign.get_campaigns(org)] of
    temba.campaigns.models, the live campaigns of the tenant (resolution
    always filters by tenant and active status). *)
Definition Campaign_get_campaigns (db : Store) (org : Z) : list Campaign :=
  List.filter (fun c => (ca_org c =? org)%Z && ca_is_active c) (campaigns db).

(** Modelled from the spec: [ContactGroup.get_or_create(org, user, name)]
    of temba.contacts.models, the tenant's group of that name, created on
    demand when there is none. *)
Definition ContactGroup_get_or_create `{Collaborators} (org : Z) (name : string) (db : Store)
  : ContactGroup * Store :=
  match head (List.filter (fun g => (gr_org g =? org)%Z && gr_is_active g
                                    && String.eqb (gr_name g) name) (groups db)) with
  | Some group => (group, db)
  | None =>
      let pk := next_pk gr_pk (groups db) in
      let group := {| gr_pk := pk; gr_uuid := uuid4 pk; gr_org := org;
                      gr_is_active := true; gr_name := name |} in
      (group, with_groups (groups db ++ [group]) db)
  end.

(** Modelled from the spec: [Campaign.create(org, user, name, group)] of
    temba.campaigns.models stores a new campaign tied to the group. *)
Definition Campaign_create `{Collaborators} (org : Z) (name : string) (group : ContactGroup)
    (db : Store) : Campaign * Store :=
  let pk := next_pk ca_pk (campaigns db) in
  let campaign := {| ca_pk := pk; ca_uuid := uuid4 pk; ca_org := org; ca_is_active := true;
                     ca_name := name; ca_group := gr_pk group |} in
  (campaign, with_campaigns (campaigns db ++ [campaign]) db).

(** [campaign.save()] of a loaded row. *)
Definition Campaign_save (campaign : Campaign) (db : Store) : Store :=
  with_campaigns
    ((fun row => if (ca_pk row =? ca_pk campaign)%Z then campaign else row) <$> campaigns db) db.

Definition as_str (v : value) : result string :=
  match v with
  | VStr s => Ok s
  | _ => Raise TypeError
  end.

Definition as_int (v : value) : result Z :=
  match v with
  | VInt n => Ok n
  | _ => Raise TypeError
  end.

Module CampaignWriteSerializer.
Section WithCollaborators.
Context `{Collaborators}.

(** uuid = UUIDField(required=False); name = CharField(required=True);
    group_uuid = UUIDField(required=False);
    campaign = IntegerField(required=False);
    group = CharField(required=False). *)
Definition declared_fields : list (string * bool * string) :=
  [("uuid", false, "uuid"); ("name", true, "name"); ("group_uuid", false, "group_uuid");
   ("campaign", false, "campaign"); ("group", false, "group")].

Definition validate_uuid (self : Self) (db : Store) (attrs : Attrs) (source : string)
  : result Attrs :=
  let uuid := get attrs source VNone in
  if truthy uuid then
    match head (List.filter (fun c => str_is uuid (ca_uuid c))
                            (Campaign_get_campaigns db (org_id (org self)))) with
    | Some campaign => Ok (<["campaign_obj" := VObj (OCampaign campaign)]> attrs)
    | None => Raise (ValidationError "No campaign with UUID %s" [uuid])
    end
  else Ok attrs.

Definition validate_campaign (self : Self) (db : Store) (attrs : Attrs) (source : string)
  : result Attrs :=
  let campaign_id := get attrs source VNone in
  if truthy campaign_id then
    match head (List.filter (fun c => int_is campaign_id (ca_pk c))
                            (Campaign_get_campaigns db (org_id (org self)))) with
    | Some campaign => Ok (<["campaign_obj" := VObj (OCampaign campaign)]> attrs)
    | None => Raise (ValidationError "No campaign with id %d" [campaign_id])
    end
  else Ok attrs.

Definition validate_group_uuid (self : Self) (db : Store) (attrs : Attrs) (source : string)
  : result Attrs :=
  let group_uuid := get attrs source VNone in
  if truthy group_uuid then
    match head (groups_by_uuid db self group_uuid) with
    | Some group => Ok (<["group_obj" := VObj (OGroup group)]> attrs)
    | None => Raise (ValidationError "No contact group with UUID %s" [group_uuid])
    end
  else Ok attrs.

(** The two cross-field checks: neither [group] nor [group_uuid], and
    both [campaign] and [uuid].  There is no check on [group] together
    with [group_uuid]. *)
Definition validate (self : Self) (db : Store) (attrs : Attrs) : result Attrs :=
  if negb (truthy (get attrs "group" VNone)) && negb (truthy (get attrs "group_uuid" VNone))
  then Raise (ValidationError "Must specify either group name or group_uuid" [])
  else if truthy (get attrs "campaign" VNone) && truthy (get attrs "uuid" VNone)
  then Raise (ValidationError "Can't specify both campaign and uuid" [])
  else Ok attrs.

Definition validate_method (field_name : string) : option validate_method_t :=
  if String.eqb field_name "uuid" then Some validate_uuid
  else if String.eqb field_name "campaign" then Some validate_campaign
  else if String.eqb field_name "group_uuid" then Some validate_group_uuid
  else None.

Definition as_group (v : value) : result ContactGroup :=
  match v with
  | VObj (OGroup g) => Ok g
  | _ => Raise AttributeError
  end.

(** The group resolved from [group_uuid] is used when there is one; the
    group name is only looked at otherwise. *)
Definition restore_object (self : Self) (db : Store) (attrs : Attrs)
  : result (value * Store) :=
  '(group, db) ←
    (if contains attrs "group_obj" then
       group ← getitem attrs "group_obj";
       group ← as_group group;
       Ok (group, db)
     else
       name ← getitem attrs "group";
       name ← as_str name;
       Ok (ContactGroup_get_or_create (org_id (org self)) name db));
  let campaign := get attrs "campaign_obj" VNone in
  if truthy campaign then
    match campaign with
    | VObj (OCampaign campaign) =>
        name ← getitem attrs "name";
        name ← as_str name;
        let campaign :=
          {| ca_pk := ca_pk campaign; ca_uuid := ca_uuid campaign; ca_org := ca_org campaign;
             ca_is_active := ca_is_active campaign; ca_name := name;
             ca_group := gr_pk group |} in
        Ok (VObj (OCampaign campaign), Campaign_save campaign db)
    | _ => Raise AttributeError
    end
  else
    name ← getitem attrs "name";
    name ← as_str name;
    let '(campaign, db) := Campaign_create (org_id (org self)) name group db in
    Ok (VObj (OCampaign campaign), db).

Definition serializer : Serializer :=
  {| ser_fields := declared_fields;
     ser_validate_method := validate_method;
     ser_validate := validate;
     ser_restore_object := restore_object |}.

End WithCollaborators.
End CampaignWriteSerializer.

(** ** CampaignEventWriteSerializer *)

(** Modelled from the spec: [ContactField.get_by_label(org, label)] of
    temba.contacts.models, the tenant's live custom field with that
    label. *)
Definition ContactField_get_by_label (db : Store) (org : Z) (label : string)
  : option ContactField :=
  head (List.filter (fun f => (cf_org f =? org)%Z && cf_is_active f
                              && String.eqb (cf_label f) label) (contact_fields db)).

(** Modelled from the spec: [ContactField.get_or_create(org, key, label)]
    of temba.contacts.models, the tenant's field with that key, created
    with the label when there is none. *)
Definition ContactField_get_or_create (org : Z) (key label : string) (db : Store)
  : ContactField * Store :=
  match head (List.filter (fun f => (cf_org f =? org)%Z && String.eqb (cf_key f) key)
                          (contact_fields db)) with
  | Some field => (field, db)
  | None =>
      let field := {| cf_pk := next_pk cf_pk (contact_fields db); cf_org := org;
                      cf_is_active := true; cf_key := key; cf_label := label |} in
      (field, with_contact_fields (contact_fields db ++ [field]) db)
  end.

(** Modelled from the spec: [Flow.create_single_message(org, user, message)]
    of temba.flows.models creates the hidden single-message flow whose
    content is the inline text. *)
Definition Flow_create_single_message `{Collaborators} (org : Z) (message : option string)
    (db : Store) : Flow * Store :=
  let pk := next_pk fl_pk (flows db) in
  let flow := {| fl_pk := pk; fl_uuid := uuid4 pk; fl_org := org; fl_is_active := true;
                 fl_is_archived := false; fl_name := "Single Message";
                 fl_single_message := message |} in
  (flow, with_flows (flows db ++ [flow]) db).

(** Modelled from the spec: [flow.update_single_message_flow(message)] of
    temba.flows.models makes the content of the hidden flow mirror the
    inline text. *)
Definition Flow_update_single_message_flow (flow_pk : Z) (message : string) (db : Store)
  : Store :=
  with_flows
    ((fun f => if (fl_pk f =? flow_pk)%Z then
                 {| fl_pk := fl_pk f; fl_uuid := fl_uuid f; fl_org := fl_org f;
                    fl_is_active := fl_is_active f; fl_is_archived := fl_is_archived f;
                    fl_name := fl_name f; fl_single_message := Some message |}
               else f) <$> flows db) db.

(** [event.save()] of a loaded row. *)
Definition CampaignEvent_save (event : CampaignEvent) (db : Store) : Store :=
  with_events
    ((fun row => if (ev_pk row =? ev_pk event)%Z then event else row) <$> events db) db.

(** Modelled from the spec: [event.update_flow_name()] of
    temba.campaigns.models recomputes the display name of the flow behind
    the event from the event's current configuration; the derivation of
    the name is the collaborator [flow_display_name]. *)
Definition CampaignEvent_update_flow_name `{Collaborators} (event : CampaignEvent) (db : Store)
  : Store :=
  with_flows
    ((fun f => if (fl_pk f =? ev_flow event)%Z then
                 {| fl_pk := fl_pk f; fl_uuid := fl_uuid f; fl_org := fl_org f;
                    fl_is_active := fl_is_active f; fl_is_archived := fl_is_archived f;
                    fl_name := flow_display_name event f;
                    fl_single_message := fl_single_message f |}
               else f) <$> flows db) db.

(** Modelled from the spec: [CampaignEvent.create_flow_event] of
    temba.campaigns.models stores a new event that references the flow. *)
Definition CampaignEvent_create_flow_event `{Collaborators} (campaign : Z)
    (relative_to : ContactField) (offset : Z) (unit : string) (flow : Flow)
    (delivery_hour : Z) (db : Store) : CampaignEvent * Store :=
  let pk := next_pk ev_pk (events db) in
  let event := {| ev_pk := pk; ev_uuid := uuid4 pk; ev_campaign := campaign;
                  ev_is_active := true; ev_event_type := FLOW_EVENT; ev_flow := fl_pk flow;
                  ev_message := None; ev_offset := offset; ev_unit := unit;
                  ev_delivery_hour := delivery_hour; ev_relative_to := cf_pk relative_to |} in
  (event, with_events (events db ++ [event]) db).

(** Modelled from the spec: [CampaignEvent.create_message_event] of
    temba.campaigns.models stores a new event that carries the inline text
    together with its hidden single-message flow. *)
Definition CampaignEvent_create_message_event `{Collaborators} (org : Z) (campaign : Z)
    (relative_to : ContactField) (offset : Z) (unit : string) (message : option string)
    (delivery_hour : Z) (db : Store) : CampaignEvent * Store :=
  let '(flow, db) := Flow_create_single_message org message db in
  let pk := next_pk ev_pk (events db) in
  let event := {| ev_pk := pk; ev_uuid := uuid4 pk; ev_campaign := campaign;
                  ev_is_active := true; ev_event_type := MESSAGE_EVENT; ev_flow := fl_pk flow;
                  ev_message := message; ev_offset := offset; ev_unit := unit;
                  ev_delivery_hour := delivery_hour; ev_relative_to := cf_pk relative_to |} in
  (event, with_events (events db ++ [event]) db).

Definition event_type_eqb (a b : event_type) : bool :=
  match a, b with
  | FLOW_EVENT, FLOW_EVENT | MESSAGE_EVENT, MESSAGE_EVENT => true
  | _, _ => false
  end.

Module CampaignEventWriteSerializer.
Section WithCollaborators.
Context `{Collaborators}.

(** uuid, campaign_uuid = UUIDField(required=False);
    offset = IntegerField(required=True); unit = CharField(required=True);
    delivery_hour = IntegerField(required=True);
    relative_to = CharField(required=True);
    message = CharField(required=False); flow_uuid = UUIDField(required=False);
    event, campaign, flow = IntegerField(required=False). *)
Definition declared_fields : list (string * bool * string) :=
  [("uuid", false, "uuid"); ("campaign_uuid", false, "campaign_uuid");
   ("offset", true, "offset"); ("unit", true, "unit");
   ("delivery_hour", true, "delivery_hour"); ("relative_to", true, "relative_to");
   ("message", false, "message"); ("flow_uuid", false, "flow_uuid");
   ("event", false, "event"); ("campaign", false, "campaign"); ("flow", false, "flow")].

(** [CampaignEvent.objects.filter(<key>, is_active=True, campaign__org=self.org)] *)
Definition live_events (self : Self) (db : Store) (key : CampaignEvent -> bool)
  : list CampaignEvent :=
  List.filter
    (fun e => key e && ev_is_active e
              && existsb (fun c => (ca_pk c =? ev_campaign e)%Z
                                   && (ca_org c =? org_id (org self))%Z) (campaigns db))
    (events db).

Definition validate_event (self : Self) (db : Store) (attrs : Attrs) (source : string)
  : result Attrs :=
  let event_id := get attrs source VNone in
  if truthy event_id then
    match head (live_events self db (fun e => int_is event_id (ev_pk e))) with
    | Some event => Ok (<["event_obj" := VObj (OEvent event)]> attrs)
    | None => Raise (ValidationError "No event with id %d" [event_id])
    end
  else Ok attrs.

Definition validate_uuid (self : Self) (db : Store) (attrs : Attrs) (source : string)
  : result Attrs :=
  let uuid := get attrs source VNone in
  if truthy uuid then
    match head (live_events self db (fun e => str_is uuid (ev_uuid e))) with
    | Some event => Ok (<["event_obj" := VObj (OEvent event)]> attrs)
    | None => Raise (ValidationError "No event with UUID %s" [uuid])
    end
  else Ok attrs.

Definition validate_campaign (self : Self) (db : Store) (attrs : Attrs) (source : string)
  : result Attrs :=
  let campaign_id := get attrs source VNone in
  if truthy campaign_id then
    match head (List.filter (fun c => int_is campaign_id (ca_pk c))
                            (Campaign_get_campaigns db (org_id (org self)))) with
    | Some campaign => Ok (<["campaign_obj" := VObj (OCampaign campaign)]> attrs)
    | None => Raise (ValidationError "No campaign with id %d" [campaign_id])
    end
  else Ok attrs.

Definition validate_campaign_uuid (self : Self) (db : Store) (attrs : Attrs)
    (source : string) : result Attrs :=
  let campaign_uuid := get attrs source VNone in
  if truthy campaign_uuid then
    match head (List.filter (fun c => str_is campaign_uuid (ca_uuid c))
                            (Campaign_get_campaigns db (org_id (org self)))) with
    | Some campaign => Ok (<["campaign_obj" := VObj (OCampaign campaign)]> attrs)
    | None => Raise (ValidationError "No campaign with UUID %s" [campaign_uuid])
    end
  else Ok attrs.

Definition validate_unit (self : Self) (db : Store) (attrs : Attrs) (source : string)
  : result Attrs :=
  unit ← getitem attrs source;
  if negb (existsb (str_is unit) ["M"; "H"; "D"; "W"])
  then Raise (ValidationError
                "Unit must be one of M, H, D or W for Minute, Hour, Day or Week" [])
  else Ok attrs.

(** The field is an [IntegerField]: the comparison is on an integer. *)
Definition validate_delivery_hour (self : Self) (db : Store) (attrs : Attrs)
    (source : string) : result Attrs :=
  delivery_hour ← getitem attrs source;
  delivery_hour ← as_int delivery_hour;
  if (delivery_hour <? -1)%Z || (23 <? delivery_hour)%Z
  then Raise (ValidationError
                "Delivery hour must be either -1 (for same hour) or 0-23" [])
  else Ok attrs.

(** [Flow.objects.filter(<key>, is_active=True, org=self.org)] *)
Definition live_flows (self : Self) (db : Store) (key : Flow -> bool) : list Flow :=
  List.filter (fun f => key f && fl_is_active f && (fl_org f =? org_id (org self))%Z)
              (flows db).

Definition validate_flow (self : Self) (db : Store) (attrs : Attrs) (source : string)
  : result Attrs :=
  let flow_id := get attrs source VNone in
  if truthy flow_id then
    match head (live_flows self db (fun f => int_is flow_id (fl_pk f))) with
    | Some flow => Ok (<["flow_obj" := VObj (OFlow flow)]> attrs)
    | None => Raise (ValidationError "No flow with id %d" [flow_id])
    end
  else Ok attrs.

Definition validate_flow_uuid (self : Self) (db : Store) (attrs : Attrs) (source : string)
  : result Attrs :=
  let flow_uuid := get attrs source VNone in
  if truthy flow_uuid then
    match head (live_flows self db (fun f => str_is flow_uuid (fl_uuid f))) with
    | Some flow => Ok (<["flow_obj" := VObj (OFlow flow)]> attrs)
    | None => Raise (ValidationError "No flow with UUID %s" [flow_uuid])
    end
  else Ok attrs.

Definition validate (self : Self) (db : Store) (attrs : Attrs) : result Attrs :=
  if negb (truthy (get attrs "message" VNone) || truthy (get attrs "flow_obj" VNone))
  then Raise (ValidationError "Must specify either a flow or a message for the event" [])
  else if truthy (get attrs "message" VNone) && truthy (get attrs "flow_obj" VNone)
  then Raise (ValidationError "Events cannot have both a message and a flow" [])
  else if truthy (get attrs "event_obj" VNone) && truthy (get attrs "campaign_obj" VNone)
  then Raise (ValidationError "Cannot specify campaign if updating an existing event" [])
  else Ok attrs.

Definition validate_method (field_name : string) : option validate_method_t :=
  if String.eqb field_name "event" then Some validate_event
  else if String.eqb field_name "uuid" then Some validate_uuid
  else if String.eqb field_name "campaign" then Some validate_campaign
  else if String.eqb field_name "campaign_uuid" then Some validate_campaign_uuid
  else if String.eqb field_name "unit" then Some validate_unit
  else if String.eqb field_name "delivery_hour" then Some validate_delivery_hour
  else if String.eqb field_name "flow" then Some validate_flow
  else if String.eqb field_name "flow_uuid" then Some validate_flow_uuid
  else None.

(** An inline text as stored on the event: a string or [None]. *)
Definition as_message (v : value) : result (option string) :=
  match v with
  | VNone => Ok None
  | VStr s => Ok (Some s)
  | _ => Raise TypeError
  end.

Definition as_flow (v : value) : result Flow :=
  match v with
  | VObj (OFlow f) => Ok f
  | _ => Raise AttributeError
  end.

Definition as_event (v : value) : result CampaignEvent :=
  match v with
  | VObj (OEvent e) => Ok e
  | _ => Raise AttributeError
  end.

Definition as_campaign (v : value) : result Campaign :=
  match v with
  | VObj (OCampaign c) => Ok c
  | _ => Raise AttributeError
  end.

(** The assignments to the loaded event when it is being set to a flow. *)
Definition set_to_flow (event : CampaignEvent) (flow : Flow) : CampaignEvent :=
  {| ev_pk := ev_pk event; ev_uuid := ev_uuid event; ev_campaign := ev_campaign event;
     ev_is_active := ev_is_active event; ev_event_type := FLOW_EVENT;
     ev_flow := fl_pk flow; ev_message := None; ev_offset := ev_offset event;
     ev_unit := ev_unit event; ev_delivery_hour := ev_delivery_hour event;
     ev_relative_to := ev_relative_to event |}.

(** The assignments to the loaded event when it is being set to a
    message: the text, and the type and flow when given. *)
Definition set_to_message (event : CampaignEvent) (message : option string)
    (event_type : event_type) (flow : Z) : CampaignEvent :=
  {| ev_pk := ev_pk event; ev_uuid := ev_uuid event; ev_campaign := ev_campaign event;
     ev_is_active := ev_is_active event; ev_event_type := event_type;
     ev_flow := flow; ev_message := message; ev_offset := ev_offset event;
     ev_unit := ev_unit event; ev_delivery_hour := ev_delivery_hour event;
     ev_relative_to := ev_relative_to event |}.

(** "update our other attributes" *)
Definition set_other_attributes (event : CampaignEvent) (offset : Z) (unit : string)
    (delivery_hour : Z) (relative_to : ContactField) : CampaignEvent :=
  {| ev_pk := ev_pk event; ev_uuid := ev_uuid event; ev_campaign := ev_campaign event;
     ev_is_active := ev_is_active event; ev_event_type := ev_event_type event;
     ev_flow := ev_flow event; ev_message := ev_message event; ev_offset := offset;
     ev_unit := unit; ev_delivery_hour := delivery_hour;
     ev_relative_to := cf_pk relative_to |}.

Definition restore_object (self : Self) (db : Store) (attrs : Attrs)
  : result (value * Store) :=
  let event := get attrs "event_obj" VNone in
  let campaign := get attrs "campaign_obj" VNone in
  let message := get attrs "message" VNone in
  let flow := get attrs "flow_obj" VNone in
  offset ← as_int (get attrs "offset" VNone);
  unit ← as_str (get attrs "unit" VNone);
  delivery_hour ← as_int (get attrs "delivery_hour" VNone);
  relative_to_label ← as_str (get attrs "relative_to" VNone);
  (* ensure contact field exists *)
  let '(relative_to, db) :=
    match ContactField_get_by_label db (org_id (org self)) relative_to_label with
    | Some relative_to => (relative_to, db)
    | None =>
        let key := api_make_key relative_to_label in
        ContactField_get_or_create (org_id (org self)) key relative_to_label db
    end in
  if truthy event then
    event ← as_event event;
    '(event, db) ←
      (if truthy flow then
         (* we are being set to a flow *)
         flow ← as_flow flow;
         Ok (set_to_flow event flow, db)
       else
         (* we are being set to a message *)
         message ← as_message message;
         if negb (event_type_eqb (ev_event_type event) MESSAGE_EVENT) then
           let '(flow, db) := Flow_create_single_message (org_id (org self)) message db in
           Ok (set_to_message event message MESSAGE_EVENT (fl_pk flow), db)
         else
           text ← getitem attrs "message";
           text ← as_str text;
           Ok (set_to_message event message (ev_event_type event) (ev_flow event),
               Flow_update_single_message_flow (ev_flow event) text db));
    let event := set_other_attributes event offset unit delivery_hour relative_to in
    let db := CampaignEvent_save event db in
    let db := CampaignEvent_update_flow_name event db in
    Ok (VObj (OEvent event), db)
  else
    campaign ← as_campaign campaign;
    '(event, db) ←
      (if truthy flow then
         flow ← as_flow flow;
         Ok (CampaignEvent_create_flow_event (ca_pk campaign) relative_to offset unit flow
               delivery_hour db)
       else
         message ← as_message message;
         Ok (CampaignEvent_create_message_event (org_id (org self)) (ca_pk campaign)
               relative_to offset unit message delivery_hour db));
    let db := CampaignEvent_update_flow_name event db in
    Ok (VObj (OEvent event), db).

Definition serializer : Serializer :=
  {| ser_fields := declared_fields;
     ser_validate_method := validate_method;
     ser_validate := validate;
     ser_restore_object := restore_object |}.

End WithCollaborators.
End CampaignEventWriteSerializer.

(** ** FlowRunStartSerializer *)

Module FlowRunStartSerializer.

(** [Flow.objects.get(uuid=flow_uuid)] looks at every flow, of any org,
    and raises [DoesNotExist] when there is none; the archived check
    comes before the org check. *)
Definition validate_flow_uuid (self : Self) (db : Store) (attrs : Attrs) (source : string)
  : result Attrs :=
  let flow_uuid := get attrs source VNone in
  if truthy flow_uuid then
    flow ← objects_get (List.filter (fun f => str_is flow_uuid (fl_uuid f)) (flows db));
    if fl_is_archived flow
    then Raise (ValidationError "You cannot start an archived flow." [])
    else
      (* do they have permission to use this flow? *)
      if negb (org_id (org self) =? fl_org flow)%Z
      then Raise (ValidationError "Invalid UUID '%s' - flow does not exist."
                    [VStr (fl_uuid flow)])
      else Ok (<["flow" := VObj (OFlow flow)]> attrs)
  else Ok attrs.

Section WithCollaborators.
Context `{Collaborators}.

(** [flow.start(groups, contacts, restart_participants, extra)] of
    temba.flows.models: what it returns and the database after it. *)
Variable start : Flow -> value -> value -> value -> value -> Store -> value * Store.

(** flow_uuid = CharField(required=False); groups, contacts =
    StringArrayField(required=False); extra = DictionaryField(required=False);
    restart_participants = BooleanField(required=False, default=True);
    flow = FlowField(required=False); contact = StringArrayField(required=False);
    phone = PhoneArrayField(required=False). *)
Definition declared_fields : list (string * bool * string) :=
  [("flow_uuid", false, "flow_uuid"); ("groups", false, "groups");
   ("contacts", false, "contacts"); ("extra", false, "extra");
   ("restart_participants", false, "restart_participants"); ("flow", false, "flow");
   ("contact", false, "contact"); ("phone", false, "phone")].

Definition validate (self : Self) (db : Store) (attrs : Attrs) : result Attrs :=
  if negb (truthy (get attrs "flow" VNone) || truthy (get attrs "flow_uuid" VNone))
  then Raise (ValidationError "Use flow_uuid to specify which flow to start" [])
  else Ok attrs.

Definition validate_flow (self : Self) (db : Store) (attrs : Attrs) (source : string)
  : result Attrs :=
  let flow := get attrs source VNone in
  if truthy flow then
    flow ← CampaignEventWriteSerializer.as_flow flow;
    if fl_is_archived flow
    then Raise (ValidationError "You cannot start an archived flow." [])
    else
      (* do they have permission to use this flow? *)
      if negb (org_id (org self) =? fl_org flow)%Z
      then Raise (ValidationError "Invalid pk '%d' - flow does not exist." [VInt (fl_pk flow)])
      else Ok attrs
  else Ok attrs.

Definition validate_groups (self : Self) (db : Store) (attrs : Attrs) (source : string)
  : result Attrs :=
  uuids ← iter (get attrs source (VList []));
  groups ← resolve_groups db self uuids [];
  Ok (<["groups" := VList groups]> attrs).

Definition validate_contacts (self : Self) (db : Store) (attrs : Attrs) (source : string)
  : result Attrs :=
  let uuids := get attrs source (VList []) in
  if truthy uuids then
    uuids ← iter uuids;
    contacts ← resolve_contacts db self uuids [];
    Ok (<["contacts" := VList contacts]> attrs)
  else Ok attrs.

(** The deprecated field: it stores its contacts under 'contacts' too. *)
Definition validate_contact (self : Self) (db : Store) (attrs : Attrs) (source : string)
  : result Attrs :=
  let uuids := get attrs source (VList []) in
  if truthy uuids then
    uuids ← iter (get attrs source (VList []));
    contacts ← resolve_contacts db self uuids [];
    Ok (<["contacts" := VList contacts]> attrs)
  else Ok attrs.

Fixpoint validate_phone_loop (country : Country) (numbers : list value) : result unit :=
  match numbers with
  | [] => Ok tt
  | item :: rest =>
      '(tel, phone) ← as_urn item;
      if negb (possible_number phone (country_code country))
      then Raise (ValidationError "Invalid phone number: '%s'" [VStr phone])
      else validate_phone_loop country rest
  end.

Definition validate_phone (self : Self) (db : Store) (attrs : Attrs) (source : string)
  : result Attrs :=
  if is_anon (org self)
  then Raise (ValidationError "Cannot start flows for anonymous organizations" [])
  else
    let numbers := get attrs source (VList []) in
    if truthy numbers then
      (* get a channel *)
      match get_send_channel db (org_id (org self)) TEL_SCHEME with
      | Some channel =>
          (* check our numbers for validity *)
          numbers ← iter numbers;
          _ ← validate_phone_loop (ch_country channel) numbers;
          Ok attrs
      | None =>
          Raise (ValidationError
                   "You cannot start a flow for a phone number without a phone channel" [])
      end
    else Ok attrs.

Definition validate_method (field_name : string) : option validate_method_t :=
  if String.eqb field_name "flow_uuid" then Some validate_flow_uuid
  else if String.eqb field_name "flow" then Some validate_flow
  else if String.eqb field_name "groups" then Some validate_groups
  else if String.eqb field_name "contacts" then Some validate_contacts
  else if String.eqb field_name "contact" then Some validate_contact
  else if String.eqb field_name "phone" then Some validate_phone
  else None.

(** The loop of [restore_object] over the phone URNs: each is a separate
    contact of [channel.org], appended to [contacts]. *)
Fixpoint append_phone_contacts (channel : option Channel) (phone_urns : list value)
    (contacts : value) (db : Store) : result (value * Store) :=
  match phone_urns with
  | [] => Ok (contacts, db)
  | urn :: rest =>
      match channel with
      | None => Raise AttributeError
      | Some channel =>
          u ← as_urn urn;
          let '(contact, db) := Contact_get_or_create (ch_org channel) u db in
          match contacts with
          | VList l =>
              append_phone_contacts (Some channel) rest (VList (l ++ [VObj (OContact contact)])) db
          | _ => Raise AttributeError
          end
      end
  end.

Definition restore_object (self : Self) (db : Store) (attrs : Attrs)
  : result (value * Store) :=
  flow ← getitem attrs "flow";
  let groups := get attrs "groups" (VList []) in
  let contacts := get attrs "contacts" (VList []) in
  let extra := get attrs "extra" VNone in
  let restart_participants := get attrs "restart_participants" (VBool true) in
  (* include contacts created/matched via deprecated phone field *)
  let phone_urns := get attrs "phone" (VList []) in
  '(contacts, db) ←
    (if truthy phone_urns then
       let channel := get_send_channel db (org_id (org self)) TEL_SCHEME in
       phone_urns ← iter phone_urns;
       append_phone_contacts channel phone_urns contacts db
     else Ok (contacts, db));
  if truthy contacts || truthy groups then
    flow ← CampaignEventWriteSerializer.as_flow flow;
    Ok (start flow groups contacts restart_participants extra db)
  else Ok (VList [], db).

Definition serializer : Serializer :=
  {| ser_fields := declared_fields;
     ser_validate_method := validate_method;
     ser_validate := validate;
     ser_restore_object := restore_object |}.

End WithCollaborators.
End FlowRunStartSerializer.

(** ** MsgBulkActionSerializer *)

(** Modelled from the spec: [label.toggle_label(msgs, add)] of
    temba.msgs.models adds the label to, or removes it from, each of the
    given messages; a message that already has the label is not labelled
    twice. *)
Definition Label_toggle_label (label : Label) (add : bool) (msg : Msg) : Msg :=
  let has := existsb (Z.eqb (lb_pk label)) (msg_labels msg) in
  let labels :=
    if add then (if has then msg_labels msg else msg_labels msg ++ [lb_pk label])
    else List.filter (fun l => negb (l =? lb_pk label)%Z) (msg_labels msg) in
  {| msg_pk := msg_pk msg; msg_org := msg_org msg; msg_direction := msg_direction msg;
     msg_visibility := msg_visibility msg; msg_labels := labels |}.

Module MsgBulkActionSerializer.

(** [validate]: label and unlabel need the key 'label' or the key
    'label_uuid' in the attributes. *)
Definition validate (attrs : Attrs) : result Attrs :=
  action ← getitem attrs "action";
  if existsb (str_is action) ["label"; "unlabel"]
     && negb (contains attrs "label" || contains attrs "label_uuid")
  then Raise (ValidationError "For action %s you must also specify label or label_uuid"
                [action])
  else Ok attrs.

Definition validate_action (attrs : Attrs) (source : string) : result Attrs :=
  action ← getitem attrs source;
  if negb (existsb (str_is action) ["label"; "unlabel"; "archive"; "unarchive"; "delete"])
  then Raise (ValidationError "Invalid action name: %s" [action])
  else Ok attrs.

(** [validate_label_uuid], over the rows of [Label.user_labels]. *)
Definition validate_label_uuid (self : Self) (user_labels : list Label) (attrs : Attrs)
    (source : string) : result Attrs :=
  let label_uuid := get attrs source VNone in
  if truthy label_uuid then
    match head (List.filter (fun l => (lb_org l =? org_id (org self))%Z
                                      && str_is label_uuid (lb_uuid l)) user_labels) with
    | None => Raise (ValidationError "No such label with UUID: %s" [label_uuid])
    | Some label => Ok (<["label" := VObj (OLabel label)]> attrs)
    end
  else Ok attrs.

Section WithLabelModel.

(** [Label.is_valid_name] and [Label.get_or_create(org, user, name, None)]
    of temba.msgs.models. *)
Variable is_valid_name : string -> bool.
Variable get_or_create : Z -> string -> list Label -> Label * list Label.

(** [validate_label]: a label named in the request is looked up or
    created at once, in the validation stage. *)
Definition validate_label (self : Self) (user_labels : list Label) (attrs : Attrs)
    (source : string) : result (Attrs * list Label) :=
  let label_name := get attrs source VNone in
  if truthy label_name then
    name ← as_str label_name;
    if negb (is_valid_name name)
    then Raise (ValidationError "Label name must not be blank or begin with + or -" [])
    else
      let '(label, user_labels) := get_or_create (org_id (org self)) name user_labels in
      Ok (<["label" := VObj (OLabel label)]> attrs, user_labels)
  else Ok (attrs, user_labels).

End WithLabelModel.

Section WithTransitions.

(** The state transitions [msg.archive()], [msg.restore()] and
    [msg.release()] of temba.msgs.models, each on one message. *)
Variables archive restore release : Msg -> Msg.

Definition is_incoming (d : direction) : bool :=
  match d with INCOMING => true | OUTGOING => false end.

(** An element of [pk__in] compared with a primary key.  The ids are the
    output of [IntegerArrayField], which lets integers through, and a
    Python bool is an integer: the lookup prepares [True] as 1 and [False]
    as 0. *)
Definition pk_is (id : value) (pk : Z) : bool :=
  match id with
  | VInt n => (n =? pk)%Z
  | VBool b => ((if b then 1 else 0) =? pk)%Z
  | _ => false
  end.

(** [Msg.objects.filter(org=self.org, direction=INCOMING, pk__in=msg_ids)]:
    whether a row is in the queryset. *)
Definition selected (self : Self) (msg_ids : list value) (msg : Msg) : bool :=
  (msg_org msg =? org_id (org self))%Z
  && is_incoming (msg_direction msg)
  && existsb (fun id => pk_is id (msg_pk msg)) msg_ids.

(** A transition saved on each row of the queryset; the other rows stay
    as they are. *)
Definition transition (self : Self) (msg_ids : list value) (f : Msg -> Msg) (db : Store)
  : Store :=
  with_msgs ((fun msg => if selected self msg_ids msg then f msg else msg) <$> msgs db) db.

Definition as_label (v : value) : result Label :=
  match v with
  | VObj (OLabel l) => Ok l
  | _ => Raise AttributeError
  end.

Definition restore_object (self : Self) (db : Store) (attrs : Attrs)
  : result (value * Store) :=
  msg_ids ← getitem attrs "messages";
  action ← getitem attrs "action";
  msg_ids ← iter msg_ids;
  if str_is action "label" then
    label ← getitem attrs "label";
    label ← as_label label;
    Ok (VNone, transition self msg_ids (Label_toggle_label label true) db)
  else if str_is action "unlabel" then
    label ← getitem attrs "label";
    label ← as_label label;
    Ok (VNone, transition self msg_ids (Label_toggle_label label false) db)
  else
    Ok (VNone,
        transition self msg_ids
          (fun msg =>
             if str_is action "archive" then archive msg
             else if str_is action "unarchive" then restore msg
             else if str_is action "delete" then release msg
             else msg) db).

End WithTransitions.
End MsgBulkActionSerializer.

(** ** ContactWriteSerializer *)

(** [iexact]: equality up to the case of ASCII letters. *)
Definition lower_ascii (c : ascii) : ascii :=
  let n := nat_of_ascii c in
  if (65 <=? n)%nat && (n <=? 90)%nat then ascii_of_nat (n + 32) else c.

Fixpoint lower (s : string) : string :=
  match s with
  | EmptyString => EmptyString
  | String c rest => String (lower_ascii c) (lower rest)
  end.

Definition iexact (a b : string) : bool := String.eqb (lower a) (lower b).

Module ContactWriteSerializer.

(** ["%s:%s" % u] for a (scheme, path) tuple of strings. *)
Definition format_urn (u : value) : result string :=
  match u with
  | VTuple [VStr scheme; VStr path] => Ok (scheme ++ ":" ++ path)%string
  | _ => Raise TypeError
  end.

Fixpoint format_urns (urns : list value) : result (list string) :=
  match urns with
  | [] => Ok []
  | u :: rest => s ← format_urn u; ss ← format_urns rest; Ok (s :: ss)
  end.

(** [Contact.objects.filter(org=self.org).filter(urn_query).exclude(uuid=uuid)]
    where [urn_query] is [Q(pk__lt=0)] or-ed with one
    [Q(urns__urn__iexact=urn_string)] per string. *)
Definition other_contacts (self : Self) (db : Store) (urns_strings : list string)
    (uuid : value) : list Contact :=
  List.filter
    (fun c =>
       (ct_org c =? org_id (org self))%Z
       && ((ct_pk c <? 0)%Z
           || existsb (fun urn_string =>
                         existsb (fun u => iexact (urn_urn u) urn_string) (ct_urns c))
                      urns_strings)
       && negb (str_is uuid (ct_uuid c)))
    (contacts db).

Definition identity_error : exn :=
  ValidationError "Must provide either urns, phone or uuid but only one of each" [].

Definition validate (self : Self) (db : Store) (attrs : Attrs) : result Attrs :=
  let urns := get attrs "urns" (VList []) in
  let phone := get attrs "phone" VNone in
  let uuid := get attrs "uuid" VNone in
  if (negb (truthy urns) && negb (truthy phone) && negb (truthy uuid))
     || (truthy urns && truthy phone)
  then Raise identity_error
  else if truthy (get attrs "group_uuids" (VList [])) && truthy (get attrs "groups" (VList []))
  then Raise (ValidationError
                "Parameter groups is deprecated and can't be used together with group_uuids" [])
  else if truthy uuid then
    urns ← (if truthy phone
            then p ← getitem attrs "phone"; Ok (VList [VTuple [VStr TEL_SCHEME; p]])
            else Ok urns);
    if truthy urns then
      l ← iter urns;
      urns_strings ← format_urns l;
      match other_contacts self db urns_strings uuid with
      | _ :: _ =>
          if truthy phone
          then Raise (ValidationError "phone %s is used by another contact" [phone])
          else Raise (ValidationError "URNs %s are used by other contacts"
                        [VList (VStr <$> urns_strings)])
      | [] => Ok attrs
      end
    else Ok attrs
  else Ok attrs.

(** [validate_fields], with [self.context['contact_fields']] as
    [org_fields]: every key of the dict must be the key or the label of one
    of the org's fields. *)
Fixpoint validate_fields_loop (org_fields : list ContactField)
    (items : list (string * value)) : result unit :=
  match items with
  | [] => Ok tt
  | (key, _) :: rest =>
      if existsb (fun field => String.eqb (cf_key field) key
                               || String.eqb (cf_label field) key) org_fields
      then validate_fields_loop org_fields rest
      else Raise (ValidationError "Invalid contact field key: '%s'" [VStr key])
  end.

Definition validate_fields (org_fields : list ContactField) (attrs : Attrs)
    (source : string) : result Attrs :=
  match get attrs source (VDict []) with
  | VDict fields =>
      match fields with
      | [] => Ok attrs
      | _ => _ ← validate_fields_loop org_fields fields; Ok attrs
      end
  | _ => Raise AttributeError
  end.

Section WithLanguages.

(** [language.lower()] and the ISO codes of the languages of the org. *)
Variable str_lower : string -> string.
Variable supported_languages : list string.

Definition validate_language (attrs : Attrs) (source : string) : result Attrs :=
  if contains attrs "language" then
    let language := get attrs source VNone in
    if truthy language then
      (* no languages configured *)
      match supported_languages with
      | [] => Raise (ValidationError
                       "You do not have any languages configured for your organization." [])
      | _ =>
          match language with
          | VStr language_str =>
              (* is it one of the languages on this org? *)
              if negb (existsb (String.eqb (str_lower language_str)) supported_languages)
              then Raise (ValidationError
                            "Language code '%s' is not one of supported for organization. (%s)"
                            [language; VList (VStr <$> supported_languages)])
              else Ok (<["language" := VStr (str_lower language_str)]> attrs)
          | _ => Raise AttributeError
          end
      end
    else Ok (<["language" := VNone]> attrs)
  else Ok attrs.

End WithLanguages.

Section WithModel.
Context `{Collaborators}.

(** [phonenumbers.parse(phone, None)], [is_possible_number] and
    [format_number(normalized, E164)]: the E164 form of a number that
    parses and is possible, and nothing for any other string. *)
Variable phone_e164 : string -> option string.

(** [ContactGroup.is_valid_name]. *)
Variable is_valid_name : value -> bool.

(** [language.lower()], the ISO codes of the languages of the org, and
    [self.context['contact_fields']]. *)
Variable str_lower : string -> string.
Variable supported_languages : list string.
Variable context_contact_fields : list ContactField.

(** Methods of the Contact model of temba.contacts.models: each gives the
    instance and the database after the call.
    [contact.update_urns(urns)];
    [Contact.get_or_create(org, user, urns=urns, uuid=uuid)];
    the assignments to the changed attributes and
    [contact.save(update_fields=changed)];
    [contact.set_field(key, value)]; [contact.update_groups(groups)]. *)
Variable update_urns : Contact -> value -> Store -> Contact * Store.
Variable get_or_create : Z -> value -> value -> Store -> Contact * Store.
Variable save : Contact -> list (string * value) -> Store -> Contact * Store.
Variable set_field : Contact -> string -> value -> Store -> Contact * Store.
Variable update_groups : Contact -> value -> Store -> Contact * Store.

(** uuid, name, language = CharField(required=False);
    urns, group_uuids = StringArrayField(required=False);
    fields = DictionaryField(required=False);
    phone = CharField(required=False);
    groups = StringArrayField(required=False). *)
Definition declared_fields : list (string * bool * string) :=
  [("uuid", false, "uuid"); ("name", false, "name"); ("language", false, "language");
   ("urns", false, "urns"); ("group_uuids", false, "group_uuids");
   ("fields", false, "fields"); ("phone", false, "phone"); ("groups", false, "groups")].

Definition validate_uuid (self : Self) (db : Store) (attrs : Attrs) (source : string)
  : result Attrs :=
  let uuid := get attrs source (VStr "") in
  if truthy uuid then
    match head (contacts_by_uuid db self uuid) with
    | Some contact => Ok attrs
    | None => Raise (ValidationError "Unable to find contact with UUID: %s" [uuid])
    end
  else Ok attrs.

(** A phone that does not parse, or is not possible, is refused with the
    same message; the E164 form replaces what the request gave. *)
Definition validate_phone (self : Self) (db : Store) (attrs : Attrs) (source : string)
  : result Attrs :=
  let phone := get attrs source VNone in
  if truthy phone then
    match phone with
    | VStr number =>
        match phone_e164 number with
        | Some normalized => Ok (<["phone" := VStr normalized]> attrs)
        | None => Raise (ValidationError "Invalid phone number: '%s'" [phone])
        end
    | _ => Raise (ValidationError "Invalid phone number: '%s'" [phone])
    end
  else Ok attrs.

Fixpoint validate_urns_loop (request_urns : list value) (urns : list value)
  : result (list value) :=
  match request_urns with
  | [] => Ok urns
  | urn :: rest =>
      match urn with
      | VStr u =>
          match ContactURN_parse_urn u with
          | Raise (ValueError _) => Raise (ValidationError "Unable to parse URN: '%s'" [urn])
          | Raise e => Raise e
          | Ok (scheme, path) =>
              let '(norm_scheme, norm_path) := ContactURN_normalize_urn scheme path None in
              if negb (ContactURN_validate_urn norm_scheme norm_path)
              then Raise (ValidationError "Invalid URN: '%s'" [urn])
              else validate_urns_loop rest (urns ++ [VTuple [VStr norm_scheme; VStr norm_path]])
          end
      | _ => Raise AttributeError
      end
  end.

(** The key 'urns' is always set: to [None] when the request has none. *)
Definition validate_urns (self : Self) (db : Store) (attrs : Attrs) (source : string)
  : result Attrs :=
  match get attrs source VNone with
  | VNone => Ok (<["urns" := VNone]> attrs)
  | request_urns =>
      l ← iter request_urns;
      urns ← validate_urns_loop l [];
      Ok (<["urns" := VList urns]> attrs)
  end.

Fixpoint validate_groups_loop (group_names : list value) (groups : list value)
  : result (list value) :=
  match group_names with
  | [] => Ok groups
  | name :: rest =>
      if negb (is_valid_name name)
      then Raise (ValidationError "Invalid group name: '%s'" [name])
      else validate_groups_loop rest (groups ++ [name])
  end.

Definition validate_groups (self : Self) (db : Store) (attrs : Attrs) (source : string)
  : result Attrs :=
  match get attrs source VNone with
  | VNone => Ok attrs
  | group_names =>
      l ← iter group_names;
      groups ← validate_groups_loop l [];
      Ok (<["groups" := VList groups]> attrs)
  end.

Definition validate_group_uuids (self : Self) (db : Store) (attrs : Attrs) (source : string)
  : result Attrs :=
  match get attrs source VNone with
  | VNone => Ok attrs
  | group_uuids =>
      l ← iter group_uuids;
      groups ← resolve_groups db self l [];
      Ok (<["group_uuids" := VList groups]> attrs)
  end.

Definition validate_method (field_name : string) : option validate_method_t :=
  if String.eqb field_name "uuid" then Some validate_uuid
  else if String.eqb field_name "language"
  then Some (fun self db attrs source =>
               validate_language str_lower supported_languages attrs source)
  else if String.eqb field_name "urns" then Some validate_urns
  else if String.eqb field_name "group_uuids" then Some validate_group_uuids
  else if String.eqb field_name "fields"
  then Some (fun self db attrs source => validate_fields context_contact_fields attrs source)
  else if String.eqb field_name "phone" then Some validate_phone
  else if String.eqb field_name "groups" then Some validate_groups
  else None.

Definition is_none (v : value) : bool :=
  match v with VNone => true | _ => false end.

(** The loop of [restore_object] over the custom fields: a key is looked
    up among the live fields of the org by key, ignoring case, then by
    label; a key that matches neither is skipped. *)
Fixpoint update_fields (org : Z) (items : list (string * value)) (contact : Contact)
    (db : Store) : Contact * Store :=
  match items with
  | [] => (contact, db)
  | (key, v) :: rest =>
      match head (List.filter (fun f => (cf_org f =? org)%Z && iexact (cf_key f) key
                                        && cf_is_active f) (contact_fields db)) with
      | Some existing_by_key =>
          let '(contact, db) := set_field contact (cf_key existing_by_key) v db in
          update_fields org rest contact db
      | None =>
          match ContactField_get_by_label db org key with
          | Some existing_by_label =>
              let '(contact, db) := set_field contact (cf_key existing_by_label) v db in
              update_fields org rest contact db
          | None => update_fields org rest contact db
          end
      end
  end.

(** [[ContactGroup.get_or_create(self.org, self.user, name) for name in
    group_names]]: by name creates groups if necessary. *)
Fixpoint get_or_create_groups (org : Z) (group_names : list value) (db : Store)
  : result (list value * Store) :=
  match group_names with
  | [] => Ok ([], db)
  | name :: rest =>
      name ← as_str name;
      let '(group, db) := ContactGroup_get_or_create org name db in
      '(groups, db) ← get_or_create_groups org rest db;
      Ok (VObj (OGroup group) :: groups, db)
  end.

Definition restore_object (self : Self) (db : Store) (attrs : Attrs)
  : result (value * Store) :=
  if is_anon (org self)
  then Raise (ValidationError "Cannot update contacts on anonymous organizations" [])
  else
    let uuid := get attrs "uuid" VNone in
    loaded ← (if truthy uuid
              then contact ← objects_get (contacts_by_uuid db self uuid); Ok (Some contact)
              else Ok None);
    let urns := get attrs "urns" VNone in
    let phone := get attrs "phone" VNone in
    (* user didn't specify either urns or phone, stick to what already exists *)
    urns ← (if is_none urns && is_none phone then
              match loaded with
              | Some contact =>
                  Ok (VList ((fun u => VTuple [VStr (urn_scheme u); VStr (urn_path u)])
                               <$> ct_urns contact))
              | None => Raise UnboundLocalError
              end
            else Ok urns);
    (* user only specified phone, build our urns from it *)
    urns ← (if truthy phone
            then p ← getitem attrs "phone"; Ok (VList [VTuple [VStr TEL_SCHEME; p]])
            else Ok urns);
    let '(contact, db) :=
      match loaded with
      | Some contact => update_urns contact urns db
      | None => get_or_create (org_id (org self)) urns uuid db
      end in
    (* update our name and language *)
    let changed :=
      (if truthy (get attrs "name" VNone) then [("name", get attrs "name" VNone)] else [])
      ++ (if contains attrs "language" then [("language", get attrs "language" VNone)]
          else []) in
    (* save our contact if it changed *)
    let '(contact, db) :=
      match changed with
      | [] => (contact, db)
      | _ => save contact changed db
      end in
    (* update our fields *)
    '(contact, db) ←
      match get attrs "fields" VNone with
      | VNone => Ok (contact, db)
      | VDict items => Ok (update_fields (org_id (org self)) items contact db)
      | _ => Raise AttributeError
      end;
    (* update our groups by UUID or name (deprecated) *)
    '(contact, db) ←
      match get attrs "group_uuids" VNone with
      | VNone =>
          match get attrs "groups" VNone with
          | VNone => Ok (contact, db)
          | group_names =>
              (* by name creates groups if necessary *)
              l ← iter group_names;
              '(groups, db) ← get_or_create_groups (org_id (org self)) l db;
              Ok (update_groups contact (VList groups) db)
          end
      | group_uuids => Ok (update_groups contact group_uuids db)
      end;
    Ok (VObj (OContact contact), db).

Definition serializer : Serializer :=
  {| ser_fields := declared_fields;
     ser_validate_method := validate_method;
     ser_validate := validate;
     ser_restore_object := restore_object |}.

End WithModel.

End ContactWriteSerializer.

(** ** IntegerArrayField and DictionaryField *)

(** [isinstance(v, int) or isinstance(v, long)]: in Python a bool is an
    int. *)
Definition isinstance_int (v : value) : bool :=
  match v with
  | VInt _ | VBool _ => true
  | _ => false
  end.

Module IntegerArrayField.

Fixpoint check_loop (data : list value) : result unit :=
  match data with
  | [] => Ok tt
  | v :: rest =>
      if negb (isinstance_int v)
      then Raise (ValidationError "Invalid, values must be integers or longs: %s" [v])
      else check_loop rest
  end.

Definition from_native (data : value) : result value :=
  if isinstance_int data then Ok (VList [data])
  else match data with
       | VList l => _ ← check_loop l; Ok (VList l)
       | _ => Raise (ValidationError "Invalid, must be array: %s" [data])
       end.

End IntegerArrayField.

Module DictionaryField.

(** The loop over the keys of the dict; a [VDict] holds each key once,
    with its value, and its keys are strings. *)
Fixpoint check_loop (data : list (string * value)) : result unit :=
  match data with
  | [] => Ok tt
  | (key, v) :: rest =>
      if negb (isinstance_basestring (VStr key)) || negb (isinstance_basestring v)
      then Raise (ValidationError "Invalid, keys and values must both be strings: %s" [v])
      else check_loop rest
  end.

Definition from_native (data : value) : result value :=
  match data with
  | VDict d => _ ← check_loop d; Ok data
  | _ => Raise (ValidationError "Invalid, must be dictionary: %s" [data])
  end.

End DictionaryField.

(** ** LabelWriteSerializer

    The methods are over the rows of [Label.user_labels]. *)

Module LabelWriteSerializer.

Definition validate_uuid (self : Self) (user_labels : list Label) (attrs : Attrs)
    (source : string) : result Attrs :=
  let uuid := get attrs source VNone in
  if truthy uuid
     && negb (existsb (fun l => (lb_org l =? org_id (org self))%Z && str_is uuid (lb_uuid l))
                      user_labels)
  then Raise (ValidationError "No such message label with UUID: %s" [uuid])
  else Ok attrs.

(** [Label.user_labels.filter(org=self.org, name=name).exclude(uuid=uuid).exists()] *)
Definition validate_name (self : Self) (user_labels : list Label) (attrs : Attrs)
    (source : string) : result Attrs :=
  let uuid := get attrs "uuid" VNone in
  let name := get attrs source VNone in
  if existsb (fun l => (lb_org l =? org_id (org self))%Z && str_is name (lb_name l)
                       && negb (str_is uuid (lb_uuid l))) user_labels
  then Raise (ValidationError "Label name must be unique" [])
  else Ok attrs.

(** [existing.save()] of a loaded row. *)
Definition save (label : Label) (user_labels : list Label) : list Label :=
  (fun row => if (lb_pk row =? lb_pk label)%Z then label else row) <$> user_labels.

Section WithGetOrCreate.

(** [Label.get_or_create(org, user, name)] of temba.msgs.models. *)
Variable get_or_create : Z -> string -> list Label -> Label * list Label.

Definition restore_object (self : Self) (user_labels : list Label) (attrs : Attrs)
  : result (value * list Label) :=
  let uuid := get attrs "uuid" VNone in
  let name := get attrs "name" VNone in
  if truthy uuid then
    existing ← objects_get
                 (List.filter (fun l => (lb_org l =? org_id (org self))%Z
                                        && str_is uuid (lb_uuid l)) user_labels);
    name ← as_str name;
    let existing := {| lb_pk := lb_pk existing; lb_uuid := lb_uuid existing;
                       lb_org := lb_org existing; lb_name := name |} in
    Ok (VObj (OLabel existing), save existing user_labels)
  else
    name ← as_str name;
    let '(label, user_labels) := get_or_create (org_id (org self)) name user_labels in
    Ok (VObj (OLabel label), user_labels).

End WithGetOrCreate.
End LabelWriteSerializer.

(** ** A sample environment

    Collaborators for evaluating the serializers on concrete requests whose
    addresses are already in canonical form: parsing splits at the first
    colon, normalizing leaves the address as it is, every parsed address
    and every phone number is valid, the send channel is the first active
    channel of the org, sending leaves the database as it is, and only the
    hidden flow of a message event is renamed. *)
Module Sample.

Fixpoint split_colon (s : string) : option (string * string) :=
  match s with
  | EmptyString => None
  | String c rest =>
      if Ascii.eqb c ":" then Some (EmptyString, rest)
      else match split_colon rest with
           | Some (scheme, path) => Some (String c scheme, path)
           | None => None
           end
  end.

Definition parse_urn (urn : string) : result (string * string) :=
  match split_colon urn with
  | Some (scheme, path) =>
      if String.eqb scheme "" then Raise (ValueError "URN has no scheme")
      else Ok (scheme, path)
  | None => Raise (ValueError "URN has no scheme")
  end.

#[export] Instance collaborators : Collaborators :=
  {| ContactURN_parse_urn := parse_urn;
     ContactURN_normalize_urn := fun scheme path _ => (scheme, path);
     ContactURN_validate_urn := fun _ path => negb (String.eqb path "");
     possible_number := fun _ _ => true;
     get_send_channel := fun db org _ =>
       head (List.filter (fun c => ch_is_active c && (ch_org c =? org)%Z) (channels db));
     api_make_key := fun label => label;
     flow_display_name := fun event flow =>
       match ev_event_type event with
       | MESSAGE_EVENT => "Single Message"
       | FLOW_EVENT => fl_name flow
       end;
     uuid4 := fun pk => ("uuid-" ++ String (ascii_of_nat (48 + Z.to_nat pk)) "")%string;
     send := fun _ db => db |}.

Definition empty_store : Store :=
  {| channels := []; flows := []; contacts := []; groups := []; contact_fields := [];
     campaigns := []; events := []; msgs := []; broadcasts := [] |}.

Definition org1 : Org := {| org_id := 1; is_anon := false |}.
Definition anon_org : Org := {| org_id := 1; is_anon := true |}.
Definition self1 : Self := {| user := 1; org := org1 |}.
Definition anon_self : Self := {| user := 1; org := anon_org |}.

Definition channel1 : Channel :=
  {| ch_pk := 1; ch_org := 1; ch_is_active := true; ch_last_seen := 10;
     ch_country := {| country_code := "RW" |} |}.

Definition store1 : Store :=
  {| channels := [channel1]; flows := []; contacts := []; groups := [];
     contact_fields := []; campaigns := []; events := []; msgs := []; broadcasts := [] |}.

(** The coerced attributes of a Message create request that names a
    phone number and a text and omits the channel (an omitted related
    field is stored as [None]). *)
Definition msg_attrs : Attrs :=
  <["channel" := VNone]>
    (<["text" := VStr "hi"]>
       (<["phone" := VList [VTuple [VStr "tel"; VStr "+250788123123"]]]> ∅)).

(** The coerced attributes of a Broadcast create request to one raw
    address. *)
Definition broadcast_attrs : Attrs :=
  <["channel" := VNone]>
    (<["text" := VStr "hi"]> (<["urns" := VList [VStr "tel:+250788123123"]]> ∅)).

Definition contact1 : Contact :=
  {| ct_pk := 1; ct_uuid := "c-1"; ct_org := 1; ct_is_active := true;
     ct_urns := [{| urn_scheme := "tel"; urn_path := "+250788123123";
                    urn_urn := "tel:+250788123123" |}] |}.

Definition contact_store : Store :=
  {| channels := [channel1]; flows := []; contacts := [contact1]; groups := [];
     contact_fields := []; campaigns := []; events := []; msgs := []; broadcasts := [] |}.

(** The coerced attributes of a Contact write that names the contact by
    UUID and gives it a new address list. *)
Definition contact_uuid_urns_attrs : Attrs :=
  <["uuid" := VStr "c-1"]>
    (<["urns" := VList [VTuple [VStr "tel"; VStr "+250788383383"]]]> ∅).

(** The same with the legacy phone field in place of the address list. *)
Definition contact_uuid_phone_attrs : Attrs :=
  <["uuid" := VStr "c-1"]> (<["phone" := VStr "+250788383383"]> (<["urns" := VNone]> ∅)).

(** An archived flow and a live flow of another org. *)
Definition foreign_archived_flow : Flow :=
  {| fl_pk := 7; fl_uuid := "f-7"; fl_org := 2; fl_is_active := true;
     fl_is_archived := true; fl_name := "Registration"; fl_single_message := None |}.

Definition foreign_flow : Flow :=
  {| fl_pk := 8; fl_uuid := "f-8"; fl_org := 2; fl_is_active := true;
     fl_is_archived := false; fl_name := "Survey"; fl_single_message := None |}.

Definition flow_store : Store :=
  {| channels := []; flows := [foreign_archived_flow; foreign_flow]; contacts := [];
     groups := []; contact_fields := []; campaigns := []; events := []; msgs := [];
     broadcasts := [] |}.

Definition group1 : ContactGroup :=
  {| gr_pk := 1; gr_uuid := "g-1"; gr_org := 1; gr_is_active := true;
     gr_name := "Testers" |}.

Definition group_store : Store :=
  {| channels := []; flows := []; contacts := []; groups := [group1];
     contact_fields := []; campaigns := []; events := []; msgs := []; broadcasts := [] |}.

(** The coerced attributes of a Campaign write with both the legacy
    group name and the group UUID, naming different groups. *)
Definition campaign_attrs : Attrs :=
  <["name" := VStr "Reminders"]>
    (<["group" := VStr "Reporters"]> (<["group_uuid" := VStr "g-1"]> ∅)).

(** A campaign with a message event and its hidden flow, a flow event,
    and a flow to switch to. *)
Definition campaign1 : Campaign :=
  {| ca_pk := 1; ca_uuid := "ca-1"; ca_org := 1; ca_is_active := true;
     ca_name := "Reminders"; ca_group := 1 |}.

Definition hidden_flow : Flow :=
  {| fl_pk := 5; fl_uuid := "f-5"; fl_org := 1; fl_is_active := true;
     fl_is_archived := false; fl_name := "Single Message";
     fl_single_message := Some "Time to plant" |}.

Definition survey_flow : Flow :=
  {| fl_pk := 6; fl_uuid := "f-6"; fl_org := 1; fl_is_active := true;
     fl_is_archived := false; fl_name := "Survey"; fl_single_message := None |}.

Definition planting_date : ContactField :=
  {| cf_pk := 1; cf_org := 1; cf_is_active := true; cf_key := "planting_date";
     cf_label := "Planting Date" |}.

Definition message_event : CampaignEvent :=
  {| ev_pk := 1; ev_uuid := "e-1"; ev_campaign := 1; ev_is_active := true;
     ev_event_type := MESSAGE_EVENT; ev_flow := 5; ev_message := Some "Time to plant";
     ev_offset := 1; ev_unit := "D"; ev_delivery_hour := 9; ev_relative_to := 1 |}.

Definition flow_event : CampaignEvent :=
  {| ev_pk := 2; ev_uuid := "e-2"; ev_campaign := 1; ev_is_active := true;
     ev_event_type := FLOW_EVENT; ev_flow := 6; ev_message := None;
     ev_offset := 2; ev_unit := "W"; ev_delivery_hour := -1; ev_relative_to := 1 |}.

Definition event_store : Store :=
  {| channels := []; flows := [hidden_flow; survey_flow]; contacts := [];
     groups := [group1]; contact_fields := [planting_date]; campaigns := [campaign1];
     events := [message_event; flow_event]; msgs := []; broadcasts := [] |}.

(** The attributes every event write carries. *)
Definition event_base_attrs : Attrs :=
  <["offset" := VInt 3]>
    (<["unit" := VStr "D"]>
       (<["delivery_hour" := VInt 10]> (<["relative_to" := VStr "Planting Date"]> ∅))).

(** An event write with both an inline message and a flow. *)
Definition event_both_attrs : Attrs :=
  <["message" := VStr "Time to plant"]>
    (<["flow_uuid" := VStr "f-6"]> (<["campaign_uuid" := VStr "ca-1"]> event_base_attrs)).

(** An update of the message event that switches it to the survey
    flow. *)
Definition event_to_flow_attrs : Attrs :=
  <["event_obj" := VObj (OEvent message_event)]>
    (<["flow_obj" := VObj (OFlow survey_flow)]> event_base_attrs).

(** An update of the flow event that switches it to an inline message. *)
Definition event_to_message_attrs : Attrs :=
  <["event_obj" := VObj (OEvent flow_event)]>
    (<["message" := VStr "Time to weed"]> event_base_attrs).

(** An update of the message event with a new text. *)
Definition event_new_text_attrs : Attrs :=
  <["event_obj" := VObj (OEvent message_event)]>
    (<["message" := VStr "Time to weed"]> event_base_attrs).

(** Messages: incoming of the org, outgoing of the org, incoming of
    another org. *)
Definition msg1 : Msg :=
  {| msg_pk := 1; msg_org := 1; msg_direction := INCOMING; msg_visibility := "V";
     msg_labels := [] |}.
Definition msg2 : Msg :=
  {| msg_pk := 2; msg_org := 1; msg_direction := OUTGOING; msg_visibility := "V";
     msg_labels := [] |}.
Definition msg3 : Msg :=
  {| msg_pk := 3; msg_org := 2; msg_direction := INCOMING; msg_visibility := "V";
     msg_labels := [] |}.

Definition msg_store : Store :=
  {| channels := []; flows := []; contacts := []; groups := []; contact_fields := [];
     campaigns := []; events := []; msgs := [msg1; msg2; msg3]; broadcasts := [] |}.

Definition archive (msg : Msg) : Msg :=
  {| msg_pk := msg_pk msg; msg_org := msg_org msg; msg_direction := msg_direction msg;
     msg_visibility := "A"; msg_labels := msg_labels msg |}.

(** An archive action over the three messages and an id that names no
    message. *)
Definition bulk_attrs : Attrs :=
  <["messages" := VList [VInt 1; VInt 2; VInt 3; VInt 99]]>
    (<["action" := VStr "archive"]> ∅).

Definition label1 : Label :=
  {| lb_pk := 1; lb_uuid := "l-1"; lb_org := 1; lb_name := "Important" |}.

End Sample.

(** ** Notions used in the statements *)

(** The active channels of the org, most recently seen first. *)
Definition org_channels (self : Self) (db : Store) : list Channel :=
  order_by_last_seen_desc
    (List.filter (fun c => ch_is_active c && (ch_org c =? org_id (org self))%Z) (channels db)).

(** A request that did not go through: no object was restored, and an
    error map comes with the database as it was. *)
Definition not_restored (r : result rest_framework.outcome) (db : Store) : Prop :=
  match r with
  | Ok (rest_framework.Restored _ _) => False
  | Ok (rest_framework.Invalid _errors db') => db' = db /\ _errors ≠ ∅
  | Raise _ => True
  end.

(** A key of the attributes that is present with a true value. *)
Definition supplied (attrs : Attrs) (key : string) : bool :=
  match attrs !! key with
  | Some v => truthy v
  | None => false
  end.

(** The transition a bulk action applies to each message of its queryset. *)
Definition action_transition (archive restore release : Msg -> Msg) (action : value)
    (label : Label) (msg : Msg) : Msg :=
  if str_is action "label" then Label_toggle_label label true msg
  else if str_is action "unlabel" then Label_toggle_label label false msg
  else if str_is action "archive" then archive msg
  else if str_is action "unarchive" then restore msg
  else if str_is action "delete" then release msg
  else msg.

(** The flow behind an event carries the display name derived from the
    event and the flow as it was stored before the renaming. *)
Definition backing_flow_named `{Collaborators} (event : CampaignEvent) (db : Store) : Prop :=
  forall flow, In flow (flows db) -> fl_pk flow = ev_flow event ->
    exists before,
      fl_pk before = fl_pk flow
      /\ fl_single_message before = fl_single_message flow
      /\ fl_name flow = flow_display_name event before.

(** The row of the event, and only that row, was replaced by [event]. *)
Definition event_saved (event : CampaignEvent) (db db' : Store) : Prop :=
  events db' = (fun row => if (ev_pk row =? ev_pk event)%Z then event else row) <$> events db.

(** The coerced attributes of an update of [event]: the resolved event
    and the four required fields. *)
Definition event_update_attrs (attrs : Attrs) (event : CampaignEvent)
    (offset : Z) (unit : string) (delivery_hour : Z) (relative_to : string) : Prop :=
  attrs !! "event_obj" = Some (VObj (OEvent event))
  /\ attrs !! "offset" = Some (VInt offset)
  /\ attrs !! "unit" = Some (VStr unit)
  /\ attrs !! "delivery_hour" = Some (VInt delivery_hour)
  /\ attrs !! "relative_to" = Some (VStr relative_to).

(** ** Further notions used in the statements *)

(** The [validate_<field>] methods of a serializer run one after the
    other over the declared fields, each on the attributes the one before
    returned. *)
Fixpoint run_validate_methods (S : Serializer) (self : Self) (db : Store)
    (fields : list (string * bool * string)) (attrs : Attrs) : result Attrs :=
  match fields with
  | [] => Ok attrs
  | (field_name, _, source) :: rest =>
      match ser_validate_method S field_name with
      | None => run_validate_methods S self db rest attrs
      | Some validate_field =>
          attrs' ← validate_field self db attrs source;
          run_validate_methods S self db rest attrs'
      end
  end.

(** [v] is an active contact of the org whose UUID is [uuid]. *)
Definition resolved_contact (self : Self) (db : Store) (uuid v : value) : Prop :=
  exists c, v = VObj (OContact c) /\ In c (contacts db)
            /\ ct_org c = org_id (org self) /\ ct_is_active c = true
            /\ uuid = VStr (ct_uuid c).

(** [v] is an active group of the org whose UUID is [uuid]. *)
Definition resolved_group (self : Self) (db : Store) (uuid v : value) : Prop :=
  exists g, v = VObj (OGroup g) /\ In g (groups db)
            /\ gr_org g = org_id (org self) /\ gr_is_active g = true
            /\ uuid = VStr (gr_uuid g).

(** [v] is the normalized, valid address that the string [raw] parses
    to, with [country] as the hint. *)
Definition resolved_urn `{Collaborators} (country : option Country) (raw v : value) : Prop :=
  exists r scheme path,
    raw = VStr r /\ ContactURN_parse_urn r = Ok (scheme, path)
    /\ v = VTuple [VStr (fst (ContactURN_normalize_urn scheme path country));
                   VStr (snd (ContactURN_normalize_urn scheme path country))]
    /\ ContactURN_validate_urn (fst (ContactURN_normalize_urn scheme path country))
                               (snd (ContactURN_normalize_urn scheme path country)) = true.

(** The flows a serializer of the org can see: active and of the org. *)
Definition visible_flow (self : Self) (f : Flow) : bool :=
  fl_is_active f && (fl_org f =? org_id (org self))%Z.

(** No two labels of one org have the same name. *)
Definition label_names_unique (labels : list Label) : Prop :=
  forall i j l1 l2, labels !! i = Some l1 -> labels !! j = Some l2 ->
    lb_org l1 = lb_org l2 -> lb_name l1 = lb_name l2 -> i = j.

(** No two labels have the same primary key. *)
Definition label_pks_unique (labels : list Label) : Prop :=
  forall i j l1 l2, labels !! i = Some l1 -> labels !! j = Some l2 ->
    lb_pk l1 = lb_pk l2 -> i = j.

(** The campaign an update stores: the loaded row with the new name and
    the group. *)
Definition campaign_updated (campaign : Campaign) (name : string) (group : ContactGroup)
  : Campaign :=
  {| ca_pk := ca_pk campaign; ca_uuid := ca_uuid campaign; ca_org := ca_org campaign;
     ca_is_active := ca_is_active campaign; ca_name := name; ca_group := gr_pk group |}.

(** The primary key that an id of a bulk action names: the integer
    itself, and 1 and 0 for the JSON booleans. *)
Definition names_pk (id : value) (pk : Z) : Prop :=
  id = VInt pk \/ (id = VBool true /\ pk = 1%Z) \/ (id = VBool false /\ pk = 0%Z).

(** A primary key that one of the ids of the request names. *)
Definition requested (msg_ids : list value) (pk : Z) : Prop :=
  exists id, In id msg_ids /\ names_pk id pk.

(** ** More sample data

    Requests and rows for evaluating the remaining serializers. *)
Module Examples.

(** A Broadcast create request to one group. *)
Definition groups_attrs : Attrs := <["groups" := VList [VStr "g-1"]]> ∅.

(** The store of the campaign events with a flow of another org added. *)
Definition event_store_with_foreign_flow : Store :=
  {| channels := []; flows := [Sample.foreign_flow; Sample.hidden_flow; Sample.survey_flow];
     contacts := []; groups := [Sample.group1]; contact_fields := [Sample.planting_date];
     campaigns := [Sample.campaign1]; events := [Sample.message_event; Sample.flow_event];
     msgs := []; broadcasts := [] |}.

(** A flow start answers with the contacts it was given. *)
Definition start (flow : Flow) (groups contacts restart_participants extra : value)
    (db : Store) : value * Store :=
  (contacts, db).

Definition start_store : Store :=
  {| channels := [Sample.channel1]; flows := [Sample.survey_flow];
     contacts := [Sample.contact1]; groups := [Sample.group1]; contact_fields := [];
     campaigns := []; events := []; msgs := []; broadcasts := [] |}.

(** A flow start request by flow UUID for one contact. *)
Definition start_attrs : Attrs :=
  <["flow_uuid" := VStr "f-6"]> (<["contacts" := VList [VStr "c-1"]]> ∅).

(** The same after validation: the flow and the contact are objects. *)
Definition started_attrs : Attrs :=
  <["flow" := VObj (OFlow Sample.survey_flow)]>
    (<["contacts" := VList [VObj (OContact Sample.contact1)]]> ∅).

(** A flow start request that names its contact in the deprecated field. *)
Definition start_contact_attrs : Attrs := <["contact" := VList [VStr "c-1"]]> ∅.

(** A label action with an empty label UUID. *)
Definition label_action_attrs : Attrs :=
  <["messages" := VList [VInt 1]]>
    (<["action" := VStr "label"]> (<["label_uuid" := VStr ""]> ∅)).

Definition label2 : Label :=
  {| lb_pk := 2; lb_uuid := "l-2"; lb_org := 1; lb_name := "Spam" |}.

(** A rename of the first label. *)
Definition label_rename_attrs : Attrs :=
  <["uuid" := VStr "l-1"]> (<["name" := VStr "Urgent"]> ∅).

(** [Label.get_or_create]: the row of that name, or a new one. *)
Definition get_or_create (org : Z) (name : string) (labels : list Label)
  : Label * list Label :=
  match List.filter (fun l => (lb_org l =? org)%Z && String.eqb (lb_name l) name) labels with
  | l :: _ => (l, labels)
  | [] =>
      let l := {| lb_pk := Z.of_nat (length labels) + 1; lb_uuid := "new"; lb_org := org;
                  lb_name := name |} in
      (l, labels ++ [l])
  end.

(** A second contact of the org, with another address. *)
Definition contact2 : Contact :=
  {| ct_pk := 2; ct_uuid := "c-2"; ct_org := 1; ct_is_active := true;
     ct_urns := [{| urn_scheme := "tel"; urn_path := "+250788000000";
                    urn_urn := "tel:+250788000000" |}] |}.

Definition two_contact_store : Store :=
  {| channels := [Sample.channel1]; flows := []; contacts := [Sample.contact1; contact2];
     groups := []; contact_fields := []; campaigns := []; events := []; msgs := [];
     broadcasts := [] |}.

(** An update of the first contact that asks for the address of the
    second. *)
Definition contact_taken_attrs : Attrs :=
  <["uuid" := VStr "c-1"]>
    (<["urns" := VList [VTuple [VStr "tel"; VStr "+250788000000"]]]> ∅).

(** A channel of another org. *)
Definition foreign_channel : Channel :=
  {| ch_pk := 9; ch_org := 2; ch_is_active := true; ch_last_seen := 10;
     ch_country := {| country_code := "KE" |} |}.

(** A Message create request through the channel of another org. *)
Definition foreign_channel_attrs : Attrs :=
  <["channel" := VObj (OChannel foreign_channel)]> ∅.

(** A Contact write that sets a custom field by its label. *)
Definition fields_attrs : Attrs :=
  <["fields" := VDict [("Planting Date", VStr "2015-03-01")]]> ∅.

(** A Contact write with a language the org does not have. *)
Definition language_attrs : Attrs := <["language" := VStr "xx"]> ∅.

(** An archive action that names the first message by the JSON value
    true. *)
Definition bulk_true_attrs : Attrs :=
  <["messages" := VList [VBool true; VInt 2; VInt 3; VInt 99]]>
    (<["action" := VStr "archive"]> ∅).

(** A Contact model for evaluating Contact writes: a phone number is
    possible when it starts with a plus sign and is its own E164 form;
    every non-empty group name is valid; [contact_update_urns] replaces the
    addresses of the stored contact; [contact_get_or_create] stores a new contact
    with the addresses; the other columns of a contact are not kept in the
    rows, so saving, setting a field and updating the groups leave the row
    as it is. *)
Definition phone_e164 (number : string) : option string :=
  if String.prefix "+" number then Some number else None.

Definition is_valid_name (name : value) : bool := truthy name.












End Examples.
(** ** Lemmas on the field types *)

Lemma from_native_loop_strings (ss : list string) (acc : list (string * string)) :
  PhoneArrayField.from_native_loop (VStr <$> ss) acc
  = Ok (acc ++ ((fun s => (TEL_SCHEME, s)) <$> ss)).
Proof.
  revert acc. induction ss as [|s ss IH]; intros acc; simpl.
  - by rewrite app_nil_r.
  - rewrite IH. by rewrite <- app_assoc.
Qed.

Lemma from_native_loop_non_string (l : list value) (v : value)
    (acc : list (string * string)) :
  v ∈ l -> isinstance_basestring v = false ->
  is_validation_error (PhoneArrayField.from_native_loop l acc).
Proof.
  intros Hin Hv. revert acc.
  induction l as [|x l IH]; intros acc.
  - by apply elem_of_nil in Hin.
  - simpl. destruct (isinstance_basestring x) eqn:Hx; simpl.
    + destruct x; try discriminate Hx.
      apply IH. apply elem_of_cons in Hin as [->|Hin]; [congruence | done].
    + exact I.
Qed.

(** C8.  [PhoneArrayField.from_native]: a single string becomes the
    one-element list holding its telecom-scheme pair; a list of at most
    100 strings becomes the list of their telecom-scheme pairs, in order;
    a list of more than 100 entries, a list holding any element that is
    not a string, and any input that is neither a string nor a list all
    raise a validation error. *)
Theorem phone_array_from_native :
  (forall s, PhoneArrayField.from_native (VStr s) = Ok [(TEL_SCHEME, s)]) /\
  (forall ss : list string, (length ss <= 100)%nat ->
     PhoneArrayField.from_native (VList (VStr <$> ss))
     = Ok ((fun s => (TEL_SCHEME, s)) <$> ss)) /\
  (forall l : list value, (100 < length l)%nat ->
     is_validation_error (PhoneArrayField.from_native (VList l))) /\
  (forall (l : list value) (v : value), v ∈ l -> isinstance_basestring v = false ->
     is_validation_error (PhoneArrayField.from_native (VList l))) /\
  (forall data, isinstance_basestring data = false -> isinstance_list data = false ->
     is_validation_error (PhoneArrayField.from_native data)).
Proof.
  repeat split.
  - intros ss Hlen. unfold PhoneArrayField.from_native.
    rewrite length_fmap.
    destruct (Z.ltb_spec 100 (Z.of_nat (length ss))) as [H|H]; [lia|].
    by rewrite from_native_loop_strings.
  - intros l Hlen. unfold PhoneArrayField.from_native.
    destruct (Z.ltb_spec 100 (Z.of_nat (length l))) as [H|H]; [exact I | lia].
  - intros l v Hin Hv. unfold PhoneArrayField.from_native.
    destruct (100 <? Z.of_nat (length l))%Z; [exact I|].
    by eapply from_native_loop_non_string.
  - intros data Hs Hl. destruct data; try discriminate; exact I.
Qed.

Lemma phone_array_from_native_witness :
  PhoneArrayField.from_native (VList [VStr "+250788123123"; VStr "0788383383"])
  = Ok [(TEL_SCHEME, "+250788123123"); (TEL_SCHEME, "0788383383")]
  /\ is_validation_error (PhoneArrayField.from_native (VList [VStr "0788383383"; VInt 12]))
  /\ is_validation_error (PhoneArrayField.from_native (VInt 12))
  /\ is_validation_error (PhoneArrayField.from_native (VList (replicate 101 (VStr "1")))).
Proof.
  destruct phone_array_from_native as (_ & Hlist & Hlong & Hbad & Hother).
  split; [| split; [| split]].
  - apply (Hlist ["+250788123123"; "0788383383"]). simpl. lia.
  - apply (Hbad _ (VInt 12)); [| reflexivity].
    apply elem_of_cons. right. apply elem_of_cons. by left.
  - apply Hother; reflexivity.
  - apply Hlong. rewrite length_replicate. lia.
Defined.

(** ** Lemmas on the driver *)

Lemma restore_fields_not_dict (coerce : field_coercion) (data : value) (_errors : Errors) :
  isinstance_dict data = false ->
  WriteSerializer.restore_fields coerce data _errors
  = (<["non_field_errors" := [("Request body should be a single JSON object", [])]]> _errors, ∅).
Proof. intros Hd. destruct data; try discriminate Hd; reflexivity. Qed.

(** The field loop only ever adds errors. *)
Lemma perform_field_validation_keeps_errors (S : Serializer) (self : Self) (db : Store)
    (fields : list (string * bool * string)) (_errors _errors' : Errors) (attrs attrs' : Attrs) :
  rest_framework.perform_field_validation S self db fields _errors attrs = Ok (_errors', attrs') ->
  _errors ≠ ∅ -> _errors' ≠ ∅.
Proof.
  revert _errors attrs.
  induction fields as [|[[field_name required] source] fields IH]; intros _errors attrs; simpl.
  - intros [= <- <-]. done.
  - destruct (_errors !! field_name) eqn:Hl; [by apply IH|].
    destruct (ser_validate_method S field_name) as [validate_field|]; [|by apply IH].
    destruct (validate_field self db attrs source) as [a|e]; [by apply IH|].
    destruct e; try discriminate.
    intros Hrun _. eapply IH; [exact Hrun|]. apply insert_non_empty.
Qed.

(** [validate] and [restore_object] only run on an empty error map: an
    outcome with a restored object comes from attributes that [validate]
    accepted. *)
Lemma from_native_attrs_restored (S : Serializer) (self : Self) (db db' : Store)
    (_errors : Errors) (attrs : Attrs) (object : value) :
  rest_framework.from_native_attrs S self db _errors attrs
  = Ok (rest_framework.Restored object db') ->
  _errors = ∅ /\
  exists attrs1 attrs2,
    ser_validate S self db attrs1 = Ok attrs2 /\
    ser_restore_object S self db attrs2 = Ok (object, db').
Proof.
  unfold rest_framework.from_native_attrs, rest_framework.perform_validation.
  destruct (rest_framework.perform_field_validation S self db (ser_fields S) _errors attrs)
    as [[errs1 attrs1]|e] eqn:Hloop; simpl; [|discriminate].
  destruct (decide (errs1 = ∅)) as [He|He]; simpl.
  - destruct (ser_validate S self db attrs1) as [attrs2|e1] eqn:Hv; simpl.
    + destruct (decide (errs1 = ∅)); [|done]. simpl.
      destruct (ser_restore_object S self db attrs2) as [[o d]|e2] eqn:Hr; simpl; [|discriminate].
      intros [= <- <-]. split.
      * destruct (decide (_errors = ∅)) as [|Hne]; [done|].
        exfalso. by eapply perform_field_validation_keeps_errors.
      * by exists attrs1, attrs2.
    + destruct e1; simpl; try discriminate.
      destruct (decide (<["non_field_errors":=[(template, args)]]> errs1 = ∅)) as [Hemp|];
        [|discriminate].
      by apply insert_non_empty in Hemp.
  - destruct (decide (errs1 = ∅)); [done|]. discriminate.
Qed.

(** An error map leaves the database as it was. *)
Lemma from_native_attrs_invalid (S : Serializer) (self : Self) (db db' : Store)
    (_errors _errors' : Errors) (attrs : Attrs) :
  rest_framework.from_native_attrs S self db _errors attrs
  = Ok (rest_framework.Invalid _errors' db') ->
  db' = db /\ _errors' ≠ ∅.
Proof.
  unfold rest_framework.from_native_attrs.
  destruct (rest_framework.perform_validation S self db _errors attrs)
    as [[errs1 attrs1]|e]; simpl; [|discriminate].
  destruct (decide (errs1 = ∅)) as [He|He]; simpl.
  - destruct (ser_restore_object S self db attrs1) as [[o d]|e]; simpl; discriminate.
  - by intros [= <- <-].
Qed.

(** A body that is not a JSON object never restores an object, whatever
    the serializer. *)
Lemma from_native_not_dict_not_restored (coerce : field_coercion) (S : Serializer)
    (self : Self) (db db' : Store) (data object : value) :
  isinstance_dict data = false ->
  rest_framework.from_native coerce S self db data ≠ Ok (rest_framework.Restored object db').
Proof.
  intros Hd Hrun. unfold rest_framework.from_native in Hrun.
  destruct data; try discriminate Hd; try discriminate Hrun;
    rewrite restore_fields_not_dict in Hrun by done;
    apply from_native_attrs_restored in Hrun as [Hemp _];
    by apply insert_non_empty in Hemp.
Qed.

(** ** What a request went through *)

Lemma perform_field_validation_no_errors (S : Serializer) (self : Self) (db : Store)
    (fields : list (string * bool * string)) (_errors : Errors) (attrs attrs' : Attrs) :
  rest_framework.perform_field_validation S self db fields _errors attrs = Ok (∅, attrs') ->
  _errors = ∅ /\ run_validate_methods S self db fields attrs = Ok attrs'.
Proof.
  revert _errors attrs.
  induction fields as [|[[field_name required] source] fields IH]; intros _errors attrs; simpl.
  - by intros [= -> ->].
  - destruct (_errors !! field_name) eqn:Hl.
    { intros Hrun. apply IH in Hrun as [-> _]. by rewrite lookup_empty in Hl. }
    destruct (ser_validate_method S field_name) as [validate_field|]; [|apply IH].
    destruct (validate_field self db attrs source) as [a|e]; simpl; [apply IH|].
    destruct e; try discriminate.
    intros Hrun. apply IH in Hrun as [Hemp _]. by apply insert_non_empty in Hemp.
Qed.

(** An object is restored only after every [validate_<field>] method and
    then [validate] returned without raising. *)
Lemma from_native_attrs_restored_run (S : Serializer) (self : Self) (db db' : Store)
    (_errors : Errors) (attrs : Attrs) (object : value) :
  rest_framework.from_native_attrs S self db _errors attrs
  = Ok (rest_framework.Restored object db') ->
  exists attrs1 attrs2,
    run_validate_methods S self db (ser_fields S) attrs = Ok attrs1
    /\ ser_validate S self db attrs1 = Ok attrs2
    /\ ser_restore_object S self db attrs2 = Ok (object, db').
Proof.
  unfold rest_framework.from_native_attrs, rest_framework.perform_validation.
  destruct (rest_framework.perform_field_validation S self db (ser_fields S) _errors attrs)
    as [[errs1 attrs1]|e] eqn:Hloop; simpl; [|discriminate].
  destruct (decide (errs1 = ∅)) as [He|He]; simpl.
  - assert (run_validate_methods S self db (ser_fields S) attrs = Ok attrs1) as Hrun.
    { rewrite He in Hloop. by apply perform_field_validation_no_errors in Hloop as [_ ?]. }
    destruct (ser_validate S self db attrs1) as [attrs2|e1] eqn:Hv; simpl.
    + destruct (decide (errs1 = ∅)); [|done]. simpl.
      destruct (ser_restore_object S self db attrs2) as [[o d]|e2] eqn:Hr; simpl;
        [|discriminate].
      intros [= <- <-]. by exists attrs1, attrs2.
    + destruct e1; simpl; try discriminate.
      destruct (decide (<["non_field_errors":=[(template, args)]]> errs1 = ∅)) as [Hemp|];
        [|discriminate].
      by apply insert_non_empty in Hemp.
  - destruct (decide (errs1 = ∅)); [done|]. discriminate.
Qed.

(** When every [validate_<field>] method returns, the field loop records
    no error. *)
Lemma run_validate_methods_perform (S : Serializer) (self : Self) (db : Store)
    (fields : list (string * bool * string)) (attrs attrs1 : Attrs) :
  run_validate_methods S self db fields attrs = Ok attrs1 ->
  rest_framework.perform_field_validation S self db fields ∅ attrs = Ok (∅, attrs1).
Proof.
  revert attrs.
  induction fields as [|[[field_name required] source] fields IH]; intros attrs; simpl.
  - by intros [= ->].
  - rewrite lookup_empty.
    destruct (ser_validate_method S field_name) as [validate_field|]; [|apply IH].
    destruct (validate_field self db attrs source) as [a|e]; simpl; [apply IH | discriminate].
Qed.

(** A request whose fields validate and whose attributes [validate]
    refuses ends in an error map with that one message under
    'non_field_errors', and the database as it was. *)
Lemma from_native_attrs_validate_error (S : Serializer) (self : Self) (db : Store)
    (attrs attrs1 : Attrs) (template : string) (args : list value) :
  run_validate_methods S self db (ser_fields S) attrs = Ok attrs1 ->
  ser_validate S self db attrs1 = Raise (ValidationError template args) ->
  rest_framework.from_native_attrs S self db ∅ attrs
  = Ok (rest_framework.Invalid {["non_field_errors" := [(template, args)]]} db).
Proof.
  intros Hrun Hv. apply run_validate_methods_perform in Hrun.
  unfold rest_framework.from_native_attrs, rest_framework.perform_validation.
  rewrite Hrun. simpl. destruct (decide ((∅ : Errors) = ∅)); [|done].
  rewrite Hv. simpl.
  destruct (decide (<["non_field_errors" := [(template, args)]]> (∅ : Errors) = ∅)) as [He|];
    [by apply insert_non_empty in He | reflexivity].
Qed.

(** A request whose fields validate and whose attributes [validate]
    accepts is handed to [restore_object]. *)
Lemma from_native_attrs_accepted (S : Serializer) (self : Self) (db : Store)
    (attrs attrs1 attrs2 : Attrs) :
  run_validate_methods S self db (ser_fields S) attrs = Ok attrs1 ->
  ser_validate S self db attrs1 = Ok attrs2 ->
  rest_framework.from_native_attrs S self db ∅ attrs
  = '(object, db') ← ser_restore_object S self db attrs2;
    Ok (rest_framework.Restored object db').
Proof.
  intros Hrun Hv. apply run_validate_methods_perform in Hrun.
  unfold rest_framework.from_native_attrs, rest_framework.perform_validation.
  rewrite Hrun. simpl. destruct (decide ((∅ : Errors) = ∅)); [|done].
  rewrite Hv. simpl. destruct (decide ((∅ : Errors) = ∅)); [|done]. reflexivity.
Qed.

(** A property of the attributes that every [validate_<field>] method of
    the declared fields keeps is kept by the whole run. *)
Lemma run_validate_methods_inv (S : Serializer) (self : Self) (db : Store)
    (I : Attrs -> Prop) (fields : list (string * bool * string)) (attrs attrs1 : Attrs) :
  (forall field_name required source m a a',
     In (field_name, required, source) fields ->
     ser_validate_method S field_name = Some m ->
     m self db a source = Ok a' -> I a -> I a') ->
  run_validate_methods S self db fields attrs = Ok attrs1 ->
  I attrs -> I attrs1.
Proof.
  revert attrs.
  induction fields as [|[[field_name required] source] fields IH]; intros attrs Hm; simpl.
  - by intros [= ->].
  - destruct (ser_validate_method S field_name) as [validate_field|] eqn:Hf.
    + destruct (validate_field self db attrs source) as [a|e] eqn:Hv; simpl; [|discriminate].
      intros Hrun Hi. apply (IH a); [|done|].
      * intros n r s m a0 a1 Hin. apply (Hm n r s m a0 a1). by right.
      * by apply (Hm field_name required source validate_field attrs a (or_introl eq_refl) Hf Hv).
    + apply IH. intros n r s m a0 a1 Hin. apply (Hm n r s m a0 a1). by right.
Qed.

(** A request from which no object can be restored did not go through. *)
Lemma not_restored_intro (S : Serializer) (self : Self) (db : Store)
    (_errors : Errors) (attrs : Attrs) :
  (forall object db',
     rest_framework.from_native_attrs S self db _errors attrs
     <> Ok (rest_framework.Restored object db')) ->
  not_restored (rest_framework.from_native_attrs S self db _errors attrs) db.
Proof.
  intros Hno.
  destruct (rest_framework.from_native_attrs S self db _errors attrs) as [[o d|errs d]|e] eqn:Hrun;
    simpl; [by destruct (Hno o d) | | done].
  by apply from_native_attrs_invalid in Hrun.
Qed.

(** A request is refused when a property of its attributes that the
    [validate_<field>] methods keep makes [validate] raise. *)
Lemma from_native_attrs_rejected (S : Serializer) (self : Self) (db : Store)
    (I : Attrs -> Prop) (_errors : Errors) (attrs : Attrs) :
  I attrs ->
  (forall field_name required source m a a',
     In (field_name, required, source) (ser_fields S) ->
     ser_validate_method S field_name = Some m ->
     m self db a source = Ok a' -> I a -> I a') ->
  (forall a a', I a -> ser_validate S self db a <> Ok a') ->
  not_restored (rest_framework.from_native_attrs S self db _errors attrs) db.
Proof.
  intros Hi Hm Hv. apply not_restored_intro. intros object db' Hrun.
  apply from_native_attrs_restored_run in Hrun as (attrs1 & attrs2 & Hrun & Hval & _).
  apply (Hv attrs1 attrs2); [|done].
  by eapply run_validate_methods_inv.
Qed.

(** ** Attributes after an assignment *)

Lemma get_insert_eq (attrs : Attrs) (key : string) (v default : value) :
  get (<[key := v]> attrs) key default = v.
Proof. unfold get. by rewrite lookup_insert_eq. Qed.

Lemma get_insert_ne (attrs : Attrs) (key key' : string) (v default : value) :
  key <> key' -> get (<[key := v]> attrs) key' default = get attrs key' default.
Proof. intros Hne. unfold get. by rewrite lookup_insert_ne. Qed.

Lemma getitem_insert_eq (attrs : Attrs) (key : string) (v : value) :
  getitem (<[key := v]> attrs) key = Ok v.
Proof. unfold getitem. by rewrite lookup_insert_eq. Qed.

Lemma getitem_insert_ne (attrs : Attrs) (key key' : string) (v : value) :
  key <> key' -> getitem (<[key := v]> attrs) key' = getitem attrs key'.
Proof. intros Hne. unfold getitem. by rewrite lookup_insert_ne. Qed.

Lemma contains_insert_eq (attrs : Attrs) (key : string) (v : value) :
  contains (<[key := v]> attrs) key = true.
Proof. unfold contains. by rewrite lookup_insert_eq. Qed.

Lemma contains_insert_ne (attrs : Attrs) (key key' : string) (v : value) :
  key <> key' -> contains (<[key := v]> attrs) key' = contains attrs key'.
Proof. intros Hne. unfold contains. by rewrite lookup_insert_ne. Qed.

Lemma supplied_insert_eq (attrs : Attrs) (key : string) (v : value) :
  supplied (<[key := v]> attrs) key = truthy v.
Proof. unfold supplied. by rewrite lookup_insert_eq. Qed.

Lemma supplied_insert_ne (attrs : Attrs) (key key' : string) (v : value) :
  key <> key' -> supplied (<[key := v]> attrs) key' = supplied attrs key'.
Proof. intros Hne. unfold supplied. by rewrite lookup_insert_ne. Qed.

Lemma supplied_get (attrs : Attrs) (key : string) :
  truthy (get attrs key VNone) = supplied attrs key.
Proof. unfold get, supplied. by destruct (attrs !! key). Qed.

Lemma supplied_lookup (attrs : Attrs) (key : string) (v : value) :
  attrs !! key = Some v -> supplied attrs key = truthy v.
Proof. intros Hl. unfold supplied. by rewrite Hl. Qed.

Lemma get_lookup (attrs : Attrs) (key : string) (v default : value) :
  attrs !! key = Some v -> get attrs key default = v.
Proof. intros Hl. unfold get. by rewrite Hl. Qed.

Lemma get_lookup_None (attrs : Attrs) (key : string) (default : value) :
  attrs !! key = None -> get attrs key default = default.
Proof. intros Hl. unfold get. by rewrite Hl. Qed.

Lemma perform_field_validation_app (S : Serializer) (self : Self) (db : Store)
    (l1 l2 : list (string * bool * string)) (_errors : Errors) (attrs : Attrs) :
  rest_framework.perform_field_validation S self db (l1 ++ l2) _errors attrs
  = match rest_framework.perform_field_validation S self db l1 _errors attrs with
    | Ok (_errors', attrs') =>
        rest_framework.perform_field_validation S self db l2 _errors' attrs'
    | Raise e => Raise e
    end.
Proof.
  revert _errors attrs.
  induction l1 as [|[[field_name required] source] l1 IH]; intros _errors attrs; simpl.
  - reflexivity.
  - destruct (_errors !! field_name); [apply IH|].
    destruct (ser_validate_method S field_name) as [validate_field|]; [|apply IH].
    destruct (validate_field self db attrs source) as [a|e]; [apply IH|].
    destruct e; try reflexivity. apply IH.
Qed.

Lemma from_native_attrs_field_errors (S : Serializer) (self : Self) (db : Store)
    (_errors _errors' : Errors) (attrs attrs' : Attrs) :
  rest_framework.perform_field_validation S self db (ser_fields S) _errors attrs
  = Ok (_errors', attrs') ->
  _errors' ≠ ∅ ->
  rest_framework.from_native_attrs S self db _errors attrs
  = Ok (rest_framework.Invalid _errors' db).
Proof.
  intros Hloop Hne.
  unfold rest_framework.from_native_attrs, rest_framework.perform_validation.
  rewrite Hloop. simpl.
  destruct (decide (_errors' = ∅)); [done|]. simpl.
  destruct (decide (_errors' = ∅)); [done|]. reflexivity.
Qed.

Lemma from_native_attrs_raise (S : Serializer) (self : Self) (db : Store)
    (_errors : Errors) (attrs : Attrs) (e : exn) :
  rest_framework.perform_field_validation S self db (ser_fields S) _errors attrs = Raise e ->
  rest_framework.from_native_attrs S self db _errors attrs = Raise e.
Proof.
  intros Hloop.
  unfold rest_framework.from_native_attrs, rest_framework.perform_validation.
  by rewrite Hloop.
Qed.

(** ** Most recently seen channel *)

Lemma In_insert_by_last_seen (c x : Channel) (l : list Channel) :
  In x (insert_by_last_seen c l) <-> x = c \/ In x l.
Proof.
  induction l as [|y l IH]; simpl.
  - intuition.
  - destruct (ch_last_seen y <=? ch_last_seen c)%Z; simpl; intuition.
Qed.

Lemma In_order_by_last_seen_desc (x : Channel) (l : list Channel) :
  In x (order_by_last_seen_desc l) <-> In x l.
Proof.
  induction l as [|y l IH]; simpl; [done|].
  rewrite In_insert_by_last_seen. intuition.
Qed.

Lemma order_by_last_seen_desc_head (l : list Channel) :
  match order_by_last_seen_desc l with
  | [] => l = []
  | c :: _ => forall x, In x l -> (ch_last_seen x <= ch_last_seen c)%Z
  end.
Proof.
  induction l as [|a l IH]; simpl; [done|].
  destruct (order_by_last_seen_desc l) as [|y r] eqn:Hs; simpl.
  - subst l. intros x [->|[]]. lia.
  - destruct (Z.leb_spec (ch_last_seen y) (ch_last_seen a)) as [Hle|Hlt].
    + intros x [->|Hx]; [lia|]. specialize (IH x Hx). lia.
    + intros x [->|Hx]; [lia|]. by apply IH.
Qed.

(** ** MsgCreateSerializer *)

(** C9 (as amended).  The channel of a Message create request is optional:
    the field is declared with required=False, and when the coerced
    attributes hold a false value for it, [validate_channel] puts the
    org's most recently seen active channel in its place; the request fails
    on the channel only when the org has no active channel. *)
Theorem msg_create_channel_optional `{Collaborators} (self : Self) (db : Store)
    (attrs : Attrs) (v : value) :
  attrs !! "channel" = Some v ->
  truthy v = false ->
  In ("channel", false, "channel") MsgCreateSerializer.declared_fields /\
  match org_channels self db with
  | [] =>
      MsgCreateSerializer.validate_channel self db attrs "channel"
      = Raise (ValidationError "There are no channels for this organization." [])
  | c :: _ =>
      MsgCreateSerializer.validate_channel self db attrs "channel"
      = Ok (<["channel" := VObj (OChannel c)]> attrs)
      /\ In c (channels db) /\ ch_is_active c = true /\ ch_org c = org_id (org self)
      /\ forall c', In c' (channels db) -> ch_is_active c' = true ->
                    ch_org c' = org_id (org self) ->
                    (ch_last_seen c' <= ch_last_seen c)%Z
  end.
Proof.
  intros Hl Hv. split; [simpl; tauto|].
  pose proof (order_by_last_seen_desc_head
    (List.filter (fun c => ch_is_active c && (ch_org c =? org_id (org self))%Z) (channels db)))
    as Hhead.
  unfold MsgCreateSerializer.validate_channel, getitem, org_channels in *.
  rewrite Hl. simpl. rewrite Hv. simpl.
  destruct (order_by_last_seen_desc _) as [|c r] eqn:Hs; simpl; [reflexivity|].
  assert (In c (List.filter (fun c => ch_is_active c && (ch_org c =? org_id (org self))%Z)
                 (channels db))) as Hc.
  { apply In_order_by_last_seen_desc. rewrite Hs. by left. }
  apply filter_In in Hc as [Hin Hc].
  apply andb_prop in Hc as [Hact Horg]. apply Z.eqb_eq in Horg.
  rewrite Horg, Z.eqb_refl. simpl.
  repeat split; try done.
  intros c' Hin' Hact' Horg'. apply Hhead. apply filter_In. split; [done|].
  rewrite Hact', Horg', Z.eqb_refl. done.
Qed.

(** C6 (the code at the failing input).  A body that is neither a JSON
    object nor null, sent to Message create: [restore_fields] records the
    message under 'non_field_errors' and returns the empty dict, the
    driver goes on to the [validate_<field>] methods, and
    [validate_channel] indexes the empty dict: the request ends in an
    uncaught [KeyError] and no error map is reported. *)
Theorem msg_create_non_object_body `{Collaborators} (coerce : field_coercion)
    (self : Self) (db : Store) (data : value) :
  isinstance_dict data = false ->
  data <> VNone ->
  rest_framework.from_native coerce MsgCreateSerializer.serializer self db data
  = Raise (KeyError "channel").
Proof.
  intros Hd Hn. unfold rest_framework.from_native.
  destruct data; try done; try discriminate Hd;
    rewrite restore_fields_not_dict by done;
    apply from_native_attrs_raise; reflexivity.
Qed.

Lemma msg_create_channel_optional_witness :
  @MsgCreateSerializer.validate_channel
    Sample.self1 Sample.store1 Sample.msg_attrs "channel"
  = Ok (<["channel" := VObj (OChannel Sample.channel1)]> Sample.msg_attrs).
Proof.
  destruct (@msg_create_channel_optional Sample.collaborators
              Sample.self1 Sample.store1 Sample.msg_attrs VNone) as [_ Hw].
  - vm_compute. reflexivity.
  - reflexivity.
  - exact (proj1 Hw).
Defined.

(** C9 (counterexample).  A Message create request without a channel, for
    an org that has an active channel, passes validation and the broadcast
    is created. *)
Lemma msg_create_without_channel_restored :
  Sample.msg_attrs !! "channel" = Some VNone /\
  exists broadcast db',
    rest_framework.from_native_attrs (@MsgCreateSerializer.serializer Sample.collaborators)
      Sample.self1 Sample.store1 ∅ Sample.msg_attrs
    = Ok (rest_framework.Restored (VObj (OBroadcast broadcast)) db')
    /\ broadcasts db' = [broadcast].
Proof.
  split; [vm_compute; reflexivity|].
  eexists _, _. split; vm_compute; reflexivity.
Qed.

Lemma msg_create_non_object_body_witness :
  rest_framework.from_native (fun _ => (∅, ∅))
    (@MsgCreateSerializer.serializer Sample.collaborators) Sample.self1 Sample.store1 (VInt 5)
  = Raise (KeyError "channel").
Proof.
  apply msg_create_non_object_body; [reflexivity | discriminate].
Defined.

(** ** Anonymous orgs *)

Lemma msg_create_anon_attrs `{Collaborators} (self : Self) (db : Store)
    (_errors : Errors) (attrs : Attrs) :
  is_anon (org self) = true ->
  not_restored
    (rest_framework.from_native_attrs MsgCreateSerializer.serializer self db _errors attrs) db.
Proof.
  intros Hanon.
  destruct (rest_framework.perform_field_validation MsgCreateSerializer.serializer self db
              (ser_fields MsgCreateSerializer.serializer) _errors attrs)
    as [[errs1 attrs1]|e] eqn:Hloop.
  - assert (errs1 ≠ ∅) as Hne.
    { change (ser_fields MsgCreateSerializer.serializer)
        with ([("channel", false, "channel"); ("text", true, "text"); ("urn", false, "urn");
               ("contact", false, "contact")] ++ [("phone", false, "phone")]) in Hloop.
      rewrite perform_field_validation_app in Hloop.
      destruct (rest_framework.perform_field_validation _ _ _ _ _errors attrs)
        as [[errs0 attrs0]|e0]; [|discriminate].
      cbn [rest_framework.perform_field_validation] in Hloop.
      destruct (errs0 !! "phone") eqn:Hp.
      - injection Hloop as <- <-. intros ->. by rewrite lookup_empty in Hp.
      - change (ser_validate_method MsgCreateSerializer.serializer "phone")
          with (Some MsgCreateSerializer.validate_phone) in Hloop.
        unfold MsgCreateSerializer.validate_phone in Hloop. rewrite Hanon in Hloop.
        injection Hloop as <- <-. apply insert_non_empty. }
    rewrite (from_native_attrs_field_errors _ _ _ _ _ _ _ Hloop Hne). simpl. done.
  - by rewrite (from_native_attrs_raise _ _ _ _ _ _ Hloop).
Qed.

Lemma msg_create_anon `{Collaborators} (coerce : field_coercion) (self : Self) (db : Store)
    (data : value) :
  is_anon (org self) = true ->
  not_restored (rest_framework.from_native coerce MsgCreateSerializer.serializer self db data) db.
Proof.
  intros Hanon. unfold rest_framework.from_native.
  destruct data;
    try (destruct (WriteSerializer.restore_fields coerce _ ∅) as [errs attrs];
         by apply msg_create_anon_attrs).
  simpl. split; [done|]. apply insert_non_empty.
Qed.

(** The driver on two serializer instances whose methods agree. *)
Lemma perform_field_validation_ext (S : Serializer) (self self' : Self) (db : Store)
    (fields : list (string * bool * string)) (_errors : Errors) (attrs : Attrs) :
  (forall name m, ser_validate_method S name = Some m ->
                  forall attrs source, m self db attrs source = m self' db attrs source) ->
  rest_framework.perform_field_validation S self db fields _errors attrs
  = rest_framework.perform_field_validation S self' db fields _errors attrs.
Proof.
  intros Hm. revert _errors attrs.
  induction fields as [|[[field_name required] source] fields IH]; intros _errors attrs; simpl.
  - reflexivity.
  - destruct (_errors !! field_name); [apply IH|].
    destruct (ser_validate_method S field_name) as [m|] eqn:Hf; [|apply IH].
    rewrite <- (Hm _ _ Hf).
    destruct (m self db attrs source) as [a|e]; [apply IH|].
    destruct e; try reflexivity. apply IH.
Qed.

Lemma from_native_attrs_ext (S : Serializer) (self self' : Self) (db : Store)
    (_errors : Errors) (attrs : Attrs) :
  (forall name m, ser_validate_method S name = Some m ->
                  forall attrs source, m self db attrs source = m self' db attrs source) ->
  (forall attrs, ser_validate S self db attrs = ser_validate S self' db attrs) ->
  (forall attrs, ser_restore_object S self db attrs = ser_restore_object S self' db attrs) ->
  rest_framework.from_native_attrs S self db _errors attrs
  = rest_framework.from_native_attrs S self' db _errors attrs.
Proof.
  intros Hm Hv Hr.
  assert (rest_framework.perform_validation S self db _errors attrs
          = rest_framework.perform_validation S self' db _errors attrs) as Hpv.
  { unfold rest_framework.perform_validation.
    rewrite (perform_field_validation_ext S self self') by done.
    destruct (rest_framework.perform_field_validation S self' db (ser_fields S) _errors attrs)
      as [[errs1 attrs1]|e]; simpl; [|reflexivity].
    destruct (decide (errs1 = ∅)); [|reflexivity]. by rewrite Hv. }
  unfold rest_framework.from_native_attrs. rewrite Hpv.
  destruct (rest_framework.perform_validation S self' db _errors attrs)
    as [[errs1 attrs1]|e]; simpl; [|reflexivity].
  destruct (decide (errs1 = ∅)); [|reflexivity]. by rewrite Hr.
Qed.

Lemma resolve_contacts_org (db : Store) (self self' : Self) (uuids acc : list value) :
  org_id (org self) = org_id (org self') ->
  resolve_contacts db self uuids acc = resolve_contacts db self' uuids acc.
Proof.
  intros Ho. revert acc. induction uuids as [|uuid uuids IH]; intros acc; simpl.
  - reflexivity.
  - unfold contacts_by_uuid. rewrite Ho.
    destruct (head _); [apply IH | reflexivity].
Qed.

Lemma resolve_groups_org (db : Store) (self self' : Self) (uuids acc : list value) :
  org_id (org self) = org_id (org self') ->
  resolve_groups db self uuids acc = resolve_groups db self' uuids acc.
Proof.
  intros Ho. revert acc. induction uuids as [|uuid uuids IH]; intros acc; simpl.
  - reflexivity.
  - unfold groups_by_uuid. rewrite Ho.
    destruct (head _); [apply IH | reflexivity].
Qed.

(** Broadcast create reads the org only through its identity. *)
Lemma broadcast_create_org `{Collaborators} (self self' : Self) (db : Store)
    (_errors : Errors) (attrs : Attrs) :
  org_id (org self) = org_id (org self') ->
  rest_framework.from_native_attrs BroadcastCreateSerializer.serializer self db _errors attrs
  = rest_framework.from_native_attrs BroadcastCreateSerializer.serializer self' db _errors attrs.
Proof.
  intros Ho. apply from_native_attrs_ext.
  - intros name m Hm a source. cbn in Hm.
    unfold BroadcastCreateSerializer.validate_method in Hm.
    repeat (destruct (String.eqb name _); [injection Hm as <-|]); try discriminate.
    + unfold BroadcastCreateSerializer.validate_urns. by rewrite Ho.
    + unfold BroadcastCreateSerializer.validate_contacts.
      destruct (iter _); simpl; [|reflexivity].
      by rewrite (resolve_contacts_org db self self').
    + unfold BroadcastCreateSerializer.validate_groups.
      destruct (iter _); simpl; [|reflexivity].
      by rewrite (resolve_groups_org db self self').
    + unfold BroadcastCreateSerializer.validate_channel. by rewrite Ho.
  - reflexivity.
  - intros a. cbn. unfold BroadcastCreateSerializer.restore_object. by rewrite Ho.
Qed.

(** C7 (the code under an anonymous org).  [validate_phone] of Message
    create raises whatever the request holds, so no Message create request
    restores an object and the database stays as it was.  Broadcast create
    never tests the anonymous flag: a request has the same outcome for an
    anonymous org as for the same org when it is not anonymous, so its raw
    addresses are accepted and turned into contacts. *)
Theorem anon_org_message_and_broadcast `{Collaborators} :
  (forall self db attrs source, is_anon (org self) = true ->
     MsgCreateSerializer.validate_phone self db attrs source
     = Raise (ValidationError "Cannot create messages for anonymous organizations" []))
  /\ (forall coerce self db data, is_anon (org self) = true ->
        not_restored
          (rest_framework.from_native coerce MsgCreateSerializer.serializer self db data) db)
  /\ (forall coerce user id db data,
        rest_framework.from_native coerce BroadcastCreateSerializer.serializer
          {| user := user; org := {| org_id := id; is_anon := true |} |} db data
        = rest_framework.from_native coerce BroadcastCreateSerializer.serializer
            {| user := user; org := {| org_id := id; is_anon := false |} |} db data).
Proof.
  split; [|split].
  - intros self db attrs source Hanon.
    unfold MsgCreateSerializer.validate_phone. by rewrite Hanon.
  - intros. by apply msg_create_anon.
  - intros coerce user id db data. unfold rest_framework.from_native.
    destruct data; try reflexivity;
      destruct (WriteSerializer.restore_fields coerce _ ∅) as [errs attrs];
      by apply broadcast_create_org.
Qed.

Lemma anon_org_message_and_broadcast_witness :
  not_restored
    (rest_framework.from_native (fun _ => (∅, Sample.msg_attrs))
       (@MsgCreateSerializer.serializer Sample.collaborators)
       Sample.anon_self Sample.store1 (VDict [("text", VStr "hi")])) Sample.store1
  /\ exists broadcast contact db',
       rest_framework.from_native (fun d => (∅, list_to_map d))
         (@BroadcastCreateSerializer.serializer Sample.collaborators)
         Sample.anon_self Sample.store1
         (VDict [("urns", VList [VStr "tel:+250788123123"]); ("text", VStr "hi");
                 ("channel", VNone)])
       = Ok (rest_framework.Restored (VObj (OBroadcast broadcast)) db')
       /\ broadcasts db' = [broadcast]
       /\ contacts db' = [contact].
Proof.
  destruct (@anon_org_message_and_broadcast Sample.collaborators) as (_ & Hmsg & Hbc).
  split.
  - apply Hmsg. reflexivity.
  - change Sample.anon_self
      with {| user := 1; org := {| org_id := 1; is_anon := true |} |}.
    rewrite Hbc. eexists _, _, _. split; [vm_compute; reflexivity|].
    split; reflexivity.
Defined.

(** C7 (the failing input).  A Broadcast create request to a raw address,
    under an anonymous org: the broadcast is created, and so is a contact
    for the address. *)
Lemma broadcast_anon_org_restored :
  is_anon (org Sample.anon_self) = true /\
  contacts Sample.store1 = [] /\
  exists broadcast contact db',
    rest_framework.from_native_attrs (@BroadcastCreateSerializer.serializer Sample.collaborators)
      Sample.anon_self Sample.store1 ∅ Sample.broadcast_attrs
    = Ok (rest_framework.Restored (VObj (OBroadcast broadcast)) db')
    /\ broadcasts db' = [broadcast]
    /\ contacts db' = [contact].
Proof.
  split; [reflexivity|]. split; [reflexivity|].
  eexists _, _, _. repeat split; vm_compute; reflexivity.
Qed.

(** ** ContactWriteSerializer *)

Lemma truthy_get (attrs : Attrs) (key : string) (default : value) :
  truthy default = false ->
  truthy (get attrs key default) = supplied attrs key.
Proof. intros Hd. unfold get, supplied. by destruct (attrs !! key). Qed.






Section ContactWrite.
Context `{Collaborators}.
Variable phone_e164 : string -> option string.
Variable is_valid_name : value -> bool.
Variable str_lower : string -> string.
Variable supported_languages : list string.
Variable context_contact_fields : list ContactField.
Variable update_urns : Contact -> value -> Store -> Contact * Store.
Variable get_or_create : Z -> value -> value -> Store -> Contact * Store.
Variable save : Contact -> list (string * value) -> Store -> Contact * Store.
Variable set_field : Contact -> string -> value -> Store -> Contact * Store.
Variable update_groups : Contact -> value -> Store -> Contact * Store.

Local Abbreviation serializer :=
  (ContactWriteSerializer.serializer phone_e164 is_valid_name str_lower
     supported_languages context_contact_fields update_urns get_or_create save set_field
     update_groups).








End ContactWrite.



(** ** FlowRunStartSerializer *)

(** C3 (the code on a flow of another org).  With a flow_uuid that names
    exactly one flow, of another org: an archived flow is reported as
    archived, and only a flow that is not archived is reported as not
    existing.  With a flow_uuid that names no flow, no validation error is
    raised at all: [Flow.objects.get] raises [DoesNotExist]. *)
Theorem flow_start_foreign_flow (self : Self) (db : Store) (attrs : Attrs)
    (flow_uuid : value) :
  attrs !! "flow_uuid" = Some flow_uuid ->
  truthy flow_uuid = true ->
  (forall flow,
     List.filter (fun f => str_is flow_uuid (fl_uuid f)) (flows db) = [flow] ->
     fl_org flow <> org_id (org self) ->
     FlowRunStartSerializer.validate_flow_uuid self db attrs "flow_uuid"
     = if fl_is_archived flow
       then Raise (ValidationError "You cannot start an archived flow." [])
       else Raise (ValidationError "Invalid UUID '%s' - flow does not exist."
                     [VStr (fl_uuid flow)]))
  /\ (List.filter (fun f => str_is flow_uuid (fl_uuid f)) (flows db) = [] ->
      FlowRunStartSerializer.validate_flow_uuid self db attrs "flow_uuid"
      = Raise DoesNotExist).
Proof.
  intros Hl Ht. unfold FlowRunStartSerializer.validate_flow_uuid, get.
  rewrite Hl, Ht. split.
  - intros flow -> Horg. simpl.
    destruct (fl_is_archived flow); [reflexivity|].
    destruct (Z.eqb_spec (org_id (org self)) (fl_org flow)); [congruence | reflexivity].
  - intros ->. reflexivity.
Qed.

Lemma flow_start_foreign_flow_witness :
  FlowRunStartSerializer.validate_flow_uuid Sample.self1 Sample.flow_store
    (<["flow_uuid" := VStr "f-7"]> ∅) "flow_uuid"
  = Raise (ValidationError "You cannot start an archived flow." [])
  /\ FlowRunStartSerializer.validate_flow_uuid Sample.self1 Sample.flow_store
       (<["flow_uuid" := VStr "f-8"]> ∅) "flow_uuid"
     = Raise (ValidationError "Invalid UUID '%s' - flow does not exist." [VStr "f-8"])
  /\ FlowRunStartSerializer.validate_flow_uuid Sample.self1 Sample.flow_store
       (<["flow_uuid" := VStr "f-9"]> ∅) "flow_uuid"
     = Raise DoesNotExist.
Proof.
  split; [|split].
  - destruct (flow_start_foreign_flow Sample.self1 Sample.flow_store
                (<["flow_uuid" := VStr "f-7"]> ∅) (VStr "f-7")) as [Hw _];
      [apply lookup_insert_eq | reflexivity |].
    apply (Hw Sample.foreign_archived_flow); [reflexivity | discriminate].
  - destruct (flow_start_foreign_flow Sample.self1 Sample.flow_store
                (<["flow_uuid" := VStr "f-8"]> ∅) (VStr "f-8")) as [Hw _];
      [apply lookup_insert_eq | reflexivity |].
    apply (Hw Sample.foreign_flow); [reflexivity | discriminate].
  - destruct (flow_start_foreign_flow Sample.self1 Sample.flow_store
                (<["flow_uuid" := VStr "f-9"]> ∅) (VStr "f-9")) as [_ Hw];
      [apply lookup_insert_eq | reflexivity |].
    apply Hw. reflexivity.
Defined.

(** ** CampaignWriteSerializer *)

Lemma get_supplied (attrs : Attrs) (key : string) :
  truthy (get attrs key VNone) = supplied attrs key.
Proof. by apply truthy_get. Qed.

Lemma campaign_validate_group_uuid (self : Self) (db : Store) (attrs attrs' : Attrs) :
  supplied attrs "group_uuid" = true ->
  CampaignWriteSerializer.validate_group_uuid self db attrs "group_uuid" = Ok attrs' ->
  exists group,
    attrs' = <["group_obj" := VObj (OGroup group)]> attrs
    /\ In group (groups db) /\ gr_org group = org_id (org self).
Proof.
  intros Hs. unfold CampaignWriteSerializer.validate_group_uuid.
  rewrite get_supplied, Hs.
  destruct (head (groups_by_uuid db self (get attrs "group_uuid" VNone))) as [g|] eqn:Hh;
    [|discriminate].
  intros [= <-]. exists g. split; [done|].
  apply head_Some_elem_of, list_elem_of_In in Hh.
  unfold groups_by_uuid in Hh. apply filter_In in Hh as [Hin Hc].
  apply andb_prop in Hc as [Hc _]. apply andb_prop in Hc as [_ Hc].
  apply Z.eqb_eq in Hc. done.
Qed.

(** Every [validate_<field>] method of Campaign write returns the
    attributes as they are or with one of the keys 'campaign_obj' and
    'group_obj' set. *)
Lemma campaign_validate_method_keeps `{Collaborators} (self : Self) (db : Store)
    (field_name : string) (m : validate_method_t) (a a' : Attrs) (source key : string) :
  ser_validate_method CampaignWriteSerializer.serializer field_name = Some m ->
  m self db a source = Ok a' ->
  key <> "campaign_obj" -> key <> "group_obj" ->
  a' !! key = a !! key.
Proof.
  cbn [ser_validate_method CampaignWriteSerializer.serializer].
  unfold CampaignWriteSerializer.validate_method.
  intros Hm Hrun Hc Hg.
  repeat (destruct (String.eqb field_name _); [injection Hm as <-; revert Hrun|]);
    try discriminate;
    [unfold CampaignWriteSerializer.validate_uuid
    |unfold CampaignWriteSerializer.validate_campaign
    |unfold CampaignWriteSerializer.validate_group_uuid];
    destruct (truthy _); try (by intros [= <-]);
    destruct (head _); try discriminate; intros [= <-];
    by rewrite lookup_insert_ne.
Qed.

Lemma campaign_supplied_kept `{Collaborators} (self : Self) (db : Store)
    (attrs attrs1 : Attrs) (key : string) :
  run_validate_methods CampaignWriteSerializer.serializer self db
    (ser_fields CampaignWriteSerializer.serializer) attrs = Ok attrs1 ->
  key <> "campaign_obj" -> key <> "group_obj" ->
  attrs1 !! key = attrs !! key.
Proof.
  intros Hrun Hc Hg.
  refine (run_validate_methods_inv _ self db (fun a => a !! key = attrs !! key) _ _ _
            _ Hrun eq_refl).
  intros n r s m a a' _ Hm Hv Hi. cbn beta in *.
  by rewrite (campaign_validate_method_keeps self db n m a a' s key Hm Hv Hc Hg).
Qed.

(** C2 (as amended).  A Campaign write with neither [group] nor
    [group_uuid] is refused, with the cross-field error when its fields
    validate, and so is one with both [campaign] and [uuid].  With both
    [group] and [group_uuid] supplied there is no cross-field error on the
    pair: when the UUID names a group of the org, a request without [uuid]
    creates the campaign on that group and a request whose [uuid] names a
    campaign of the org updates that campaign to that group; the group name
    is not looked up and no group is created from it. *)
Theorem campaign_group_and_group_uuid `{Collaborators} (self : Self) (db : Store)
    (attrs : Attrs) :
  (supplied attrs "group" = false -> supplied attrs "group_uuid" = false ->
   (forall _errors,
      not_restored
        (rest_framework.from_native_attrs CampaignWriteSerializer.serializer
           self db _errors attrs) db)
   /\ (forall attrs1,
         run_validate_methods CampaignWriteSerializer.serializer self db
           (ser_fields CampaignWriteSerializer.serializer) attrs = Ok attrs1 ->
         rest_framework.from_native_attrs CampaignWriteSerializer.serializer self db ∅ attrs
         = Ok (rest_framework.Invalid
                 {["non_field_errors" :=
                     [("Must specify either group name or group_uuid", [])]]} db)))
  /\ (supplied attrs "campaign" = true -> supplied attrs "uuid" = true ->
      forall _errors,
        not_restored
          (rest_framework.from_native_attrs CampaignWriteSerializer.serializer
             self db _errors attrs) db)
  /\ (forall group_uuid group name,
        supplied attrs "group" = true ->
        attrs !! "group_uuid" = Some group_uuid -> truthy group_uuid = true ->
        head (groups_by_uuid db self group_uuid) = Some group ->
        attrs !! "name" = Some (VStr name) ->
        supplied attrs "campaign" = false ->
        attrs !! "campaign_obj" = None ->
        (supplied attrs "uuid" = false ->
         rest_framework.from_native_attrs CampaignWriteSerializer.serializer self db ∅ attrs
         = Ok (rest_framework.Restored
                 (VObj (OCampaign (fst (Campaign_create (org_id (org self)) name group db))))
                 (snd (Campaign_create (org_id (org self)) name group db)))
         /\ ca_group (fst (Campaign_create (org_id (org self)) name group db)) = gr_pk group
         /\ groups (snd (Campaign_create (org_id (org self)) name group db)) = groups db)
        /\ (forall uuid campaign,
              attrs !! "uuid" = Some uuid -> truthy uuid = true ->
              head (List.filter (fun c => str_is uuid (ca_uuid c))
                      (Campaign_get_campaigns db (org_id (org self)))) = Some campaign ->
              rest_framework.from_native_attrs CampaignWriteSerializer.serializer
                self db ∅ attrs
              = Ok (rest_framework.Restored
                      (VObj (OCampaign (campaign_updated campaign name group)))
                      (Campaign_save (campaign_updated campaign name group) db))
              /\ groups (Campaign_save (campaign_updated campaign name group) db)
                 = groups db)).
Proof.
  split; [|split].
  - intros Hg Hu. split.
    + intros errs.
      apply (from_native_attrs_rejected _ self db
               (fun a => supplied a "group" = false /\ supplied a "group_uuid" = false));
        [done | |].
      * intros n r s m a a' _ Hm Hv [Ha1 Ha2]. unfold supplied.
        rewrite !(campaign_validate_method_keeps self db n m a a' s _ Hm Hv) by done.
        done.
      * intros a a' [Ha1 Ha2]. cbn [ser_validate CampaignWriteSerializer.serializer].
        unfold CampaignWriteSerializer.validate. by rewrite !supplied_get, Ha1, Ha2.
    + intros attrs1 Hrun. apply (from_native_attrs_validate_error _ _ _ _ attrs1); [done|].
      cbn [ser_validate CampaignWriteSerializer.serializer].
      unfold CampaignWriteSerializer.validate. rewrite !supplied_get. unfold supplied.
      rewrite !(campaign_supplied_kept self db attrs attrs1 _ Hrun) by done.
      fold (supplied attrs "group"). fold (supplied attrs "group_uuid").
      by rewrite Hg, Hu.
  - intros Hc Hu errs.
    apply (from_native_attrs_rejected _ self db
             (fun a => supplied a "campaign" = true /\ supplied a "uuid" = true));
      [done | |].
    + intros n r s m a a' _ Hm Hv [Ha1 Ha2]. unfold supplied.
      rewrite !(campaign_validate_method_keeps self db n m a a' s _ Hm Hv) by done.
      done.
    + intros a a' [Ha1 Ha2]. cbn [ser_validate CampaignWriteSerializer.serializer].
      unfold CampaignWriteSerializer.validate. rewrite !supplied_get, Ha1, Ha2.
      by destruct (negb (supplied a "group") && negb (supplied a "group_uuid")).
  - intros group_uuid group name Hg Hgu Hgt Hres Hn Hc Hco.
    assert (supplied attrs "group_uuid" = true) as Hgs
      by (by rewrite (supplied_lookup _ _ _ Hgu)).
    split.
    + intros Hu.
      assert (run_validate_methods CampaignWriteSerializer.serializer self db
                (ser_fields CampaignWriteSerializer.serializer) attrs
              = Ok (<["group_obj" := VObj (OGroup group)]> attrs)) as Hrun.
      { cbn. unfold CampaignWriteSerializer.validate_uuid. rewrite supplied_get, Hu. cbn.
        unfold CampaignWriteSerializer.validate_group_uuid.
        rewrite (get_lookup _ _ _ _ Hgu), Hgt, Hres. cbn.
        unfold CampaignWriteSerializer.validate_campaign.
        by rewrite supplied_get, supplied_insert_ne, Hc by done. }
      split; [|by split].
      rewrite (from_native_attrs_accepted _ _ _ _ _ (<["group_obj" := VObj (OGroup group)]> attrs)
                 Hrun).
      * cbn [ser_restore_object CampaignWriteSerializer.serializer].
        unfold CampaignWriteSerializer.restore_object.
        rewrite contains_insert_eq, getitem_insert_eq. cbn.
        rewrite get_insert_ne, (get_lookup_None _ _ _ Hco) by done. cbn.
        rewrite getitem_insert_ne by done. unfold getitem. rewrite Hn. reflexivity.
      * cbn [ser_validate CampaignWriteSerializer.serializer].
        unfold CampaignWriteSerializer.validate.
        rewrite !supplied_get, !supplied_insert_ne, Hg, Hc by done. reflexivity.
    + intros uuid campaign Hul Hut Hcamp.
      assert (run_validate_methods CampaignWriteSerializer.serializer self db
                (ser_fields CampaignWriteSerializer.serializer) attrs
              = Ok (<["group_obj" := VObj (OGroup group)]>
                      (<["campaign_obj" := VObj (OCampaign campaign)]> attrs))) as Hrun.
      { cbn. unfold CampaignWriteSerializer.validate_uuid.
        rewrite (get_lookup _ _ _ _ Hul), Hut, Hcamp. cbn.
        unfold CampaignWriteSerializer.validate_group_uuid.
        rewrite get_insert_ne, (get_lookup _ _ _ _ Hgu), Hgt, Hres by done. cbn.
        unfold CampaignWriteSerializer.validate_campaign.
        by rewrite supplied_get, !supplied_insert_ne, Hc by done. }
      split; [|reflexivity].
      rewrite (from_native_attrs_accepted _ _ _ _ _
                 (<["group_obj" := VObj (OGroup group)]>
                    (<["campaign_obj" := VObj (OCampaign campaign)]> attrs)) Hrun).
      * cbn [ser_restore_object CampaignWriteSerializer.serializer].
        unfold CampaignWriteSerializer.restore_object.
        rewrite contains_insert_eq, getitem_insert_eq. cbn.
        rewrite get_insert_ne, get_insert_eq by done. cbn.
        rewrite !getitem_insert_ne by done. unfold getitem. rewrite Hn. reflexivity.
      * cbn [ser_validate CampaignWriteSerializer.serializer].
        unfold CampaignWriteSerializer.validate.
        rewrite !supplied_get, !supplied_insert_ne, Hg, Hc by done. reflexivity.
Qed.

Lemma campaign_group_and_group_uuid_witness :
  (exists campaign db',
     rest_framework.from_native_attrs (@CampaignWriteSerializer.serializer Sample.collaborators)
       Sample.self1 Sample.group_store ∅ Sample.campaign_attrs
     = Ok (rest_framework.Restored (VObj (OCampaign campaign)) db')
     /\ ca_group campaign = 1 /\ groups db' = [Sample.group1])
  /\ rest_framework.from_native_attrs (@CampaignWriteSerializer.serializer Sample.collaborators)
       Sample.self1 Sample.group_store ∅ (<["name" := VStr "Reminders"]> ∅)
     = Ok (rest_framework.Invalid
             {["non_field_errors" :=
                 [("Must specify either group name or group_uuid", [])]]} Sample.group_store).
Proof.
  split.
  - destruct (@campaign_group_and_group_uuid Sample.collaborators Sample.self1
                Sample.group_store Sample.campaign_attrs) as (_ & _ & Hboth).
    destruct (Hboth (VStr "g-1") Sample.group1 "Reminders") as [Hcreate _];
      [vm_compute; reflexivity | vm_compute; reflexivity | reflexivity | reflexivity
      | vm_compute; reflexivity | vm_compute; reflexivity | vm_compute; reflexivity |].
    destruct Hcreate as (Hrun & Hgroup & Hgroups); [vm_compute; reflexivity|].
    eexists _, _. split; [exact Hrun|]. split; [exact Hgroup | exact Hgroups].
  - destruct (@campaign_group_and_group_uuid Sample.collaborators Sample.self1
                Sample.group_store (<["name" := VStr "Reminders"]> ∅)) as (Hnone & _ & _).
    destruct Hnone as [_ Htight]; [vm_compute; reflexivity | vm_compute; reflexivity |].
    apply (Htight (<["name" := VStr "Reminders"]> ∅)). vm_compute. reflexivity.
Defined.

(** C2 (counterexample).  A Campaign write with a group name and the UUID
    of another group: the request goes through, the campaign is created on
    the group of the UUID, and the name is silently dropped. *)
Lemma campaign_both_group_fields_restored :
  supplied Sample.campaign_attrs "group" = true /\
  supplied Sample.campaign_attrs "group_uuid" = true /\
  exists campaign db',
    rest_framework.from_native_attrs (@CampaignWriteSerializer.serializer Sample.collaborators)
      Sample.self1 Sample.group_store ∅ Sample.campaign_attrs
    = Ok (rest_framework.Restored (VObj (OCampaign campaign)) db')
    /\ campaigns db' = [campaign]
    /\ ca_group campaign = gr_pk Sample.group1
    /\ gr_name Sample.group1 <> "Reporters"
    /\ groups db' = [Sample.group1].
Proof.
  split; [vm_compute; reflexivity|]. split; [vm_compute; reflexivity|].
  eexists _, _. split; [vm_compute; reflexivity|].
  repeat split; try reflexivity. discriminate.
Qed.

(** ** CampaignEventWriteSerializer: exactly one of message and flow *)

Lemma campaign_event_validate_ok (self : Self) (db : Store)
    (attrs attrs' : Attrs) :
  CampaignEventWriteSerializer.validate self db attrs = Ok attrs' ->
  attrs' = attrs /\ supplied attrs "message" = negb (supplied attrs "flow_obj").
Proof.
  unfold CampaignEventWriteSerializer.validate. rewrite !get_supplied.
  destruct (supplied attrs "message"), (supplied attrs "flow_obj"); simpl;
    try discriminate;
    destruct (supplied attrs "event_obj" && supplied attrs "campaign_obj");
    try discriminate; by intros [= <-].
Qed.

(** What a [validate_<field>] method of Campaign event write does to the
    attributes when it returns: nothing, or it stores the object it
    resolved; a flow is stored only for a request that names one. *)
Lemma campaign_event_validate_method_cases `{Collaborators} (self : Self) (db : Store)
    (field_name : string) (required : bool) (source : string) (m : validate_method_t)
    (a a' : Attrs) :
  In (field_name, required, source) (ser_fields CampaignEventWriteSerializer.serializer) ->
  ser_validate_method CampaignEventWriteSerializer.serializer field_name = Some m ->
  m self db a source = Ok a' ->
  a' = a
  \/ (exists e, a' = <["event_obj" := VObj (OEvent e)]> a)
  \/ (exists c, a' = <["campaign_obj" := VObj (OCampaign c)]> a)
  \/ (exists f, a' = <["flow_obj" := VObj (OFlow f)]> a
                /\ (supplied a "flow_uuid" = true \/ supplied a "flow" = true)).
Proof.
  intros Hin Hm Hv. cbn in Hin.
  repeat (destruct Hin as [Heq|Hin]; [injection Heq as <- <- <-; cbn in Hm|]);
    try discriminate Hm; try (by destruct Hin); injection Hm as <-; revert Hv.
  - unfold CampaignEventWriteSerializer.validate_uuid.
    destruct (truthy _); [|intros [= <-]; by left].
    destruct (head _) as [e|]; [|discriminate]. intros [= <-]. right. left. by exists e.
  - unfold CampaignEventWriteSerializer.validate_campaign_uuid.
    destruct (truthy _); [|intros [= <-]; by left].
    destruct (head _) as [c|]; [|discriminate]. intros [= <-]. right. right. left.
    by exists c.
  - unfold CampaignEventWriteSerializer.validate_unit.
    destruct (getitem a "unit") as [u|]; cbn; [|discriminate].
    destruct (negb _); [discriminate|]. intros [= <-]. by left.
  - unfold CampaignEventWriteSerializer.validate_delivery_hour.
    destruct (getitem a "delivery_hour") as [h|]; cbn; [|discriminate].
    destruct (as_int h) as [n|]; cbn; [|discriminate].
    destruct (_ || _); [discriminate|]. intros [= <-]. by left.
  - unfold CampaignEventWriteSerializer.validate_flow_uuid. rewrite supplied_get.
    destruct (supplied a "flow_uuid") eqn:Hs; [|intros [= <-]; by left].
    destruct (head _) as [f|]; [|discriminate]. intros [= <-]. right. right. right.
    exists f. split; [done | by left].
  - unfold CampaignEventWriteSerializer.validate_event.
    destruct (truthy _); [|intros [= <-]; by left].
    destruct (head _) as [e|]; [|discriminate]. intros [= <-]. right. left. by exists e.
  - unfold CampaignEventWriteSerializer.validate_campaign.
    destruct (truthy _); [|intros [= <-]; by left].
    destruct (head _) as [c|]; [|discriminate]. intros [= <-]. right. right. left.
    by exists c.
  - unfold CampaignEventWriteSerializer.validate_flow. rewrite supplied_get.
    destruct (supplied a "flow") eqn:Hs; [|intros [= <-]; by left].
    destruct (head _) as [f|]; [|discriminate]. intros [= <-]. right. right. right.
    exists f. split; [done | by right].
Qed.

(** The request's own fields reach [validate] as they were given. *)
Lemma campaign_event_field_kept `{Collaborators} (self : Self) (db : Store)
    (attrs attrs1 : Attrs) (key : string) :
  run_validate_methods CampaignEventWriteSerializer.serializer self db
    (ser_fields CampaignEventWriteSerializer.serializer) attrs = Ok attrs1 ->
  key <> "event_obj" -> key <> "campaign_obj" -> key <> "flow_obj" ->
  attrs1 !! key = attrs !! key.
Proof.
  intros Hrun He Hc Hf.
  refine (run_validate_methods_inv _ self db (fun a => a !! key = attrs !! key) _ _ _
            _ Hrun eq_refl).
  intros n r s m a a' Hin Hm Hv Hi. cbn beta in *.
  destruct (campaign_event_validate_method_cases self db n r s m a a' Hin Hm Hv)
    as [->|[(e & ->)|[(c & ->)|(f & -> & _)]]]; [done|..]; by rewrite lookup_insert_ne.
Qed.

(** A resolved flow stays in the attributes. *)
Lemma campaign_event_flow_obj_kept `{Collaborators} (self : Self) (db : Store)
    (fields : list (string * bool * string)) (attrs attrs1 : Attrs) :
  (forall field, In field fields ->
                 In field (ser_fields CampaignEventWriteSerializer.serializer)) ->
  run_validate_methods CampaignEventWriteSerializer.serializer self db fields attrs
  = Ok attrs1 ->
  supplied attrs "flow_obj" = true -> supplied attrs1 "flow_obj" = true.
Proof.
  intros Hsub Hrun.
  refine (run_validate_methods_inv _ self db (fun a => supplied a "flow_obj" = true) _ _ _
            _ Hrun).
  intros n r s m a a' Hin Hm Hv Hi. cbn beta in *.
  destruct (campaign_event_validate_method_cases self db n r s m a a' (Hsub _ Hin) Hm Hv)
    as [->|[(e & ->)|[(c & ->)|(f & -> & _)]]]; [done|..];
    [by rewrite supplied_insert_ne | by rewrite supplied_insert_ne
    | by rewrite supplied_insert_eq].
Qed.

(** A flow that the request names is resolved by the time the field
    methods have all returned. *)
Lemma campaign_event_flow_resolved `{Collaborators} (self : Self) (db : Store)
    (attrs attrs1 : Attrs) :
  run_validate_methods CampaignEventWriteSerializer.serializer self db
    (ser_fields CampaignEventWriteSerializer.serializer) attrs = Ok attrs1 ->
  supplied attrs "flow_uuid" = true \/ supplied attrs "flow" = true ->
  supplied attrs1 "flow_obj" = true.
Proof.
  intros Hrun Hflow.
  assert (supplied attrs1 "flow_uuid" = supplied attrs "flow_uuid"
          /\ supplied attrs1 "flow" = supplied attrs "flow") as [Hu Hf].
  { unfold supplied.
    by rewrite !(campaign_event_field_kept self db attrs attrs1 _ Hrun) by done. }
  revert Hrun.
  change (ser_fields CampaignEventWriteSerializer.serializer)
    with CampaignEventWriteSerializer.declared_fields.
  unfold CampaignEventWriteSerializer.declared_fields.
  cbn [run_validate_methods ser_validate_method CampaignEventWriteSerializer.serializer
       CampaignEventWriteSerializer.validate_method String.eqb Ascii.eqb Bool.eqb].
  destruct (CampaignEventWriteSerializer.validate_uuid self db attrs "uuid")
    as [a1|] eqn:H1; cbn [mbind result_bind]; [|discriminate].
  destruct (CampaignEventWriteSerializer.validate_campaign_uuid self db a1 "campaign_uuid")
    as [a2|] eqn:H2; cbn [mbind result_bind]; [|discriminate].
  destruct (CampaignEventWriteSerializer.validate_unit self db a2 "unit")
    as [a3|] eqn:H3; cbn [mbind result_bind]; [|discriminate].
  destruct (CampaignEventWriteSerializer.validate_delivery_hour self db a3 "delivery_hour")
    as [a4|] eqn:H4; cbn [mbind result_bind]; [|discriminate].
  destruct (CampaignEventWriteSerializer.validate_flow_uuid self db a4 "flow_uuid")
    as [a5|] eqn:H5; cbn [mbind result_bind]; [|discriminate].
  destruct (CampaignEventWriteSerializer.validate_event self db a5 "event")
    as [a6|] eqn:H6; cbn [mbind result_bind]; [|discriminate].
  destruct (CampaignEventWriteSerializer.validate_campaign self db a6 "campaign")
    as [a7|] eqn:H7; cbn [mbind result_bind]; [|discriminate].
  destruct (CampaignEventWriteSerializer.validate_flow self db a7 "flow")
    as [a8|] eqn:H8; cbn [mbind result_bind]; [|discriminate].
  intros [= <-].
  assert (forall a a' (k : string),
            (a' = a
             \/ (exists e, a' = <["event_obj" := VObj (OEvent e)]> a)
             \/ (exists c, a' = <["campaign_obj" := VObj (OCampaign c)]> a)
             \/ (exists f, a' = <["flow_obj" := VObj (OFlow f)]> a
                           /\ (supplied a "flow_uuid" = true \/ supplied a "flow" = true))) ->
            supplied a k = true -> supplied a' k = true) as Hmono.
  { intros a a' k [->|[(e & ->)|[(c & ->)|(f & -> & _)]]] Hk; [done|..];
      unfold supplied in *;
      (destruct (decide (k = "event_obj")) as [->|];
       [by rewrite ?lookup_insert_eq, ?lookup_insert_ne by done|]);
      (destruct (decide (k = "campaign_obj")) as [->|];
       [by rewrite ?lookup_insert_eq, ?lookup_insert_ne by done|]);
      (destruct (decide (k = "flow_obj")) as [->|];
       [by rewrite ?lookup_insert_eq, ?lookup_insert_ne by done|]);
      by rewrite lookup_insert_ne. }
  pose proof (fun n r s m a a' Hin =>
                campaign_event_validate_method_cases self db n r s m a a' Hin) as Hcases.
  assert (forall k, supplied attrs k = true -> supplied a4 k = true) as H04.
  { intros k Hk.
    apply (Hmono a3 a4 k); [eapply (Hcases "delivery_hour" true); [cbn; tauto|reflexivity|done]|].
    apply (Hmono a2 a3 k); [eapply (Hcases "unit" true); [cbn; tauto|reflexivity|done]|].
    apply (Hmono a1 a2 k);
      [eapply (Hcases "campaign_uuid" false); [cbn; tauto|reflexivity|done]|].
    apply (Hmono attrs a1 k); [eapply (Hcases "uuid" false); [cbn; tauto|reflexivity|done]|].
    done. }
  assert (forall k, supplied a5 k = true -> supplied a7 k = true) as H57.
  { intros k Hk.
    apply (Hmono a6 a7 k); [eapply (Hcases "campaign" false); [cbn; tauto|reflexivity|done]|].
    apply (Hmono a5 a6 k); [eapply (Hcases "event" false); [cbn; tauto|reflexivity|done]|].
    done. }
  assert (forall k, supplied a4 k = true -> supplied a5 k = true) as H45.
  { intros k. apply Hmono.
    eapply (Hcases "flow_uuid" false); [cbn; tauto|reflexivity|done]. }
  assert (forall k, supplied a7 k = true -> supplied a8 k = true) as H78.
  { intros k. apply Hmono.
    eapply (Hcases "flow" false); [cbn; tauto|reflexivity|done]. }
  destruct Hflow as [Hflow|Hflow].
  - apply H78, H57. apply H04 in Hflow. revert H5.
    unfold CampaignEventWriteSerializer.validate_flow_uuid. rewrite supplied_get, Hflow.
    destruct (head _); [|discriminate]. intros [= <-]. by rewrite supplied_insert_eq.
  - apply H04, H45, H57 in Hflow. revert H8.
    unfold CampaignEventWriteSerializer.validate_flow. rewrite supplied_get, Hflow.
    destruct (head _); [|discriminate]. intros [= <-]. by rewrite supplied_insert_eq.
Qed.

(** Without a flow in the request none is resolved. *)
Lemma campaign_event_no_flow `{Collaborators} (self : Self) (db : Store)
    (attrs attrs1 : Attrs) :
  run_validate_methods CampaignEventWriteSerializer.serializer self db
    (ser_fields CampaignEventWriteSerializer.serializer) attrs = Ok attrs1 ->
  supplied attrs "flow_uuid" = false -> supplied attrs "flow" = false ->
  supplied attrs "flow_obj" = false ->
  supplied attrs1 "flow_obj" = false.
Proof.
  intros Hrun Hu Hf Ho.
  enough (supplied attrs1 "flow_uuid" = false /\ supplied attrs1 "flow" = false
          /\ supplied attrs1 "flow_obj" = false) as (_ & _ & ?) by done.
  refine (run_validate_methods_inv _ self db
            (fun a => supplied a "flow_uuid" = false /\ supplied a "flow" = false
                      /\ supplied a "flow_obj" = false) _ _ _ _ Hrun _); [|done].
  intros n r s m a a' Hin Hm Hv (Ha1 & Ha2 & Ha3). cbn beta.
  destruct (campaign_event_validate_method_cases self db n r s m a a' Hin Hm Hv)
    as [->|[(e & ->)|[(c & ->)|(f & -> & [Hs|Hs])]]]; [done|..]; try congruence;
    by rewrite !supplied_insert_ne.
Qed.

(** The event that [restore_object] returns on attributes with exactly
    one of the message and the flow carries that one. *)
Lemma campaign_event_restored_event `{Collaborators} (self : Self) (db db' : Store)
    (attrs : Attrs) (object : value) :
  supplied attrs "message" = negb (supplied attrs "flow_obj") ->
  CampaignEventWriteSerializer.restore_object self db attrs = Ok (object, db') ->
  exists event,
    object = VObj (OEvent event)
    /\ if supplied attrs "message"
       then ev_event_type event = MESSAGE_EVENT
            /\ exists text, attrs !! "message" = Some (VStr text)
                            /\ ev_message event = Some text
       else ev_event_type event = FLOW_EVENT /\ ev_message event = None.
Proof.
  intros Hx. unfold CampaignEventWriteSerializer.restore_object.
  rewrite !supplied_get.
  destruct (as_int (get attrs "offset" VNone)) as [offset|]; cbn; [|discriminate].
  destruct (as_str (get attrs "unit" VNone)) as [unit|]; cbn; [|discriminate].
  destruct (as_int (get attrs "delivery_hour" VNone)) as [hour|]; cbn; [|discriminate].
  destruct (as_str (get attrs "relative_to" VNone)) as [label|]; cbn; [|discriminate].
  destruct (match ContactField_get_by_label db (org_id (org self)) label with
            | Some relative_to => (relative_to, db)
            | None => ContactField_get_or_create (org_id (org self)) (api_make_key label)
                        label db
            end) as [relative_to db1].
  assert (supplied attrs "message" = true ->
          (exists text,
             attrs !! "message" = Some (VStr text)
             /\ CampaignEventWriteSerializer.as_message (get attrs "message" VNone)
                = Ok (Some text))
          \/ CampaignEventWriteSerializer.as_message (get attrs "message" VNone)
             = Raise TypeError)
    as Hmsg.
  { unfold supplied, get. destruct (attrs !! "message") as [v|]; [|discriminate].
    destruct v; cbn; try discriminate; eauto. }
  destruct (supplied attrs "flow_obj") eqn:Hflow; cbn in Hx; rewrite Hx.
  - destruct (supplied attrs "event_obj").
    + destruct (CampaignEventWriteSerializer.as_event _) as [event|]; cbn; [|discriminate].
      destruct (CampaignEventWriteSerializer.as_flow _) as [flow|]; cbn; [|discriminate].
      intros [= <- <-]. eexists. split; [reflexivity|]. done.
    + destruct (CampaignEventWriteSerializer.as_campaign _) as [campaign|]; cbn; [|discriminate].
      destruct (CampaignEventWriteSerializer.as_flow _) as [flow|]; cbn; [|discriminate].
      unfold CampaignEvent_create_flow_event. cbn.
      intros [= <- <-]. eexists. split; [reflexivity|]. done.
  - destruct (Hmsg Hx) as [(text & Hl & Has)|Has].
    + destruct (supplied attrs "event_obj").
      * destruct (CampaignEventWriteSerializer.as_event _) as [event|]; cbn; [|discriminate].
        rewrite Has. cbn.
        destruct (event_type_eqb (ev_event_type event) MESSAGE_EVENT) eqn:Ht; cbn.
        -- unfold getitem. rewrite Hl. cbn. intros [= <- <-].
           eexists. split; [reflexivity|]. cbn. split; [|by exists text].
           by destruct (ev_event_type event).
        -- unfold Flow_create_single_message. cbn.
           intros [= <- <-]. eexists. split; [reflexivity|]. cbn.
           split; [done | by exists text].
      * destruct (CampaignEventWriteSerializer.as_campaign _) as [campaign|]; cbn; [|discriminate].
        rewrite Has. cbn.
        unfold CampaignEvent_create_message_event, Flow_create_single_message. cbn.
        intros [= <- <-]. eexists. split; [reflexivity|].
        cbn. split; [done | by exists text].
    + destruct (supplied attrs "event_obj").
      * destruct (CampaignEventWriteSerializer.as_event _) as [event|]; cbn; [|discriminate].
        rewrite Has. discriminate.
      * destruct (CampaignEventWriteSerializer.as_campaign _) as [campaign|]; cbn; [|discriminate].
        rewrite Has. discriminate.
Qed.

(** C5.  A CampaignEvent write that supplies both an inline message and a
    flow (by [flow_uuid] or by the legacy [flow]) is refused, and so is one
    that supplies neither; when its fields validate, the error map holds
    the cross-field message.  An event is restored only from attributes
    with exactly one of the two, the message being the one of the request,
    and the event written is a message event with that text or a flow event
    without a text.  A request that ends in an error map leaves the
    database as it was. *)
Theorem campaign_event_message_xor_flow `{Collaborators} (self : Self) (db : Store)
    (attrs : Attrs) :
  (supplied attrs "message" = true ->
   supplied attrs "flow_uuid" = true \/ supplied attrs "flow" = true ->
   (forall _errors,
      not_restored
        (rest_framework.from_native_attrs CampaignEventWriteSerializer.serializer
           self db _errors attrs) db)
   /\ (forall attrs1,
         run_validate_methods CampaignEventWriteSerializer.serializer self db
           (ser_fields CampaignEventWriteSerializer.serializer) attrs = Ok attrs1 ->
         rest_framework.from_native_attrs CampaignEventWriteSerializer.serializer
           self db ∅ attrs
         = Ok (rest_framework.Invalid
                 {["non_field_errors" :=
                     [("Events cannot have both a message and a flow", [])]]} db)))
  /\ (supplied attrs "message" = false ->
      supplied attrs "flow_uuid" = false -> supplied attrs "flow" = false ->
      supplied attrs "flow_obj" = false ->
      (forall _errors,
         not_restored
           (rest_framework.from_native_attrs CampaignEventWriteSerializer.serializer
              self db _errors attrs) db)
      /\ (forall attrs1,
            run_validate_methods CampaignEventWriteSerializer.serializer self db
              (ser_fields CampaignEventWriteSerializer.serializer) attrs = Ok attrs1 ->
            rest_framework.from_native_attrs CampaignEventWriteSerializer.serializer
              self db ∅ attrs
            = Ok (rest_framework.Invalid
                    {["non_field_errors" :=
                        [("Must specify either a flow or a message for the event", [])]]}
                    db)))
  /\ (forall _errors object db',
        rest_framework.from_native_attrs CampaignEventWriteSerializer.serializer
          self db _errors attrs
        = Ok (rest_framework.Restored object db') ->
        exists attrs1 event,
          run_validate_methods CampaignEventWriteSerializer.serializer self db
            (ser_fields CampaignEventWriteSerializer.serializer) attrs = Ok attrs1
          /\ CampaignEventWriteSerializer.validate self db attrs1 = Ok attrs1
          /\ CampaignEventWriteSerializer.restore_object self db attrs1 = Ok (object, db')
          /\ attrs1 !! "message" = attrs !! "message"
          /\ supplied attrs "message" = negb (supplied attrs1 "flow_obj")
          /\ object = VObj (OEvent event)
          /\ if supplied attrs "message"
             then ev_event_type event = MESSAGE_EVENT
                  /\ exists text, attrs !! "message" = Some (VStr text)
                                  /\ ev_message event = Some text
             else ev_event_type event = FLOW_EVENT /\ ev_message event = None)
  /\ (forall _errors _errors' db',
        rest_framework.from_native_attrs CampaignEventWriteSerializer.serializer
          self db _errors attrs
        = Ok (rest_framework.Invalid _errors' db') ->
        db' = db).
Proof.
  assert (forall attrs1,
            run_validate_methods CampaignEventWriteSerializer.serializer self db
              (ser_fields CampaignEventWriteSerializer.serializer) attrs = Ok attrs1 ->
            supplied attrs1 "message" = supplied attrs "message") as Hmessage.
  { intros attrs1 Hrun. unfold supplied.
    by rewrite (campaign_event_field_kept self db attrs attrs1 _ Hrun). }
  split; [|split; [|split]].
  - intros Hm Hflow.
    assert (forall attrs1,
              run_validate_methods CampaignEventWriteSerializer.serializer self db
                (ser_fields CampaignEventWriteSerializer.serializer) attrs = Ok attrs1 ->
              CampaignEventWriteSerializer.validate self db attrs1
              = Raise (ValidationError "Events cannot have both a message and a flow" []))
      as Hraise.
    { intros attrs1 Hrun. unfold CampaignEventWriteSerializer.validate.
      rewrite !supplied_get, (Hmessage _ Hrun), Hm,
        (campaign_event_flow_resolved self db attrs attrs1 Hrun Hflow). reflexivity. }
    split.
    + intros errs. apply not_restored_intro. intros object db' Hrun.
      apply from_native_attrs_restored_run in Hrun as (attrs1 & attrs2 & Hrun & Hv & _).
      cbn [ser_validate CampaignEventWriteSerializer.serializer] in Hv.
      by rewrite (Hraise _ Hrun) in Hv.
    + intros attrs1 Hrun.
      apply (from_native_attrs_validate_error _ _ _ _ attrs1); [done|].
      by apply Hraise.
  - intros Hm Hu Hf Ho.
    assert (forall attrs1,
              run_validate_methods CampaignEventWriteSerializer.serializer self db
                (ser_fields CampaignEventWriteSerializer.serializer) attrs = Ok attrs1 ->
              CampaignEventWriteSerializer.validate self db attrs1
              = Raise (ValidationError
                         "Must specify either a flow or a message for the event" []))
      as Hraise.
    { intros attrs1 Hrun. unfold CampaignEventWriteSerializer.validate.
      rewrite !supplied_get, (Hmessage _ Hrun), Hm,
        (campaign_event_no_flow self db attrs attrs1 Hrun Hu Hf Ho). reflexivity. }
    split.
    + intros errs. apply not_restored_intro. intros object db' Hrun.
      apply from_native_attrs_restored_run in Hrun as (attrs1 & attrs2 & Hrun & Hv & _).
      cbn [ser_validate CampaignEventWriteSerializer.serializer] in Hv.
      by rewrite (Hraise _ Hrun) in Hv.
    + intros attrs1 Hrun.
      apply (from_native_attrs_validate_error _ _ _ _ attrs1); [done|].
      by apply Hraise.
  - intros errs object db' Hrun.
    apply from_native_attrs_restored_run in Hrun as (attrs1 & attrs2 & Hrun & Hv & Hr).
    cbn [ser_validate ser_restore_object CampaignEventWriteSerializer.serializer] in Hv, Hr.
    pose proof Hv as Hv'. apply campaign_event_validate_ok in Hv' as [-> Hx].
    destruct (campaign_event_restored_event self db db' attrs1 object Hx Hr)
      as (event & -> & Hevent).
    exists attrs1, event. rewrite (Hmessage _ Hrun) in Hx, Hevent.
    rewrite (campaign_event_field_kept self db attrs attrs1 "message" Hrun) in Hevent by done.
    repeat split; try done.
    by rewrite (campaign_event_field_kept self db attrs attrs1 "message" Hrun).
  - intros errs errs' db' Hrun. by apply from_native_attrs_invalid in Hrun as [-> _].
Qed.

Lemma campaign_event_message_xor_flow_witness :
  rest_framework.from_native_attrs
    (@CampaignEventWriteSerializer.serializer Sample.collaborators)
    Sample.self1 Sample.event_store ∅ Sample.event_both_attrs
  = Ok (rest_framework.Invalid
          {["non_field_errors" := [("Events cannot have both a message and a flow", [])]]}
          Sample.event_store)
  /\ rest_framework.from_native_attrs
       (@CampaignEventWriteSerializer.serializer Sample.collaborators)
       Sample.self1 Sample.event_store ∅
       (<["campaign_uuid" := VStr "ca-1"]> Sample.event_base_attrs)
     = Ok (rest_framework.Invalid
             {["non_field_errors" :=
                 [("Must specify either a flow or a message for the event", [])]]}
             Sample.event_store).
Proof.
  split.
  - destruct (@campaign_event_message_xor_flow Sample.collaborators Sample.self1
                Sample.event_store Sample.event_both_attrs) as (Hboth & _).
    destruct Hboth as [_ Htight]; [vm_compute; reflexivity | left; vm_compute; reflexivity |].
    eapply Htight. vm_compute. reflexivity.
  - destruct (@campaign_event_message_xor_flow Sample.collaborators Sample.self1
                Sample.event_store
                (<["campaign_uuid" := VStr "ca-1"]> Sample.event_base_attrs))
      as (_ & Hneither & _).
    destruct Hneither as [_ Htight];
      [vm_compute; reflexivity | vm_compute; reflexivity | vm_compute; reflexivity
      | vm_compute; reflexivity |].
    eapply Htight. vm_compute. reflexivity.
Defined.
(** ** MsgBulkActionSerializer *)

Lemma pk_is_names (id : value) (pk : Z) :
  MsgBulkActionSerializer.pk_is id pk = true <-> names_pk id pk.
Proof.
  unfold names_pk. destruct id as [|b|n| | | | |]; simpl;
    try (split; [discriminate | intros [?|[[? ?]|[? ?]]]; discriminate]).
  - destruct b; rewrite Z.eqb_eq; split.
    + intros <-. right. left. done.
    + intros [?|[[_ ->]|[? _]]]; [discriminate | done | discriminate].
    + intros <-. right. right. done.
    + intros [?|[[? _]|[_ ->]]]; [discriminate | discriminate | done].
  - rewrite Z.eqb_eq. split.
    + intros ->. by left.
    + intros [[= ->]|[[? _]|[? _]]]; [done | discriminate | discriminate].
Qed.

Lemma selected_spec (self : Self) (msg_ids : list value) (msg : Msg) :
  MsgBulkActionSerializer.selected self msg_ids msg = true
  <-> msg_org msg = org_id (org self) /\ msg_direction msg = INCOMING
      /\ requested msg_ids (msg_pk msg).
Proof.
  unfold MsgBulkActionSerializer.selected, requested.
  rewrite !andb_true_iff, Z.eqb_eq, existsb_exists.
  split.
  - intros [[Ho Hd] (id & Hin & Hid)]. repeat split; [done| |].
    + by destruct (msg_direction msg).
    + exists id. split; [done|]. by apply pk_is_names.
  - intros (Ho & Hd & id & Hin & Hid). repeat split; [done| |].
    + by rewrite Hd.
    + exists id. split; [done|]. by apply pk_is_names.
Qed.

Lemma transition_lookup (self : Self) (msg_ids : list value) (f : Msg -> Msg) (db : Store)
    (i : nat) (msg : Msg) :
  msgs db !! i = Some msg ->
  msgs (MsgBulkActionSerializer.transition self msg_ids f db) !! i
  = Some (if MsgBulkActionSerializer.selected self msg_ids msg then f msg else msg).
Proof.
  intros Hl. unfold MsgBulkActionSerializer.transition. simpl.
  by rewrite list_lookup_fmap, Hl.
Qed.

(** C10.  On the ids that [IntegerArrayField] lets through (integers, a
    JSON boolean naming 1 or 0), a bulk action whose label, if it needs
    one, was resolved succeeds whatever the ids are; the rows of the
    message table keep their places; a message that is of another org, or
    outgoing, or that no id of the request names is left exactly as it was;
    and a message of the org that is incoming and that an id names gets the
    transition of the action.  Ids that match no such message add nothing
    and raise nothing.  A label or unlabel action whose attributes hold no
    label raises [KeyError] and changes nothing. *)
Theorem bulk_action_scope (archive restore release : Msg -> Msg) (self : Self) (db : Store)
    (attrs : Attrs) (msg_ids : list value) (action : value) :
  attrs !! "messages" = Some (VList msg_ids) ->
  forallb isinstance_int msg_ids = true ->
  attrs !! "action" = Some action ->
  (forall label,
     (str_is action "label" || str_is action "unlabel" = true ->
      attrs !! "label" = Some (VObj (OLabel label))) ->
     exists db',
       MsgBulkActionSerializer.restore_object archive restore release self db attrs
       = Ok (VNone, db')
       /\ length (msgs db') = length (msgs db)
       /\ forall i msg, msgs db !! i = Some msg ->
            ((msg_org msg <> org_id (org self) \/ msg_direction msg = OUTGOING
              \/ ~ requested msg_ids (msg_pk msg)) ->
             msgs db' !! i = Some msg)
            /\ (msg_org msg = org_id (org self) -> msg_direction msg = INCOMING ->
                requested msg_ids (msg_pk msg) ->
                msgs db' !! i
                = Some (action_transition archive restore release action label msg)))
  /\ (str_is action "label" || str_is action "unlabel" = true ->
      attrs !! "label" = None ->
      MsgBulkActionSerializer.restore_object archive restore release self db attrs
      = Raise (KeyError "label")).
Proof.
  intros Hm _ Ha. split.
  - intros label Hl.
    assert (forall f db' ,
              db' = MsgBulkActionSerializer.transition self msg_ids f db ->
              (forall msg, f msg = action_transition archive restore release action label msg) ->
              length (msgs db') = length (msgs db)
              /\ forall i msg, msgs db !! i = Some msg ->
                   ((msg_org msg <> org_id (org self) \/ msg_direction msg = OUTGOING
                     \/ ~ requested msg_ids (msg_pk msg)) ->
                    msgs db' !! i = Some msg)
                   /\ (msg_org msg = org_id (org self) -> msg_direction msg = INCOMING ->
                       requested msg_ids (msg_pk msg) ->
                       msgs db' !! i
                       = Some (action_transition archive restore release action label msg)))
      as Hscope.
    { intros f db' -> Hf. split.
      - unfold MsgBulkActionSerializer.transition. simpl. by rewrite length_fmap.
      - intros i msg Hi. rewrite (transition_lookup _ _ _ _ _ _ Hi). split.
        + intros Hout.
          destruct (MsgBulkActionSerializer.selected self msg_ids msg) eqn:Hs; [|done].
          apply selected_spec in Hs as (Ho & Hd & Hin).
          destruct Hout as [Hout|[Hout|Hout]]; [done | congruence | done].
        + intros Ho Hd Hin.
          assert (MsgBulkActionSerializer.selected self msg_ids msg = true) as ->
            by (by apply selected_spec).
          by rewrite Hf. }
    unfold MsgBulkActionSerializer.restore_object, getitem.
    rewrite Hm, Ha. simpl.
    destruct (str_is action "label") eqn:Hlab.
    + rewrite Hl by done. simpl. eexists. split; [reflexivity|].
      apply (Hscope _ _ eq_refl). intros msg. unfold action_transition. by rewrite Hlab.
    + destruct (str_is action "unlabel") eqn:Hunl.
      * rewrite Hl by done. simpl. eexists. split; [reflexivity|].
        apply (Hscope _ _ eq_refl). intros msg. unfold action_transition.
        by rewrite Hlab, Hunl.
      * eexists. split; [reflexivity|].
        apply (Hscope _ _ eq_refl). intros msg. unfold action_transition.
        by rewrite Hlab, Hunl.
  - intros Hact Hl. unfold MsgBulkActionSerializer.restore_object, getitem.
    rewrite Hm, Ha, Hl. simpl.
    destruct (str_is action "label"); [reflexivity|].
    destruct (str_is action "unlabel"); [reflexivity | discriminate].
Qed.

Lemma bulk_action_scope_witness :
  exists db',
    MsgBulkActionSerializer.restore_object Sample.archive id id
      Sample.self1 Sample.msg_store Examples.bulk_true_attrs
    = Ok (VNone, db')
    /\ msgs db' = [Sample.archive Sample.msg1; Sample.msg2; Sample.msg3].
Proof.
  destruct (bulk_action_scope Sample.archive id id Sample.self1 Sample.msg_store
              Examples.bulk_true_attrs [VBool true; VInt 2; VInt 3; VInt 99]
              (VStr "archive")) as [Hscope _];
    [vm_compute; reflexivity | reflexivity | vm_compute; reflexivity |].
  destruct (Hscope Sample.label1) as (db' & Hrun & Hlen & Hrows); [discriminate|].
  exists db'. split; [exact Hrun|].
  destruct (msgs db') as [|m1 [|m2 [|m3 [|m4 rest]]]] eqn:Hmsgs; try discriminate Hlen.
  assert (requested [VBool true; VInt 2; VInt 3; VInt 99] 1) as Hfirst.
  { exists (VBool true). split; [by left|]. right. left. done. }
  pose proof (proj2 (Hrows 0%nat Sample.msg1 eq_refl) eq_refl eq_refl Hfirst) as H1.
  pose proof (proj1 (Hrows 1%nat Sample.msg2 eq_refl) (or_intror (or_introl eq_refl))) as H2.
  assert (msg_org Sample.msg3 <> org_id (org Sample.self1)) as Hforeign by discriminate.
  pose proof (proj1 (Hrows 2%nat Sample.msg3 eq_refl) (or_introl Hforeign)) as H3.
  injection H1 as ->. injection H2 as ->. injection H3 as ->.
  reflexivity.
Defined.

(** ** CampaignEventWriteSerializer: updates *)

Lemma next_pk_fresh {A} (pk : A -> Z) (rows : list A) (r : A) :
  In r rows -> (pk r < next_pk pk rows)%Z.
Proof.
  unfold next_pk. induction rows as [|x rows IH]; simpl; [done|].
  intros [->|Hin]; [lia|]. specialize (IH Hin). lia.
Qed.

Lemma relative_to_keeps `{Collaborators} (db : Store) (org : Z) (label : string) :
  let r := match ContactField_get_by_label db org label with
           | Some relative_to => (relative_to, db)
           | None => ContactField_get_or_create org (api_make_key label) label db
           end in
  flows (snd r) = flows db /\ events (snd r) = events db.
Proof.
  simpl. destruct (ContactField_get_by_label db org label); [done|].
  unfold ContactField_get_or_create. by destruct (head _).
Qed.

Lemma update_flow_name_named `{Collaborators} (event : CampaignEvent) (db : Store) :
  backing_flow_named event (CampaignEvent_update_flow_name event db).
Proof.
  intros flow Hin Hpk. unfold CampaignEvent_update_flow_name in Hin. simpl in Hin.
  apply in_map_iff in Hin as (f & <- & _).
  destruct (Z.eqb_spec (fl_pk f) (ev_flow event)) as [|Hne]; [by exists f|].
  simpl in Hpk. done.
Qed.

Lemma event_update_to_flow `{Collaborators} (self : Self) (db : Store) (attrs : Attrs)
    (event : CampaignEvent) (offset : Z) (unit : string) (hour : Z) (label : string)
    (flow : Flow) :
  event_update_attrs attrs event offset unit hour label ->
  attrs !! "flow_obj" = Some (VObj (OFlow flow)) ->
  exists event' db',
    CampaignEventWriteSerializer.restore_object self db attrs = Ok (VObj (OEvent event'), db')
    /\ ev_pk event' = ev_pk event /\ ev_uuid event' = ev_uuid event
    /\ ev_event_type event' = FLOW_EVENT /\ ev_flow event' = fl_pk flow
    /\ (fl_pk flow <> ev_flow event -> ev_flow event' <> ev_flow event)
    /\ ev_message event' = None
    /\ event_saved event' db db'
    /\ backing_flow_named event' db'.
Proof.
  intros (He & Ho & Hu & Hh & Hr) Hf.
  unfold CampaignEventWriteSerializer.restore_object, get. rewrite He, Ho, Hu, Hh, Hr, Hf.
  simpl.
  pose proof (relative_to_keeps db (org_id (org self)) label) as [_ Hev]. simpl in Hev.
  destruct (match ContactField_get_by_label db (org_id (org self)) label with
            | Some relative_to => (relative_to, db)
            | None => _
            end) as [relative_to db0]. simpl in Hev.
  eexists _, _. split; [reflexivity|]. simpl.
  repeat split; try reflexivity.
  - done.
  - unfold event_saved. simpl. by rewrite Hev.
  - apply update_flow_name_named.
Qed.

Lemma event_update_to_message `{Collaborators} (self : Self) (db : Store) (attrs : Attrs)
    (event : CampaignEvent) (offset : Z) (unit : string) (hour : Z) (label : string)
    (text : string) :
  event_update_attrs attrs event offset unit hour label ->
  supplied attrs "flow_obj" = false ->
  attrs !! "message" = Some (VStr text) ->
  ev_event_type event = FLOW_EVENT ->
  exists event' db' hidden,
    CampaignEventWriteSerializer.restore_object self db attrs = Ok (VObj (OEvent event'), db')
    /\ ev_pk event' = ev_pk event /\ ev_uuid event' = ev_uuid event
    /\ ev_event_type event' = MESSAGE_EVENT /\ ev_message event' = Some text
    /\ ev_flow event' = fl_pk hidden
    /\ In hidden (flows db') /\ fl_single_message hidden = Some text
    /\ (forall flow, In flow (flows db) -> fl_pk flow <> fl_pk hidden)
    /\ event_saved event' db db'
    /\ backing_flow_named event' db'.
Proof.
  intros (He & Ho & Hu & Hh & Hr) Hf Hm Ht.
  unfold CampaignEventWriteSerializer.restore_object.
  rewrite (get_supplied attrs "flow_obj"), Hf.
  unfold get. rewrite He, Ho, Hu, Hh, Hr, Hm. simpl. rewrite Ht. simpl.
  pose proof (relative_to_keeps db (org_id (org self)) label) as [Hfl Hev].
  simpl in Hfl, Hev.
  destruct (match ContactField_get_by_label db (org_id (org self)) label with
            | Some relative_to => (relative_to, db)
            | None => _
            end) as [relative_to db0]. simpl in Hfl, Hev.
  eexists _, _, _. split; [reflexivity|]. simpl.
  split; [reflexivity|]. split; [reflexivity|]. split; [reflexivity|].
  split; [reflexivity|].
  split; [|split; [apply in_map, in_or_app; right; left; reflexivity|]].
  - simpl. by rewrite Z.eqb_refl.
  - simpl. rewrite Z.eqb_refl. simpl.
    split; [reflexivity|]. split.
    + intros flow Hin. rewrite <- Hfl in Hin.
      pose proof (next_pk_fresh fl_pk _ _ Hin). lia.
    + split.
      * unfold event_saved. simpl. by rewrite Hev.
      * apply update_flow_name_named.
Qed.

Lemma event_update_text `{Collaborators} (self : Self) (db : Store) (attrs : Attrs)
    (event : CampaignEvent) (offset : Z) (unit : string) (hour : Z) (label : string)
    (text : string) :
  event_update_attrs attrs event offset unit hour label ->
  supplied attrs "flow_obj" = false ->
  attrs !! "message" = Some (VStr text) ->
  ev_event_type event = MESSAGE_EVENT ->
  exists event' db',
    CampaignEventWriteSerializer.restore_object self db attrs = Ok (VObj (OEvent event'), db')
    /\ ev_pk event' = ev_pk event /\ ev_uuid event' = ev_uuid event
    /\ ev_event_type event' = MESSAGE_EVENT /\ ev_message event' = Some text
    /\ ev_flow event' = ev_flow event
    /\ length (flows db') = length (flows db)
    /\ (forall i flow, flows db !! i = Some flow -> fl_pk flow = ev_flow event ->
          exists flow', flows db' !! i = Some flow'
                        /\ fl_pk flow' = fl_pk flow /\ fl_uuid flow' = fl_uuid flow
                        /\ fl_single_message flow' = Some text)
    /\ event_saved event' db db'
    /\ backing_flow_named event' db'.
Proof.
  intros (He & Ho & Hu & Hh & Hr) Hf Hm Ht.
  unfold CampaignEventWriteSerializer.restore_object.
  rewrite (get_supplied attrs "flow_obj"), Hf.
  unfold get, getitem. rewrite He, Ho, Hu, Hh, Hr, Hm. simpl. rewrite Ht. simpl.
  pose proof (relative_to_keeps db (org_id (org self)) label) as [Hfl Hev].
  simpl in Hfl, Hev.
  destruct (match ContactField_get_by_label db (org_id (org self)) label with
            | Some relative_to => (relative_to, db)
            | None => _
            end) as [relative_to db0]. simpl in Hfl, Hev.
  eexists _, _. split; [reflexivity|]. simpl.
  repeat split; try reflexivity.
  - by rewrite !length_fmap, Hfl.
  - intros i flow Hi Hpk. rewrite <- Hfl in Hi.
    rewrite !list_lookup_fmap, Hi. simpl.
    apply Z.eqb_eq in Hpk. rewrite Hpk. simpl. rewrite Hpk.
    eexists. split; [reflexivity|]. done.
  - unfold event_saved. simpl. by rewrite Hev.
  - apply update_flow_name_named.
Qed.

(** C4.  An update of an existing event keeps the event's primary key and
    UUID.  Set to a flow, the event gets the flow type, references the
    supplied flow and no longer its hidden flow, and loses its text.  Set to
    a message when it was not a message event, it gets the message type
    and a newly created hidden flow that carries the text.  Given a new
    text when it was a message event, it keeps its hidden flow, whose
    content becomes the text.  In every case the event row is saved and
    the flow behind the event ends with the display name derived from the
    event. *)
Theorem campaign_event_update `{Collaborators} (self : Self) (db : Store) (attrs : Attrs)
    (event : CampaignEvent) (offset : Z) (unit : string) (hour : Z) (label : string) :
  event_update_attrs attrs event offset unit hour label ->
  (forall flow,
     attrs !! "flow_obj" = Some (VObj (OFlow flow)) ->
     exists event' db',
       CampaignEventWriteSerializer.restore_object self db attrs
       = Ok (VObj (OEvent event'), db')
       /\ ev_pk event' = ev_pk event /\ ev_uuid event' = ev_uuid event
       /\ ev_event_type event' = FLOW_EVENT /\ ev_flow event' = fl_pk flow
       /\ (fl_pk flow <> ev_flow event -> ev_flow event' <> ev_flow event)
       /\ ev_message event' = None
       /\ event_saved event' db db'
       /\ backing_flow_named event' db')
  /\ (forall text,
        supplied attrs "flow_obj" = false ->
        attrs !! "message" = Some (VStr text) ->
        ev_event_type event = FLOW_EVENT ->
        exists event' db' hidden,
          CampaignEventWriteSerializer.restore_object self db attrs
          = Ok (VObj (OEvent event'), db')
          /\ ev_pk event' = ev_pk event /\ ev_uuid event' = ev_uuid event
          /\ ev_event_type event' = MESSAGE_EVENT /\ ev_message event' = Some text
          /\ ev_flow event' = fl_pk hidden
          /\ In hidden (flows db') /\ fl_single_message hidden = Some text
          /\ (forall flow, In flow (flows db) -> fl_pk flow <> fl_pk hidden)
          /\ event_saved event' db db'
          /\ backing_flow_named event' db')
  /\ (forall text,
        supplied attrs "flow_obj" = false ->
        attrs !! "message" = Some (VStr text) ->
        ev_event_type event = MESSAGE_EVENT ->
        exists event' db',
          CampaignEventWriteSerializer.restore_object self db attrs
          = Ok (VObj (OEvent event'), db')
          /\ ev_pk event' = ev_pk event /\ ev_uuid event' = ev_uuid event
          /\ ev_event_type event' = MESSAGE_EVENT /\ ev_message event' = Some text
          /\ ev_flow event' = ev_flow event
          /\ length (flows db') = length (flows db)
          /\ (forall i flow, flows db !! i = Some flow -> fl_pk flow = ev_flow event ->
                exists flow', flows db' !! i = Some flow'
                              /\ fl_pk flow' = fl_pk flow /\ fl_uuid flow' = fl_uuid flow
                              /\ fl_single_message flow' = Some text)
          /\ event_saved event' db db'
          /\ backing_flow_named event' db').
Proof.
  intros Hattrs. split; [|split].
  - intros flow. by eapply event_update_to_flow.
  - intros text. by eapply event_update_to_message.
  - intros text. by eapply event_update_text.
Qed.

Lemma campaign_event_update_witness :
  (exists event' db',
     CampaignEventWriteSerializer.restore_object (H := Sample.collaborators)
       Sample.self1 Sample.event_store Sample.event_to_flow_attrs
     = Ok (VObj (OEvent event'), db')
     /\ ev_uuid event' = "e-1" /\ ev_event_type event' = FLOW_EVENT
     /\ ev_flow event' = 6 /\ ev_message event' = None)
  /\ (exists event' db',
        CampaignEventWriteSerializer.restore_object (H := Sample.collaborators)
          Sample.self1 Sample.event_store Sample.event_new_text_attrs
        = Ok (VObj (OEvent event'), db')
        /\ ev_uuid event' = "e-1" /\ ev_event_type event' = MESSAGE_EVENT
        /\ ev_flow event' = 5 /\ ev_message event' = Some "Time to weed").
Proof.
  split.
  - destruct (@campaign_event_update Sample.collaborators Sample.self1 Sample.event_store
                Sample.event_to_flow_attrs Sample.message_event 3 "D" 10 "Planting Date")
      as (Hw & _ & _); [repeat split; vm_compute; reflexivity|].
    destruct (Hw Sample.survey_flow) as (event' & db' & Hrun & _ & Hu & Ht & Hf & _ & Hm & _);
      [vm_compute; reflexivity|].
    exists event', db'. by repeat split.
  - destruct (@campaign_event_update Sample.collaborators Sample.self1 Sample.event_store
                Sample.event_new_text_attrs Sample.message_event 3 "D" 10 "Planting Date")
      as (_ & _ & Hw); [repeat split; vm_compute; reflexivity|].
    destruct (Hw "Time to weed") as (event' & db' & Hrun & _ & Hu & Ht & Hm & Hf & _);
      try (vm_compute; reflexivity).
    exists event', db'. by repeat split.
Defined.

(** Switching the flow event of the sample store to a message: the event
    keeps its UUID and a hidden flow with the text is created. *)
Example campaign_event_flow_to_message :
  exists event' db',
    CampaignEventWriteSerializer.restore_object (H := Sample.collaborators)
      Sample.self1 Sample.event_store Sample.event_to_message_attrs
    = Ok (VObj (OEvent event'), db')
    /\ ev_uuid event' = "e-2" /\ ev_event_type event' = MESSAGE_EVENT
    /\ ev_flow event' = 7
    /\ fl_single_message <$> flows db' !! 2%nat = Some (Some "Time to weed").
Proof. eexists _, _. repeat split; vm_compute; reflexivity. Qed.

(** ** More on the field types *)

Lemma string_array_check_loop (l : list value) :
  StringArrayField.check_loop l = Ok tt <-> forallb isinstance_basestring l = true.
Proof.
  induction l as [|v l IH]; simpl; [done|].
  destruct (isinstance_basestring v); simpl; [exact IH|]. split; discriminate.
Qed.

Lemma string_array_check_loop_result (l : list value) (r : result unit) :
  StringArrayField.check_loop l = r ->
  r = Ok tt \/ is_validation_error r.
Proof.
  intros <-. induction l as [|v l IH]; simpl; [by left|].
  destruct (isinstance_basestring v); simpl; [exact IH | by right].
Qed.

Lemma string_array_check_loop_error (l : list value) :
  forallb isinstance_basestring l = false ->
  is_validation_error (StringArrayField.check_loop l).
Proof.
  induction l as [|v l IH]; simpl; [discriminate|].
  destruct (isinstance_basestring v); simpl; [exact IH | done].
Qed.

(** X1.  [StringArrayField.from_native] accepts exactly a lone string,
    which becomes the one-element list, and a list of strings of any
    length, which is returned as it is; every other input, and a list with
    any other element, raises a validation error.  So it either raises a
    validation error or returns a list all of whose elements are strings,
    and coercing a coerced value again changes nothing. *)
Theorem string_array_from_native (data : value) :
  (forall out, StringArrayField.from_native data = Ok out ->
     exists l, out = VList l
               /\ forallb isinstance_basestring l = true
               /\ (data = VList l \/ exists s, data = VStr s /\ l = [VStr s])
               /\ StringArrayField.from_native out = Ok out)
  /\ (forall e, StringArrayField.from_native data = Raise e ->
        is_validation_error (StringArrayField.from_native data))
  /\ (forall l, data = VList l -> forallb isinstance_basestring l = true ->
        StringArrayField.from_native data = Ok data)
  /\ (isinstance_basestring data = true ->
      StringArrayField.from_native data = Ok (VList [data]))
  /\ (forall l, data = VList l -> forallb isinstance_basestring l = false ->
        is_validation_error (StringArrayField.from_native data))
  /\ (isinstance_basestring data = false -> isinstance_list data = false ->
      is_validation_error (StringArrayField.from_native data)).
Proof.
  split; [|split; [|split; [|split; [|split]]]].
  - intros out. destruct data; simpl; try discriminate.
    + intros [= <-]. exists [VStr s]. repeat split; eauto.
    + unfold mbind, result_bind.
      destruct (StringArrayField.check_loop l) as [[]|e] eqn:Hl; [|discriminate].
      intros [= <-]. exists l. split; [done|].
      split; [by apply string_array_check_loop|]. split; [by left|].
      simpl. unfold mbind, result_bind. by rewrite Hl.
  - intros e. destruct data; simpl; try done.
    unfold mbind, result_bind.
    destruct (string_array_check_loop_result l _ eq_refl) as [->|Hr]; [discriminate|].
    by destruct (StringArrayField.check_loop l) as [|[]].
  - intros l -> Hall. simpl. apply string_array_check_loop in Hall.
    unfold mbind, result_bind. by rewrite Hall.
  - intros Hs. by destruct data.
  - intros l -> Hall. simpl. apply string_array_check_loop_error in Hall.
    unfold mbind, result_bind. by destruct (StringArrayField.check_loop l) as [|[]].
  - intros Hs Hl. by destruct data.
Qed.

Lemma string_array_from_native_witness :
  StringArrayField.from_native (VList [VStr "tel:+250788123123"; VStr "twitter:bob"])
  = Ok (VList [VStr "tel:+250788123123"; VStr "twitter:bob"])
  /\ StringArrayField.from_native (VStr "twitter:bob") = Ok (VList [VStr "twitter:bob"])
  /\ is_validation_error (StringArrayField.from_native (VList [VStr "twitter:bob"; VInt 7]))
  /\ is_validation_error (StringArrayField.from_native (VInt 7)).
Proof.
  split; [|split; [|split]].
  - apply (proj1 (proj2 (proj2 (string_array_from_native
                                  (VList [VStr "tel:+250788123123"; VStr "twitter:bob"]))))
             [VStr "tel:+250788123123"; VStr "twitter:bob"]); reflexivity.
  - apply (proj1 (proj2 (proj2 (proj2 (string_array_from_native (VStr "twitter:bob")))))).
    reflexivity.
  - apply (proj1 (proj2 (proj2 (proj2 (proj2
             (string_array_from_native (VList [VStr "twitter:bob"; VInt 7]))))))
             [VStr "twitter:bob"; VInt 7]); reflexivity.
  - apply (proj2 (proj2 (proj2 (proj2 (proj2 (string_array_from_native (VInt 7)))))));
      reflexivity.
Defined.

Lemma integer_array_check_loop (l : list value) :
  IntegerArrayField.check_loop l = Ok tt <-> forallb isinstance_int l = true.
Proof.
  induction l as [|v l IH]; simpl; [done|].
  destruct (isinstance_int v); simpl; [exact IH|]. split; discriminate.
Qed.

Lemma integer_array_check_loop_error (l : list value) :
  forallb isinstance_int l = false ->
  is_validation_error (IntegerArrayField.check_loop l).
Proof.
  induction l as [|v l IH]; simpl; [discriminate|].
  destruct (isinstance_int v); simpl; [exact IH | done].
Qed.

(** X2.  [IntegerArrayField.from_native] accepts exactly a lone integer,
    which becomes the one-element list, and a list of integers of any
    length, which is returned as it is; a JSON boolean counts as an integer;
    every other input, and a list with any other element, raises a
    validation error. *)
Theorem integer_array_from_native (data : value) :
  (isinstance_int data = true -> IntegerArrayField.from_native data = Ok (VList [data]))
  /\ (forall l, data = VList l -> forallb isinstance_int l = true ->
        IntegerArrayField.from_native data = Ok (VList l))
  /\ (forall l, data = VList l -> forallb isinstance_int l = false ->
        is_validation_error (IntegerArrayField.from_native data))
  /\ (isinstance_int data = false -> isinstance_list data = false ->
        is_validation_error (IntegerArrayField.from_native data))
  /\ (forall out, IntegerArrayField.from_native data = Ok out ->
        exists l, out = VList l /\ forallb isinstance_int l = true).
Proof.
  split; [|split; [|split; [|split]]].
  - intros Hi. unfold IntegerArrayField.from_native. by rewrite Hi.
  - intros l -> Hall. apply integer_array_check_loop in Hall.
    change (IntegerArrayField.from_native (VList l))
      with (IntegerArrayField.check_loop l ≫= fun _ => Ok (VList l)).
    by rewrite Hall.
  - intros l -> Hall. apply integer_array_check_loop_error in Hall.
    change (IntegerArrayField.from_native (VList l))
      with (IntegerArrayField.check_loop l ≫= fun _ => Ok (VList l)).
    by destruct (IntegerArrayField.check_loop l) as [|[]].
  - intros Hi Hl. unfold IntegerArrayField.from_native. rewrite Hi.
    by destruct data.
  - intros out. unfold IntegerArrayField.from_native.
    destruct (isinstance_int data) eqn:Hi.
    + intros [= <-]. exists [data]. simpl. by rewrite Hi.
    + destruct data; try discriminate.
      change (IntegerArrayField.check_loop l ≫= (fun _ => Ok (VList l)) = Ok out -> 
              exists l0, out = VList l0 /\ forallb isinstance_int l0 = true).
      destruct (IntegerArrayField.check_loop l) as [[]|e] eqn:Hl; [|discriminate].
      intros [= <-]. exists l. split; [done|]. by apply integer_array_check_loop.
Qed.

Lemma integer_array_from_native_witness :
  IntegerArrayField.from_native (VInt 7) = Ok (VList [VInt 7])
  /\ IntegerArrayField.from_native (VBool true) = Ok (VList [VBool true])
  /\ IntegerArrayField.from_native (VList (replicate 101 (VInt 1)))
     = Ok (VList (replicate 101 (VInt 1)))
  /\ is_validation_error (IntegerArrayField.from_native (VList [VInt 1; VStr "2"])).
Proof.
  split; [|split; [|split]].
  - apply (proj1 (integer_array_from_native (VInt 7))). reflexivity.
  - apply (proj1 (integer_array_from_native (VBool true))). reflexivity.
  - apply (proj1 (proj2 (integer_array_from_native (VList (replicate 101 (VInt 1))))));
      reflexivity.
  - apply (proj1 (proj2 (proj2 (integer_array_from_native (VList [VInt 1; VStr "2"]))))
             [VInt 1; VStr "2"]); reflexivity.
Defined.

Lemma dictionary_check_loop (d : list (string * value)) :
  DictionaryField.check_loop d = Ok tt
  <-> forallb (fun kv => isinstance_basestring (snd kv)) d = true.
Proof.
  induction d as [|[k v] d IH]; simpl; [done|].
  destruct (isinstance_basestring v); simpl; [exact IH|]. split; discriminate.
Qed.

Lemma dictionary_check_loop_error (d : list (string * value)) :
  forallb (fun kv => isinstance_basestring (snd kv)) d = false ->
  is_validation_error (DictionaryField.check_loop d).
Proof.
  induction d as [|[k v] d IH]; simpl; [discriminate|].
  destruct (isinstance_basestring v); simpl; [exact IH | done].
Qed.

(** X3.  [DictionaryField.from_native] accepts exactly the dicts whose
    values are all strings, the empty dict among them, and returns the dict
    unchanged; a dict with any other value and any input that is not a dict
    raise a validation error. *)
Theorem dictionary_from_native (data : value) :
  (forall d, data = VDict d ->
     forallb (fun kv => isinstance_basestring (snd kv)) d = true ->
     DictionaryField.from_native data = Ok data)
  /\ (forall d, data = VDict d ->
        forallb (fun kv => isinstance_basestring (snd kv)) d = false ->
        is_validation_error (DictionaryField.from_native data))
  /\ (isinstance_dict data = false -> is_validation_error (DictionaryField.from_native data))
  /\ (forall out, DictionaryField.from_native data = Ok out ->
        out = data /\ exists d, data = VDict d
                                /\ forallb (fun kv => isinstance_basestring (snd kv)) d = true).
Proof.
  split; [|split; [|split]].
  - intros d -> Hall. simpl. apply dictionary_check_loop in Hall.
    unfold mbind, result_bind. by rewrite Hall.
  - intros d -> Hall. simpl. apply dictionary_check_loop_error in Hall.
    unfold mbind, result_bind. by destruct (DictionaryField.check_loop d) as [|[]].
  - intros Hd. by destruct data.
  - intros out. destruct data; simpl; try discriminate.
    unfold mbind, result_bind.
    destruct (DictionaryField.check_loop d) as [[]|e] eqn:Hl; [|discriminate].
    intros [= <-]. split; [done|]. exists d. split; [done|]. by apply dictionary_check_loop.
Qed.

Lemma dictionary_from_native_witness :
  DictionaryField.from_native (VDict [("name", VStr "Ryan"); ("age", VStr "35")])
  = Ok (VDict [("name", VStr "Ryan"); ("age", VStr "35")])
  /\ DictionaryField.from_native (VDict []) = Ok (VDict [])
  /\ is_validation_error (DictionaryField.from_native (VDict [("age", VInt 35)])).
Proof.
  split; [|split].
  - apply (proj1 (dictionary_from_native (VDict [("name", VStr "Ryan"); ("age", VStr "35")]))
             [("name", VStr "Ryan"); ("age", VStr "35")]); reflexivity.
  - apply (proj1 (dictionary_from_native (VDict [])) []); reflexivity.
  - apply (proj1 (proj2 (dictionary_from_native (VDict [("age", VInt 35)])))
             [("age", VInt 35)]); reflexivity.
Defined.

(** ** Resolution of identifiers *)

Lemma str_is_eq (v : value) (s : string) : str_is v s = true -> v = VStr s.
Proof.
  destruct v; simpl; try discriminate. intros Heq. apply String.eqb_eq in Heq. by subst.
Qed.

Lemma int_is_eq (v : value) (n : Z) : int_is v n = true -> v = VInt n.
Proof.
  destruct v; simpl; try discriminate. intros Heq. apply Z.eqb_eq in Heq. by subst.
Qed.

Lemma head_filter_In {A} (P : A -> bool) (l : list A) (x : A) :
  head (List.filter P l) = Some x -> In x l /\ P x = true.
Proof.
  intros Hh. apply filter_In. destruct (List.filter P l); [discriminate|].
  injection Hh as ->. by left.
Qed.

Lemma resolve_contacts_ok (db : Store) (self : Self) (uuids acc out : list value) :
  resolve_contacts db self uuids acc = Ok out ->
  exists cs, out = acc ++ cs /\ Forall2 (resolved_contact self db) uuids cs.
Proof.
  revert acc. induction uuids as [|uuid uuids IH]; intros acc; simpl.
  - intros [= <-]. exists []. by rewrite app_nil_r.
  - destruct (head (contacts_by_uuid db self uuid)) as [c|] eqn:Hh; [|discriminate].
    intros Hrest. apply IH in Hrest as (cs & -> & Hall).
    exists (VObj (OContact c) :: cs). split; [by rewrite <- app_assoc|].
    constructor; [|done].
    apply head_filter_In in Hh as [Hin Hc].
    apply andb_prop in Hc as [Hc Hact]. apply andb_prop in Hc as [Hu Ho].
    exists c. repeat split; try done; [by apply Z.eqb_eq | by apply str_is_eq].
Qed.

Lemma resolve_contacts_raise (db : Store) (self : Self) (uuids acc : list value) (e : exn) :
  resolve_contacts db self uuids acc = Raise e ->
  exists uuid, In uuid uuids /\ contacts_by_uuid db self uuid = []
               /\ e = ValidationError "Unable to find contact with uuid: %s" [uuid].
Proof.
  revert acc. induction uuids as [|uuid uuids IH]; intros acc; simpl; [discriminate|].
  destruct (contacts_by_uuid db self uuid) as [|c rest] eqn:Hh; simpl.
  - intros [= <-]. exists uuid. repeat split; [by left | done].
  - intros Hrest. apply IH in Hrest as (u & Hin & Hnone & ->).
    exists u. repeat split; [by right | done].
Qed.

Lemma resolve_groups_ok (db : Store) (self : Self) (uuids acc out : list value) :
  resolve_groups db self uuids acc = Ok out ->
  exists gs, out = acc ++ gs /\ Forall2 (resolved_group self db) uuids gs.
Proof.
  revert acc. induction uuids as [|uuid uuids IH]; intros acc; simpl.
  - intros [= <-]. exists []. by rewrite app_nil_r.
  - destruct (head (groups_by_uuid db self uuid)) as [g|] eqn:Hh; [|discriminate].
    intros Hrest. apply IH in Hrest as (gs & -> & Hall).
    exists (VObj (OGroup g) :: gs). split; [by rewrite <- app_assoc|].
    constructor; [|done].
    apply head_filter_In in Hh as [Hin Hc].
    apply andb_prop in Hc as [Hc Hact]. apply andb_prop in Hc as [Hu Ho].
    exists g. repeat split; try done; [by apply Z.eqb_eq | by apply str_is_eq].
Qed.

Lemma resolve_groups_raise (db : Store) (self : Self) (uuids acc : list value) (e : exn) :
  resolve_groups db self uuids acc = Raise e ->
  exists uuid, In uuid uuids /\ groups_by_uuid db self uuid = []
               /\ e = ValidationError "Unable to find contact group with uuid: %s" [uuid].
Proof.
  revert acc. induction uuids as [|uuid uuids IH]; intros acc; simpl; [discriminate|].
  destruct (groups_by_uuid db self uuid) as [|g rest] eqn:Hh; simpl.
  - intros [= <-]. exists uuid. repeat split; [by left | done].
  - intros Hrest. apply IH in Hrest as (u & Hin & Hnone & ->).
    exists u. repeat split; [by right | done].
Qed.

(** X4.  [validate_contacts] of Broadcast create and [validate_contact] of
    Message create, on a list of UUIDs: on success the field holds one
    contact per UUID, in the order given, each an active contact of the
    caller's org with that UUID; otherwise the error names a UUID of the
    list that matches no active contact of the org.  A contact of another
    org is therefore never attached. *)
Theorem validate_contacts_resolves (self : Self) (db : Store) (attrs : Attrs)
    (uuids : list value) :
  (attrs !! "contacts" = Some (VList uuids) ->
   match BroadcastCreateSerializer.validate_contacts self db attrs "contacts" with
   | Ok attrs' =>
       exists cs, attrs' = <["contacts" := VList cs]> attrs
                  /\ Forall2 (resolved_contact self db) uuids cs
   | Raise e =>
       exists uuid, In uuid uuids /\ contacts_by_uuid db self uuid = []
                    /\ e = ValidationError "Unable to find contact with uuid: %s" [uuid]
   end)
  /\ (attrs !! "contact" = Some (VList uuids) ->
      match MsgCreateSerializer.validate_contact self db attrs "contact" with
      | Ok attrs' =>
          exists cs, attrs' = <["contact" := VList cs]> attrs
                     /\ Forall2 (resolved_contact self db) uuids cs
      | Raise e =>
          exists uuid, In uuid uuids /\ contacts_by_uuid db self uuid = []
                       /\ e = ValidationError "Unable to find contact with uuid: %s" [uuid]
      end).
Proof.
  split; intros Hl.
  - unfold BroadcastCreateSerializer.validate_contacts, get. rewrite Hl. simpl.
    destruct (resolve_contacts db self uuids []) as [cs|e] eqn:Hr; simpl.
    + apply resolve_contacts_ok in Hr as (cs' & -> & Hall). by exists cs'.
    + by apply resolve_contacts_raise in Hr.
  - unfold MsgCreateSerializer.validate_contact, get. rewrite Hl. simpl.
    destruct (resolve_contacts db self uuids []) as [cs|e] eqn:Hr; simpl.
    + apply resolve_contacts_ok in Hr as (cs' & -> & Hall). by exists cs'.
    + by apply resolve_contacts_raise in Hr.
Qed.

(** X5.  [validate_groups] of Broadcast create, on a list of UUIDs: on
    success the field holds one group per UUID, in the order given, each an
    active group of the caller's org with that UUID; otherwise the error
    names a UUID of the list that matches no active group of the org. *)
Theorem validate_groups_resolves (self : Self) (db : Store) (attrs : Attrs)
    (uuids : list value) :
  attrs !! "groups" = Some (VList uuids) ->
  match BroadcastCreateSerializer.validate_groups self db attrs "groups" with
  | Ok attrs' =>
      exists gs, attrs' = <["groups" := VList gs]> attrs
                 /\ Forall2 (resolved_group self db) uuids gs
  | Raise e =>
      exists uuid, In uuid uuids /\ groups_by_uuid db self uuid = []
                   /\ e = ValidationError "Unable to find contact group with uuid: %s" [uuid]
  end.
Proof.
  intros Hl. unfold BroadcastCreateSerializer.validate_groups, get. rewrite Hl. simpl.
  destruct (resolve_groups db self uuids []) as [gs|e] eqn:Hr; simpl.
  - apply resolve_groups_ok in Hr as (gs' & -> & Hall). by exists gs'.
  - by apply resolve_groups_raise in Hr.
Qed.

(** ** Addresses of a broadcast *)

Lemma validate_urns_loop_ok `{Collaborators} (country : option Country)
    (l acc out : list value) :
  BroadcastCreateSerializer.validate_urns_loop country l acc = Ok out ->
  exists us, out = acc ++ us /\ Forall2 (resolved_urn country) l us.
Proof.
  revert acc. induction l as [|raw l IH]; intros acc; simpl.
  - intros [= <-]. exists []. by rewrite app_nil_r.
  - destruct raw as [| | |r| | | |]; try discriminate.
    destruct (ContactURN_parse_urn r) as [[scheme path]|e] eqn:Hp;
      [|destruct e; discriminate].
    destruct (ContactURN_normalize_urn scheme path country) as [ns np] eqn:Hn.
    destruct (ContactURN_validate_urn ns np) eqn:Hv; simpl; [|discriminate].
    intros Hrest. apply IH in Hrest as (us & -> & Hall).
    exists (VTuple [VStr ns; VStr np] :: us). split; [by rewrite <- app_assoc|].
    constructor; [|done].
    exists r, scheme, path. rewrite Hn. simpl. done.
Qed.

Lemma validate_urns_loop_raise `{Collaborators} (country : option Country)
    (l acc : list value) (e : exn) :
  (forall r e', ContactURN_parse_urn r = Raise e' -> exists m, e' = ValueError m) ->
  forallb isinstance_basestring l = true ->
  BroadcastCreateSerializer.validate_urns_loop country l acc = Raise e ->
  exists template args, e = ValidationError template args.
Proof.
  intros Hparse. revert acc. induction l as [|raw l IH]; intros acc; simpl; [discriminate|].
  destruct raw as [| | |r| | | |]; try discriminate. simpl. intros Hall.
  destruct (ContactURN_parse_urn r) as [[scheme path]|e'] eqn:Hp.
  - destruct (ContactURN_normalize_urn scheme path country) as [ns np].
    destruct (ContactURN_validate_urn ns np); simpl.
    + by apply IH.
    + intros [= <-]. eauto.
  - destruct (Hparse _ _ Hp) as [m ->]. intros [= <-]. eauto.
Qed.

(** X6.  [validate_urns] of Broadcast create, on a list of address
    strings: on success the field holds one (scheme, path) pair per string,
    in order, each the normalization (with the country of the org's tel
    channel as the hint) of what the string parses to, and each accepted by
    [ContactURN.validate_urn]; and when it fails it fails with a validation
    error, the [ValueError] of an address that does not parse included. *)
Theorem broadcast_validate_urns `{Collaborators} (self : Self) (db : Store) (attrs : Attrs)
    (urns : list value) :
  attrs !! "urns" = Some (VList urns) ->
  let country :=
    match get_send_channel db (org_id (org self)) TEL_SCHEME with
    | Some c => Some (ch_country c)
    | None => None
    end in
  (forall attrs',
     BroadcastCreateSerializer.validate_urns self db attrs "urns" = Ok attrs' ->
     exists us, attrs' = <["urns" := VList us]> attrs
                /\ Forall2 (resolved_urn country) urns us)
  /\ (forall e,
        (forall r e', ContactURN_parse_urn r = Raise e' -> exists m, e' = ValueError m) ->
        forallb isinstance_basestring urns = true ->
        BroadcastCreateSerializer.validate_urns self db attrs "urns" = Raise e ->
        exists template args, e = ValidationError template args).
Proof.
  intros Hl country. unfold BroadcastCreateSerializer.validate_urns, get. rewrite Hl.
  simpl. fold country. split.
  - intros attrs'.
    destruct (BroadcastCreateSerializer.validate_urns_loop country urns []) as [us|e] eqn:Hr;
      simpl; [|discriminate].
    intros [= <-]. apply validate_urns_loop_ok in Hr as (us' & -> & Hall). by exists us'.
  - intros e Hparse Hall.
    destruct (BroadcastCreateSerializer.validate_urns_loop country urns []) as [us|e'] eqn:Hr;
      simpl; [discriminate|].
    intros [= <-]. by eapply validate_urns_loop_raise.
Qed.

(** ** Flows and events of a campaign event write *)

Lemma live_flows_visible (self : Self) (db : Store) (key : Flow -> bool) :
  CampaignEventWriteSerializer.live_flows self db key
  = List.filter key (List.filter (visible_flow self) (flows db)).
Proof.
  unfold CampaignEventWriteSerializer.live_flows, visible_flow.
  induction (flows db) as [|f l IH]; [done|].
  cbn [List.filter].
  destruct (key f) eqn:Hk, (fl_is_active f), (fl_org f =? org_id (org self))%Z;
    cbn [andb List.filter]; rewrite ?Hk, ?IH; reflexivity.
Qed.

Lemma validate_flow_uuid_visible (self : Self) (db db' : Store) (attrs : Attrs)
    (source : string) :
  List.filter (visible_flow self) (flows db') = List.filter (visible_flow self) (flows db) ->
  CampaignEventWriteSerializer.validate_flow_uuid self db' attrs source
  = CampaignEventWriteSerializer.validate_flow_uuid self db attrs source
  /\ CampaignEventWriteSerializer.validate_flow self db' attrs source
     = CampaignEventWriteSerializer.validate_flow self db attrs source.
Proof.
  intros Hvis.
  unfold CampaignEventWriteSerializer.validate_flow_uuid,
    CampaignEventWriteSerializer.validate_flow.
  by rewrite !live_flows_visible, Hvis.
Qed.

(** X7.  The flow of a campaign event write is looked up among the active
    flows of the caller's org only.  Two databases with the same active
    flows of the org give the same outcome for [validate_flow_uuid] and
    for [validate_flow], so a flow of another org, or an inactive one, is
    answered exactly as an identifier that names nothing; and on success
    with an identifier given, the flow attached as [flow_obj] is an active
    flow of the org with that identifier. *)
Theorem campaign_event_flow_isolation (self : Self) (db db' : Store) (attrs : Attrs)
    (source : string) :
  List.filter (visible_flow self) (flows db') = List.filter (visible_flow self) (flows db) ->
  (CampaignEventWriteSerializer.validate_flow_uuid self db' attrs source
   = CampaignEventWriteSerializer.validate_flow_uuid self db attrs source
   /\ CampaignEventWriteSerializer.validate_flow self db' attrs source
      = CampaignEventWriteSerializer.validate_flow self db attrs source)
  /\ (forall attrs',
        truthy (get attrs source VNone) = true ->
        CampaignEventWriteSerializer.validate_flow_uuid self db attrs source = Ok attrs' ->
        exists f, attrs' = <["flow_obj" := VObj (OFlow f)]> attrs
                  /\ In f (flows db) /\ fl_is_active f = true
                  /\ fl_org f = org_id (org self)
                  /\ get attrs source VNone = VStr (fl_uuid f))
  /\ (forall attrs',
        truthy (get attrs source VNone) = true ->
        CampaignEventWriteSerializer.validate_flow self db attrs source = Ok attrs' ->
        exists f, attrs' = <["flow_obj" := VObj (OFlow f)]> attrs
                  /\ In f (flows db) /\ fl_is_active f = true
                  /\ fl_org f = org_id (org self)
                  /\ get attrs source VNone = VInt (fl_pk f)).
Proof.
  intros Hvis. split; [by apply validate_flow_uuid_visible|]. split.
  - intros attrs' Ht. unfold CampaignEventWriteSerializer.validate_flow_uuid. rewrite Ht.
    destruct (head _) as [f|] eqn:Hh; [|discriminate]. intros [= <-].
    apply head_filter_In in Hh as [Hin Hc].
    apply andb_prop in Hc as [Hc Ho]. apply andb_prop in Hc as [Hu Ha].
    exists f. repeat split; try done; [by apply Z.eqb_eq | by apply str_is_eq].
  - intros attrs' Ht. unfold CampaignEventWriteSerializer.validate_flow. rewrite Ht.
    destruct (head _) as [f|] eqn:Hh; [|discriminate]. intros [= <-].
    apply head_filter_In in Hh as [Hin Hc].
    apply andb_prop in Hc as [Hc Ho]. apply andb_prop in Hc as [Hu Ha].
    exists f. repeat split; try done; [by apply Z.eqb_eq | by apply int_is_eq].
Qed.

(** X8.  An event named by a campaign event write, by UUID or by the
    legacy id, is attached as [event_obj] only when it is active and its
    campaign belongs to the caller's org; an identifier that matches no
    such event is a validation error, and an absent or empty identifier
    leaves the attributes as they are. *)
Theorem campaign_event_resolves_event (self : Self) (db : Store) (attrs : Attrs)
    (source : string) :
  (truthy (get attrs source VNone) = true ->
   match CampaignEventWriteSerializer.validate_uuid self db attrs source with
   | Ok attrs' =>
       exists e c, attrs' = <["event_obj" := VObj (OEvent e)]> attrs
                   /\ In e (events db) /\ ev_is_active e = true
                   /\ get attrs source VNone = VStr (ev_uuid e)
                   /\ In c (campaigns db) /\ ca_pk c = ev_campaign e
                   /\ ca_org c = org_id (org self)
   | Raise e => e = ValidationError "No event with UUID %s" [get attrs source VNone]
   end)
  /\ (truthy (get attrs source VNone) = true ->
      match CampaignEventWriteSerializer.validate_event self db attrs source with
      | Ok attrs' =>
          exists e c, attrs' = <["event_obj" := VObj (OEvent e)]> attrs
                      /\ In e (events db) /\ ev_is_active e = true
                      /\ get attrs source VNone = VInt (ev_pk e)
                      /\ In c (campaigns db) /\ ca_pk c = ev_campaign e
                      /\ ca_org c = org_id (org self)
      | Raise e => e = ValidationError "No event with id %d" [get attrs source VNone]
      end)
  /\ (truthy (get attrs source VNone) = false ->
      CampaignEventWriteSerializer.validate_uuid self db attrs source = Ok attrs
      /\ CampaignEventWriteSerializer.validate_event self db attrs source = Ok attrs).
Proof.
  split; [|split].
  - intros Ht. unfold CampaignEventWriteSerializer.validate_uuid. rewrite Ht.
    destruct (head _) as [e|] eqn:Hh; [|reflexivity].
    apply head_filter_In in Hh as [Hin Hc].
    apply andb_prop in Hc as [Hc Hex]. apply andb_prop in Hc as [Hu Ha].
    apply existsb_exists in Hex as (c & Hcin & Hcc).
    apply andb_prop in Hcc as [Hpk Horg].
    exists e, c. repeat split; try done;
      [by apply str_is_eq | by apply Z.eqb_eq | by apply Z.eqb_eq].
  - intros Ht. unfold CampaignEventWriteSerializer.validate_event. rewrite Ht.
    destruct (head _) as [e|] eqn:Hh; [|reflexivity].
    apply head_filter_In in Hh as [Hin Hc].
    apply andb_prop in Hc as [Hc Hex]. apply andb_prop in Hc as [Hu Ha].
    apply existsb_exists in Hex as (c & Hcin & Hcc).
    apply andb_prop in Hcc as [Hpk Horg].
    exists e, c. repeat split; try done;
      [by apply int_is_eq | by apply Z.eqb_eq | by apply Z.eqb_eq].
  - intros Hf. unfold CampaignEventWriteSerializer.validate_uuid,
      CampaignEventWriteSerializer.validate_event. by rewrite Hf.
Qed.

(** X9.  The delivery hour of a campaign event is accepted exactly from -1
    to 23, and the unit exactly when it is one of the upper-case letters M,
    H, D and W; either method raises [KeyError] when its field is missing
    from the attributes. *)
Theorem campaign_event_hour_and_unit (self : Self) (db : Store) (attrs : Attrs)
    (source : string) :
  (forall hour, attrs !! source = Some (VInt hour) ->
     (CampaignEventWriteSerializer.validate_delivery_hour self db attrs source = Ok attrs
      <-> (-1 <= hour <= 23)%Z)
     /\ (~ (-1 <= hour <= 23)%Z ->
         is_validation_error
           (CampaignEventWriteSerializer.validate_delivery_hour self db attrs source)))
  /\ (forall unit, attrs !! source = Some (VStr unit) ->
        (CampaignEventWriteSerializer.validate_unit self db attrs source = Ok attrs
         <-> In unit ["M"; "H"; "D"; "W"])
        /\ (~ In unit ["M"; "H"; "D"; "W"] ->
            is_validation_error
              (CampaignEventWriteSerializer.validate_unit self db attrs source)))
  /\ (attrs !! source = None ->
      CampaignEventWriteSerializer.validate_delivery_hour self db attrs source
      = Raise (KeyError source)
      /\ CampaignEventWriteSerializer.validate_unit self db attrs source
         = Raise (KeyError source)).
Proof.
  split; [|split].
  - intros hour Hl.
    unfold CampaignEventWriteSerializer.validate_delivery_hour, getitem. rewrite Hl. simpl.
    destruct (Z.ltb_spec hour (-1)), (Z.ltb_spec 23 hour); simpl;
      (split; [split; [try discriminate; try lia | try lia; try reflexivity]
              | try lia; try done]).
  - intros unit Hl.
    unfold CampaignEventWriteSerializer.validate_unit, getitem. rewrite Hl. simpl.
    destruct (String.eqb_spec unit "M") as [->|HM]; simpl; [intuition|].
    destruct (String.eqb_spec unit "H") as [->|HH]; simpl; [intuition|].
    destruct (String.eqb_spec unit "D") as [->|HD]; simpl; [intuition|].
    destruct (String.eqb_spec unit "W") as [->|HW]; simpl; [intuition|].
    split; [|done]. split; [discriminate|]. intuition congruence.
  - intros Hl.
    unfold CampaignEventWriteSerializer.validate_delivery_hour,
      CampaignEventWriteSerializer.validate_unit, getitem. by rewrite Hl.
Qed.

Lemma iter_truthy (v : value) (l : list value) :
  iter v = Ok l -> truthy v = true -> l <> [].
Proof.
  destruct v; simpl; try discriminate; intros [= <-];
    try (by destruct l0); try (by destruct d).
  by destruct s.
Qed.

(** ** Recipients of a broadcast *)

Lemma as_recipients_length (l : list value) (rs : list recipient) :
  BroadcastCreateSerializer.as_recipients l = Ok rs -> length rs = length l.
Proof.
  revert rs. induction l as [|v l IH]; intros rs; simpl.
  - by intros [= <-].
  - destruct v as [| | | | | | |o]; try discriminate.
    destruct o; try discriminate;
      (destruct (BroadcastCreateSerializer.as_recipients l) as [rs'|] eqn:Hr;
       simpl; [|discriminate]; intros [= <-]; simpl; f_equal; by apply IH).
Qed.

Lemma add_urn_recipients_length `{Collaborators} (org : Z) (urns : list value)
    (recipients out : list recipient) (db db' : Store) :
  BroadcastCreateSerializer.add_urn_recipients org urns recipients db = Ok (out, db') ->
  length out = (length recipients + length urns)%nat.
Proof.
  revert recipients db. induction urns as [|urn urns IH]; intros recipients db; simpl.
  - intros [= <- <-]. lia.
  - destruct (as_urn urn) as [u|]; simpl; [|discriminate].
    destruct (Contact_get_or_create org u db) as [contact db1].
    destruct (BroadcastCreateSerializer.urn_objects contact u) as [r|]; simpl; [|discriminate].
    intros Hrest. apply IH in Hrest. rewrite Hrest, length_app. simpl. lia.
Qed.

Lemma broadcast_restore_recipients `{Collaborators} (self : Self) (db db' : Store)
    (attrs attrs' : Attrs) (object : value) :
  BroadcastCreateSerializer.validate self db attrs = Ok attrs' ->
  BroadcastCreateSerializer.restore_object self db attrs' = Ok (object, db') ->
  exists b, object = VObj (OBroadcast b) /\ bc_recipients b <> []
            /\ bc_org b = org_id (org self) /\ In b (broadcasts db').
Proof.
  unfold BroadcastCreateSerializer.validate.
  destruct (negb _) eqn:Hany; [discriminate|]. intros [= <-].
  apply negb_false_iff in Hany.
  unfold BroadcastCreateSerializer.restore_object.
  destruct (BroadcastCreateSerializer.as_list (get attrs "contacts" VNone))
    as [contacts|] eqn:Hc; simpl; [|discriminate].
  destruct (BroadcastCreateSerializer.as_list (get attrs "groups" VNone))
    as [groups|] eqn:Hg; simpl; [|discriminate].
  destruct (BroadcastCreateSerializer.as_recipients (contacts ++ groups))
    as [rs|] eqn:Hrs; simpl; [|discriminate].
  destruct (iter (get attrs "urns" VNone)) as [urns|] eqn:Hu; simpl; [|discriminate].
  destruct (BroadcastCreateSerializer.add_urn_recipients _ urns rs db)
    as [[rs' db1]|] eqn:Hadd; simpl; [|discriminate].
  destruct (getitem attrs "text") as [text|]; simpl; [|discriminate].
  destruct (getitem attrs "channel") as [channel|]; simpl; [|discriminate].
  destruct (match channel with
            | VNone => Ok None
            | VObj (OChannel c) => Ok (Some (ch_pk c))
            | _ => Raise AttributeError
            end) as [ch|]; simpl; [|discriminate].
  destruct text; try discriminate. intros [= <- <-].
  eexists. split; [reflexivity|]. simpl.
  split; [|split; [reflexivity | apply in_or_app; right; by left]].
  apply add_urn_recipients_length in Hadd.
  apply as_recipients_length in Hrs. rewrite length_app in Hrs.
  intros ->. simpl in Hadd.
  assert (length contacts = 0 /\ length groups = 0 /\ length urns = 0)%nat
    as (Hc0 & Hg0 & Hu0) by lia.
  apply orb_prop in Hany as [Hany|Hany]; [apply orb_prop in Hany as [Hany|Hany]|].
  - rewrite truthy_get in Hany by reflexivity.
    rewrite <- (get_supplied attrs "urns") in Hany.
    apply (iter_truthy _ _ Hu) in Hany. by destruct urns.
  - unfold BroadcastCreateSerializer.as_list in Hc.
    destruct (get attrs "contacts" VNone); try discriminate.
    injection Hc as ->. by destruct contacts.
  - rewrite truthy_get in Hany by reflexivity.
    rewrite <- (get_supplied attrs "groups") in Hany.
    unfold BroadcastCreateSerializer.as_list in Hg.
    destruct (get attrs "groups" VNone); try discriminate.
    injection Hg as ->. by destruct groups.
Qed.

(** X10.  Every broadcast that Broadcast create restores has at least one
    recipient, belongs to the caller's org and is stored: a request whose
    urns, contacts and groups are all empty never creates a broadcast. *)
Theorem broadcast_has_recipients `{Collaborators} (self : Self) (db db' : Store)
    (_errors : Errors) (attrs : Attrs) (object : value) :
  rest_framework.from_native_attrs BroadcastCreateSerializer.serializer self db _errors attrs
  = Ok (rest_framework.Restored object db') ->
  exists b, object = VObj (OBroadcast b) /\ bc_recipients b <> []
            /\ bc_org b = org_id (org self) /\ In b (broadcasts db').
Proof.
  intros Hrun.
  apply from_native_attrs_restored_run in Hrun as (attrs1 & attrs2 & _ & Hv & Hr).
  by eapply broadcast_restore_recipients.
Qed.

Lemma broadcast_has_recipients_witness :
  exists b db',
    rest_framework.from_native_attrs (@BroadcastCreateSerializer.serializer Sample.collaborators)
      Sample.self1 Sample.store1 ∅ Sample.broadcast_attrs
    = Ok (rest_framework.Restored (VObj (OBroadcast b)) db')
    /\ bc_recipients b <> [].
Proof.
  assert (exists object db',
            rest_framework.from_native_attrs
              (@BroadcastCreateSerializer.serializer Sample.collaborators)
              Sample.self1 Sample.store1 ∅ Sample.broadcast_attrs
            = Ok (rest_framework.Restored object db')) as (object & db' & Hrun).
  { eexists _, _. vm_compute. reflexivity. }
  destruct (@broadcast_has_recipients Sample.collaborators _ _ _ _ _ _ Hrun)
    as (b & -> & Hne & _).
  by exists b, db'.
Defined.

(** ** Channel of a message *)

(** X11.  After [validate_channel] of Message create has returned, the
    attributes hold a channel of the caller's org under the key, whether
    the request gave it or it is the fallback; a channel of another org
    given in the request is refused with the same message as a primary key
    that names nothing. *)
Theorem msg_create_channel_of_org (self : Self) (db : Store) (attrs : Attrs)
    (source : string) :
  (forall attrs',
     MsgCreateSerializer.validate_channel self db attrs source = Ok attrs' ->
     exists c, attrs' !! source = Some (VObj (OChannel c))
               /\ ch_org c = org_id (org self))
  /\ (forall c,
        attrs !! source = Some (VObj (OChannel c)) ->
        ch_org c <> org_id (org self) ->
        MsgCreateSerializer.validate_channel self db attrs source
        = Raise (ValidationError "Invalid pk '%d' - object does not exist." [VInt (ch_pk c)])).
Proof.
  split.
  - intros attrs'. unfold MsgCreateSerializer.validate_channel, getitem.
    destruct (attrs !! source) as [v|] eqn:Hl; simpl; [|discriminate].
    destruct (truthy v) eqn:Ht; simpl.
    + destruct (as_channel v) as [c|] eqn:Hc; simpl; [|discriminate].
      destruct (Z.eqb_spec (org_id (org self)) (ch_org c)) as [Ho|]; simpl; [|discriminate].
      intros [= <-]. exists c. split; [|done].
      rewrite Hl. f_equal. unfold as_channel in Hc.
      destruct v as [| | | | | | |o]; try discriminate. destruct o; try discriminate.
      by injection Hc as ->.
    + destruct (order_by_last_seen_desc _) as [|c r]; simpl; [discriminate|].
      destruct (Z.eqb_spec (org_id (org self)) (ch_org c)) as [Ho|]; simpl; [|discriminate].
      intros [= <-]. exists c. split; [|done]. apply lookup_insert_eq.
  - intros c Hl Ho. unfold MsgCreateSerializer.validate_channel, getitem.
    rewrite Hl. simpl.
    destruct (Z.eqb_spec (org_id (org self)) (ch_org c)) as [Heq|]; [congruence|done].
Qed.

(** ** Flow starts *)

(** A serializer whose last declared field has a method that raises a
    validation error on every input never restores an object. *)
Lemma last_method_raises (S : Serializer) (self : Self) (db : Store)
    (fields : list (string * bool * string)) (field_name source : string) (required : bool)
    (m : validate_method_t) (_errors : Errors) (attrs : Attrs) :
  ser_fields S = fields ++ [(field_name, required, source)] ->
  ser_validate_method S field_name = Some m ->
  (forall attrs, is_validation_error (m self db attrs source)) ->
  not_restored (rest_framework.from_native_attrs S self db _errors attrs) db.
Proof.
  intros Hfields Hm Hraise.
  destruct (rest_framework.perform_field_validation S self db (ser_fields S) _errors attrs)
    as [[errs1 attrs1]|e] eqn:Hloop.
  - assert (errs1 ≠ ∅) as Hne.
    { rewrite Hfields, perform_field_validation_app in Hloop.
      destruct (rest_framework.perform_field_validation S self db fields _errors attrs)
        as [[errs0 attrs0]|e0]; [|discriminate].
      cbn [rest_framework.perform_field_validation] in Hloop.
      destruct (errs0 !! field_name) eqn:Hp.
      - injection Hloop as <- <-. intros ->. by rewrite lookup_empty in Hp.
      - rewrite Hm in Hloop. specialize (Hraise attrs0).
        destruct (m self db attrs0 source) as [|e0]; [done|].
        destruct e0; try done. injection Hloop as <- <-. apply insert_non_empty. }
    rewrite (from_native_attrs_field_errors _ _ _ _ _ _ _ Hloop Hne). simpl. done.
  - by rewrite (from_native_attrs_raise _ _ _ _ _ _ Hloop).
Qed.

(** X12.  Under an anonymous org [validate_phone] of a flow start raises
    whether or not the request holds phone numbers, so no flow start
    request restores anything and the database stays as it was. *)
Theorem flow_start_anon `{Collaborators}
    (start : Flow -> value -> value -> value -> value -> Store -> value * Store)
    (coerce : field_coercion) (self : Self) (db : Store) (data : value) :
  is_anon (org self) = true ->
  (forall attrs source,
     FlowRunStartSerializer.validate_phone self db attrs source
     = Raise (ValidationError "Cannot start flows for anonymous organizations" []))
  /\ not_restored
       (rest_framework.from_native coerce (FlowRunStartSerializer.serializer start)
          self db data) db.
Proof.
  intros Hanon.
  assert (forall attrs source,
            FlowRunStartSerializer.validate_phone self db attrs source
            = Raise (ValidationError "Cannot start flows for anonymous organizations" []))
    as Hphone.
  { intros. unfold FlowRunStartSerializer.validate_phone. by rewrite Hanon. }
  split; [exact Hphone|].
  unfold rest_framework.from_native.
  destruct data;
    try (destruct (WriteSerializer.restore_fields coerce _ ∅) as [errs attrs];
         eapply (last_method_raises _ _ _
                   [("flow_uuid", false, "flow_uuid"); ("groups", false, "groups");
                    ("contacts", false, "contacts"); ("extra", false, "extra");
                    ("restart_participants", false, "restart_participants");
                    ("flow", false, "flow"); ("contact", false, "contact")]
                   "phone" "phone" false);
         [reflexivity | reflexivity | intros; by rewrite Hphone]).
  simpl. split; [done|]. apply insert_non_empty.
Qed.

(** X13.  [restore_object] of a flow start with no contacts, no groups and
    no phone numbers returns the empty list and leaves the database as it
    was, without starting the flow; with contacts or groups it returns
    what [flow.start] returns; and it raises [KeyError] when the
    attributes have no 'flow' key. *)
Theorem flow_start_nothing_to_do `{Collaborators}
    (start : Flow -> value -> value -> value -> value -> Store -> value * Store)
    (self : Self) (db : Store) (attrs : Attrs) :
  supplied attrs "phone" = false ->
  (forall flow, attrs !! "flow" = Some flow ->
     supplied attrs "contacts" = false -> supplied attrs "groups" = false ->
     FlowRunStartSerializer.restore_object start self db attrs = Ok (VList [], db))
  /\ (forall flow, attrs !! "flow" = Some (VObj (OFlow flow)) ->
        supplied attrs "contacts" || supplied attrs "groups" = true ->
        FlowRunStartSerializer.restore_object start self db attrs
        = Ok (start flow (get attrs "groups" (VList [])) (get attrs "contacts" (VList []))
                (get attrs "restart_participants" (VBool true)) (get attrs "extra" VNone) db))
  /\ (attrs !! "flow" = None ->
      FlowRunStartSerializer.restore_object start self db attrs = Raise (KeyError "flow")).
Proof.
  intros Hp. unfold FlowRunStartSerializer.restore_object, getitem.
  rewrite !truthy_get by reflexivity. rewrite Hp.
  split; [|split].
  - intros flow -> Hc Hg. simpl. rewrite !truthy_get by reflexivity. by rewrite Hc, Hg.
  - intros flow -> Hany. simpl. rewrite !truthy_get by reflexivity. by rewrite Hany.
  - by intros ->.
Qed.

Lemma flow_start_validate_contact_ok (self : Self) (db : Store) (attrs attrs' : Attrs)
    (uuids : list value) :
  attrs !! "contact" = Some (VList uuids) -> uuids <> [] ->
  FlowRunStartSerializer.validate_contact self db attrs "contact" = Ok attrs' ->
  exists cs, attrs' = <["contacts" := VList cs]> attrs
             /\ Forall2 (resolved_contact self db) uuids cs.
Proof.
  intros Hl Hne. unfold FlowRunStartSerializer.validate_contact, get. rewrite Hl.
  destruct uuids as [|u us]; [done|]. simpl.
  destruct (match head (contacts_by_uuid db self u) with
            | Some contact => resolve_contacts db self us [VObj (OContact contact)]
            | None => _
            end) as [cs|e] eqn:Hr; simpl; [|discriminate].
  intros [= <-].
  change (resolve_contacts db self (u :: us) [] = Ok cs) in Hr.
  apply resolve_contacts_ok in Hr as (cs' & -> & Hall). by exists cs'.
Qed.

(** X14.  In a flow start the deprecated [contact] field wins over
    [contacts]: both methods store under 'contacts', and [validate_contact]
    runs later, so when [contact] holds UUIDs the contacts that reach
    [restore_object] are exactly the contacts of those UUIDs, whatever
    [contacts] resolved to; an empty or absent [contact] leaves what
    [validate_contacts] stored. *)
Theorem flow_start_contact_overrides (self : Self) (db : Store) (attrs attrs1 attrs2 : Attrs)
    (uuids : list value) :
  FlowRunStartSerializer.validate_contacts self db attrs "contacts" = Ok attrs1 ->
  FlowRunStartSerializer.validate_contact self db attrs1 "contact" = Ok attrs2 ->
  (attrs !! "contact" = Some (VList uuids) -> uuids <> [] ->
   exists cs, attrs2 !! "contacts" = Some (VList cs)
              /\ Forall2 (resolved_contact self db) uuids cs)
  /\ (supplied attrs "contact" = false -> attrs2 = attrs1).
Proof.
  intros H1 H2.
  assert (attrs1 !! "contact" = attrs !! "contact") as Hsame.
  { unfold FlowRunStartSerializer.validate_contacts in H1.
    destruct (truthy _); [|by injection H1 as <-].
    destruct (iter _) as [l|]; simpl in H1; [|discriminate].
    destruct (resolve_contacts db self l []) as [cs|]; simpl in H1; [|discriminate].
    injection H1 as <-. by rewrite lookup_insert_ne. }
  split.
  - intros Hl Hne. rewrite <- Hsame in Hl.
    destruct (flow_start_validate_contact_ok _ _ _ _ _ Hl Hne H2) as (cs & -> & Hall).
    exists cs. split; [apply lookup_insert_eq | done].
  - intros Hs. unfold FlowRunStartSerializer.validate_contact in H2.
    rewrite truthy_get in H2 by reflexivity.
    unfold supplied in *. rewrite Hsame, Hs in H2. by injection H2 as <-.
Qed.

Lemma run_flow_start `{Collaborators}
    (start : Flow -> value -> value -> value -> value -> Store -> value * Store)
    (self : Self) (db : Store) (attrs : Attrs) :
  run_validate_methods (FlowRunStartSerializer.serializer start) self db
    (ser_fields (FlowRunStartSerializer.serializer start)) attrs
  = (a1 ← FlowRunStartSerializer.validate_flow_uuid self db attrs "flow_uuid";
     a2 ← FlowRunStartSerializer.validate_groups self db a1 "groups";
     a3 ← FlowRunStartSerializer.validate_contacts self db a2 "contacts";
     a4 ← FlowRunStartSerializer.validate_flow self db a3 "flow";
     a5 ← FlowRunStartSerializer.validate_contact self db a4 "contact";
     a6 ← FlowRunStartSerializer.validate_phone self db a5 "phone";
     Ok a6).
Proof. reflexivity. Qed.

Lemma flow_start_validate_flow_uuid_ok (self : Self) (db : Store) (attrs attrs' : Attrs) :
  FlowRunStartSerializer.validate_flow_uuid self db attrs "flow_uuid" = Ok attrs' ->
  (truthy (get attrs "flow_uuid" VNone) = false /\ attrs' = attrs)
  \/ exists f, attrs' = <["flow" := VObj (OFlow f)]> attrs
               /\ fl_is_archived f = false /\ fl_org f = org_id (org self).
Proof.
  unfold FlowRunStartSerializer.validate_flow_uuid.
  destruct (truthy _); [|intros [= <-]; by left].
  destruct (objects_get _) as [f|]; simpl; [|discriminate].
  destruct (fl_is_archived f) eqn:Ha; [discriminate|].
  destruct (Z.eqb_spec (org_id (org self)) (fl_org f)) as [Ho|]; simpl; [|discriminate].
  intros [= <-]. right. by exists f.
Qed.

Lemma flow_start_validate_flow_ok (self : Self) (db : Store) (attrs attrs' : Attrs) :
  FlowRunStartSerializer.validate_flow self db attrs "flow" = Ok attrs' ->
  attrs' = attrs
  /\ (truthy (get attrs "flow" VNone) = true ->
      exists f, attrs !! "flow" = Some (VObj (OFlow f))
                /\ fl_is_archived f = false /\ fl_org f = org_id (org self)).
Proof.
  unfold FlowRunStartSerializer.validate_flow.
  destruct (truthy _) eqn:Ht; [|intros [= <-]; by split].
  destruct (CampaignEventWriteSerializer.as_flow _) as [f|] eqn:Hf; simpl; [|discriminate].
  destruct (fl_is_archived f) eqn:Ha; [discriminate|].
  destruct (Z.eqb_spec (org_id (org self)) (fl_org f)) as [Ho|]; simpl; [|discriminate].
  intros [= <-]. split; [done|]. intros _. exists f. split; [|done].
  unfold get in Hf. destruct (attrs !! "flow") as [v|]; [|discriminate].
  destruct v as [| | | | | | |o]; try discriminate. destruct o; try discriminate.
  by injection Hf as ->.
Qed.

Lemma flow_start_contacts_keeps (self : Self) (db : Store) (attrs attrs' : Attrs)
    (key : string) :
  key <> "contacts" ->
  (FlowRunStartSerializer.validate_contacts self db attrs "contacts" = Ok attrs'
   \/ FlowRunStartSerializer.validate_contact self db attrs "contact" = Ok attrs') ->
  attrs' !! key = attrs !! key.
Proof.
  intros Hk [Hv|Hv];
    unfold FlowRunStartSerializer.validate_contacts,
      FlowRunStartSerializer.validate_contact in Hv;
    (destruct (truthy _); [|by injection Hv as <-]);
    (destruct (iter _) as [l|]; simpl in Hv; [|discriminate]);
    (destruct (resolve_contacts db self l []) as [cs|]; simpl in Hv; [|discriminate]);
    injection Hv as <-; by rewrite lookup_insert_ne.
Qed.

(** X15.  A flow start that goes through starts a flow of the caller's
    own org that is not archived, for an org that is not anonymous: the
    attributes that reach [restore_object] hold such a flow under 'flow',
    whether the request named it by [flow_uuid] or by the legacy [flow]. *)
Theorem flow_start_restored_flow `{Collaborators}
    (start : Flow -> value -> value -> value -> value -> Store -> value * Store)
    (self : Self) (db db' : Store) (_errors : Errors) (attrs : Attrs) (object : value) :
  rest_framework.from_native_attrs (FlowRunStartSerializer.serializer start)
    self db _errors attrs
  = Ok (rest_framework.Restored object db') ->
  exists attrs' f,
    FlowRunStartSerializer.restore_object start self db attrs' = Ok (object, db')
    /\ attrs' !! "flow" = Some (VObj (OFlow f))
    /\ fl_is_archived f = false
    /\ fl_org f = org_id (org self)
    /\ is_anon (org self) = false.
Proof.
  intros Hrun.
  apply from_native_attrs_restored_run in Hrun as (a6 & a7 & Hrun & Hv & Hr).
  rewrite run_flow_start in Hrun. cbn in Hv, Hr.
  destruct (FlowRunStartSerializer.validate_flow_uuid self db attrs "flow_uuid")
    as [a1|] eqn:H1; simpl in Hrun; [|discriminate].
  destruct (FlowRunStartSerializer.validate_groups self db a1 "groups")
    as [a2|] eqn:H2; simpl in Hrun; [|discriminate].
  destruct (FlowRunStartSerializer.validate_contacts self db a2 "contacts")
    as [a3|] eqn:H3; simpl in Hrun; [|discriminate].
  destruct (FlowRunStartSerializer.validate_flow self db a3 "flow")
    as [a4|] eqn:H4; simpl in Hrun; [|discriminate].
  destruct (FlowRunStartSerializer.validate_contact self db a4 "contact")
    as [a5|] eqn:H5; simpl in Hrun; [|discriminate].
  apply flow_start_validate_flow_ok in H4 as [-> Hflow].
  destruct (FlowRunStartSerializer.validate_phone self db a5 "phone")
    as [a6'|] eqn:H6; simpl in Hrun; [|discriminate].
  injection Hrun as <-.
  assert (is_anon (org self) = false /\ a6' = a5) as [Hanon ->].
  { unfold FlowRunStartSerializer.validate_phone in H6.
    destruct (is_anon (org self)); [discriminate|]. split; [done|].
    destruct (truthy (get a5 "phone" (VList []))); [|by injection H6 as <-].
    destruct (get_send_channel _ _ _); [|discriminate].
    destruct (iter (get a5 "phone" (VList []))) as [l|]; simpl in H6; [|discriminate].
    destruct (FlowRunStartSerializer.validate_phone_loop _ l); simpl in H6;
      [|discriminate].
    by injection H6 as <-. }
  assert (a2 = <["groups" := get a2 "groups" VNone]> a1) as Hgroups.
  { unfold FlowRunStartSerializer.validate_groups in H2.
    destruct (iter _) as [l|]; simpl in H2; [|discriminate].
    destruct (resolve_groups db self l []) as [gs|]; simpl in H2; [|discriminate].
    injection H2 as <-. unfold get. by rewrite lookup_insert_eq. }
  assert (forall key, key <> "contacts" -> key <> "groups" -> a5 !! key = a1 !! key)
    as Hkeep.
  { intros key Hc Hg.
    rewrite (flow_start_contacts_keeps self db a3 a5 key Hc (or_intror H5)).
    rewrite (flow_start_contacts_keeps self db a2 a3 key Hc (or_introl H3)).
    rewrite Hgroups. by rewrite lookup_insert_ne. }
  assert (a3 !! "flow" = a5 !! "flow") as Hf35.
  { symmetry. by apply (flow_start_contacts_keeps self db a3 a5 "flow");
      [discriminate | right]. }
  unfold FlowRunStartSerializer.validate in Hv.
  destruct (negb _) eqn:Hany; [discriminate|]. injection Hv as <-.
  apply negb_false_iff in Hany.
  assert (truthy (get a3 "flow" VNone) = true) as Ht.
  { unfold get in *. rewrite Hf35.
    apply orb_prop in Hany as [Hany|Hany]; [done|].
    rewrite (Hkeep "flow") by discriminate.
    rewrite (Hkeep "flow_uuid") in Hany by discriminate.
    apply flow_start_validate_flow_uuid_ok in H1 as [[Hfalse ->]|(f & -> & _)].
    - unfold get in Hfalse. by rewrite Hfalse in Hany.
    - by rewrite lookup_insert_eq. }
  destruct (Hflow Ht) as (f & Hl & Ha & Ho).
  exists a5, f. rewrite <- Hf35. done.
Qed.

(** ** Bulk actions and labels *)

(** X16.  The cross-field check of a bulk action looks for the keys
    'label' and 'label_uuid', not for their values.  A label or unlabel
    request whose [label_uuid] is present but empty, with no [label], passes
    [validate_action], [validate_label], [validate_label_uuid] and
    [validate] with the attributes unchanged, and [restore_object] then
    raises [KeyError] on 'label'; with neither key present [validate] raises
    the validation error. *)
Theorem bulk_action_empty_label_uuid (is_valid_name : string -> bool)
    (get_or_create : Z -> string -> list Label -> Label * list Label)
    (archive restore release : Msg -> Msg) (self : Self) (user_labels : list Label)
    (db : Store) (attrs : Attrs) (msg_ids : list value) (action : value) :
  attrs !! "messages" = Some (VList msg_ids) ->
  attrs !! "action" = Some action ->
  existsb (str_is action) ["label"; "unlabel"] = true ->
  attrs !! "label" = None ->
  (forall label_uuid,
     attrs !! "label_uuid" = Some label_uuid -> truthy label_uuid = false ->
     MsgBulkActionSerializer.validate_action attrs "action" = Ok attrs
     /\ MsgBulkActionSerializer.validate_label is_valid_name get_or_create self user_labels
          attrs "label" = Ok (attrs, user_labels)
     /\ MsgBulkActionSerializer.validate_label_uuid self user_labels attrs "label_uuid"
        = Ok attrs
     /\ MsgBulkActionSerializer.validate attrs = Ok attrs
     /\ MsgBulkActionSerializer.restore_object archive restore release self db attrs
        = Raise (KeyError "label"))
  /\ (attrs !! "label_uuid" = None ->
      MsgBulkActionSerializer.validate attrs
      = Raise (ValidationError "For action %s you must also specify label or label_uuid"
                 [action])).
Proof.
  intros Hm Ha Hact Hl.
  assert (str_is action "label" || str_is action "unlabel" = true) as Hlab.
  { simpl in Hact. by rewrite orb_false_r in Hact. }
  split.
  - intros label_uuid Hu Ht. repeat split.
    + unfold MsgBulkActionSerializer.validate_action, getitem. rewrite Ha. simpl.
      apply orb_prop in Hlab as [->| ->]; simpl; [done|]. by rewrite orb_true_r.
    + unfold MsgBulkActionSerializer.validate_label, get. by rewrite Hl.
    + unfold MsgBulkActionSerializer.validate_label_uuid, get. by rewrite Hu, Ht.
    + unfold MsgBulkActionSerializer.validate, getitem, contains.
      rewrite Ha, Hl, Hu. simpl. by rewrite andb_false_r.
    + unfold MsgBulkActionSerializer.restore_object, getitem. rewrite Hm, Ha, Hl. simpl.
      destruct (str_is action "label"); [done|].
      simpl in Hlab. by rewrite Hlab.
  - intros Hu. unfold MsgBulkActionSerializer.validate, getitem, contains.
    rewrite Ha, Hl, Hu. simpl. simpl in Hact. by rewrite Hact.
Qed.

Lemma label_save_lookup (label : Label) (labels : list Label) (i : nat) :
  LabelWriteSerializer.save label labels !! i
  = (fun row => if (lb_pk row =? lb_pk label)%Z then label else row) <$> labels !! i.
Proof. unfold LabelWriteSerializer.save. by rewrite list_lookup_fmap. Qed.

Lemma objects_get_ok {A} (l : list A) (x : A) : objects_get l = Ok x -> l = [x].
Proof. destruct l as [|y [|z l]]; simpl; try discriminate. by intros [= ->]. Qed.

(** X17.  Renaming a label through Label write keeps label names unique
    within each org: when names and primary keys are unique, [validate_name]
    has accepted the attributes and [restore_object] updates the label named
    by [uuid], the names and primary keys are still unique, no row is added
    or removed, and the returned label is the stored one, of the caller's
    org, with the UUID and the new name. *)
Theorem label_rename_keeps_names_unique
    (get_or_create : Z -> string -> list Label -> Label * list Label)
    (self : Self) (labels labels' : list Label) (attrs : Attrs) (uuid : value)
    (name : string) (object : value) :
  label_names_unique labels ->
  label_pks_unique labels ->
  attrs !! "uuid" = Some uuid -> truthy uuid = true ->
  attrs !! "name" = Some (VStr name) ->
  LabelWriteSerializer.validate_name self labels attrs "name" = Ok attrs ->
  LabelWriteSerializer.restore_object get_or_create self labels attrs = Ok (object, labels') ->
  label_names_unique labels' /\ label_pks_unique labels'
  /\ length labels' = length labels
  /\ exists l, object = VObj (OLabel l) /\ In l labels' /\ lb_name l = name
               /\ lb_org l = org_id (org self) /\ uuid = VStr (lb_uuid l).
Proof.
  intros Hnames Hpks Hu Ht Hn Hvalid Hrestore.
  unfold LabelWriteSerializer.restore_object, get in Hrestore.
  rewrite Hu, Hn, Ht in Hrestore.
  destruct (objects_get _) as [existing|] eqn:Hget; simpl in Hrestore; [|discriminate].
  injection Hrestore as <- <-.
  apply objects_get_ok in Hget.
  set (P := fun l => (lb_org l =? org_id (org self))%Z && str_is uuid (lb_uuid l)) in *.
  assert (In existing labels /\ P existing = true) as [Hin HP].
  { apply filter_In. rewrite Hget. by left. }
  apply andb_prop in HP as [Horg Huuid].
  apply Z.eqb_eq in Horg. apply str_is_eq in Huuid.
  set (existing' := {| lb_pk := lb_pk existing; lb_uuid := lb_uuid existing;
                       lb_org := lb_org existing; lb_name := name |}).
  assert (forall l, In l labels -> lb_org l = org_id (org self) -> lb_name l = name ->
                    lb_pk l = lb_pk existing) as Hclash.
  { intros l Hl Ho Hnm.
    unfold LabelWriteSerializer.validate_name, get in Hvalid. rewrite Hu, Hn in Hvalid.
    destruct (existsb _ labels) eqn:Hex; [discriminate|].
    assert (P l = true) as HPl.
    { destruct (str_is uuid (lb_uuid l)) eqn:Hul.
      - unfold P. rewrite Hul, Ho, Z.eqb_refl. done.
      - exfalso. apply not_true_iff_false in Hex. apply Hex.
        apply existsb_exists. exists l. split; [done|].
        rewrite Hul, Ho, Z.eqb_refl. simpl. rewrite Hnm, String.eqb_refl. done. }
    assert (In l (List.filter P labels)) as Hfl by (by apply filter_In).
    rewrite Hget in Hfl. destruct Hfl as [<-|[]]. done. }
  assert (forall i l', LabelWriteSerializer.save existing' labels !! i = Some l' ->
            exists l, labels !! i = Some l /\ lb_pk l' = lb_pk l
                      /\ ((lb_pk l = lb_pk existing /\ l' = existing')
                          \/ (lb_pk l <> lb_pk existing /\ l' = l))) as Hrow.
  { intros i l'. rewrite label_save_lookup.
    destruct (labels !! i) as [l|] eqn:Hl; simpl; [|discriminate].
    intros [= <-]. exists l. split; [done|].
    destruct (Z.eqb_spec (lb_pk l) (lb_pk existing)) as [He|He].
    - split; [simpl; congruence|]. by left.
    - split; [done|]. by right. }
  unfold label_names_unique, label_pks_unique.
  split; [|split; [|split]].
  - intros i j l1' l2' H1 H2 Ho Hnm.
    apply Hrow in H1 as (l1 & Hl1 & _ & [[Hp1 ->]|[Hp1 ->]]);
      apply Hrow in H2 as (l2 & Hl2 & _ & [[Hp2 ->]|[Hp2 ->]]).
    + apply (Hpks i j l1 l2); congruence.
    + exfalso. apply Hp2. apply Hclash.
      * apply list_elem_of_In. by eapply list_elem_of_lookup_2.
      * simpl in Ho. congruence.
      * simpl in Hnm. congruence.
    + exfalso. apply Hp1. apply Hclash.
      * apply list_elem_of_In. by eapply list_elem_of_lookup_2.
      * simpl in Ho. congruence.
      * simpl in Hnm. congruence.
    + by apply (Hnames i j l1 l2).
  - intros i j l1' l2' H1 H2 Hpk.
    apply Hrow in H1 as (l1 & Hl1 & Hpk1 & _).
    apply Hrow in H2 as (l2 & Hl2 & Hpk2 & _).
    apply (Hpks i j l1 l2); congruence.
  - unfold LabelWriteSerializer.save. by rewrite length_fmap.
  - exists existing'. split; [done|]. split.
    + apply list_elem_of_In, list_elem_of_lookup_1 in Hin as [k Hk].
      apply list_elem_of_In. apply (list_elem_of_lookup_2 _ k).
      rewrite label_save_lookup, Hk. simpl. by rewrite Z.eqb_refl.
    + done.
Qed.

(** ** More on Contact write *)

Lemma filter_nil_iff {A} (P : A -> bool) (l : list A) :
  List.filter P l = [] <-> forall x, In x l -> P x = false.
Proof.
  induction l as [|y l IH]; simpl; [by split|].
  destruct (P y) eqn:Hy.
  - split; [discriminate|]. intros Hall. specialize (Hall y (or_introl eq_refl)). congruence.
  - rewrite IH. split.
    + intros Hall x [<-|Hx]; [done | by apply Hall].
    + intros Hall x Hx. apply Hall. by right.
Qed.

Lemma other_contacts_nil (self : Self) (db : Store) (urns_strings : list string)
    (id : string) :
  ContactWriteSerializer.other_contacts self db urns_strings (VStr id) = []
  <-> forall c, In c (contacts db) -> ct_org c = org_id (org self) -> ct_uuid c <> id ->
        (0 <= ct_pk c)%Z
        /\ forall u s, In u (ct_urns c) -> In s urns_strings ->
                       lower (urn_urn u) <> lower s.
Proof.
  unfold ContactWriteSerializer.other_contacts. rewrite filter_nil_iff.
  split.
  - intros Hall c Hin Ho Hu. specialize (Hall c Hin).
    rewrite Ho, Z.eqb_refl in Hall. simpl in Hall.
    destruct (String.eqb_spec id (ct_uuid c)) as [Heq|_]; [congruence|].
    rewrite andb_true_r in Hall. apply orb_false_elim in Hall as [Hpk Hex].
    split; [by apply Z.ltb_ge|].
    intros u s Hu' Hs Hlow.
    apply not_true_iff_false in Hex. apply Hex.
    apply existsb_exists. exists s. split; [done|].
    apply existsb_exists. exists u. split; [done|].
    unfold iexact. rewrite Hlow. apply String.eqb_refl.
  - intros Hall c Hin.
    destruct (Z.eqb_spec (ct_org c) (org_id (org self))) as [Ho|]; [|done]. simpl.
    destruct (String.eqb_spec id (ct_uuid c)) as [Heq|Hne]; [by rewrite andb_false_r|].
    rewrite andb_true_r.
    destruct (Hall c Hin Ho) as [Hpk Hurns]; [congruence|].
    apply orb_false_intro; [by apply Z.ltb_ge|].
    apply not_true_iff_false. intros Hex.
    apply existsb_exists in Hex as (s & Hs & Hex).
    apply existsb_exists in Hex as (u & Hu' & Hex).
    unfold iexact in Hex. apply String.eqb_eq in Hex. by apply (Hurns u s).
Qed.

(** X18.  An update of a contact by UUID with an address list is accepted
    exactly when no other contact of the same org has a negative primary
    key or holds one of the addresses, compared without regard to letter
    case: the contact's own addresses and the addresses of contacts of other
    orgs are no conflict.
    When it is refused, the error is the one about URNs used by other
    contacts. *)
Theorem contact_address_conflict (self : Self) (db : Store) (attrs : Attrs)
    (id : string) (urns : list value) (urns_strings : list string) :
  attrs !! "uuid" = Some (VStr id) -> id <> "" ->
  attrs !! "urns" = Some (VList urns) -> urns <> [] ->
  supplied attrs "phone" = false ->
  supplied attrs "group_uuids" && supplied attrs "groups" = false ->
  ContactWriteSerializer.format_urns urns = Ok urns_strings ->
  (ContactWriteSerializer.validate self db attrs = Ok attrs
   <-> forall c, In c (contacts db) -> ct_org c = org_id (org self) -> ct_uuid c <> id ->
         (0 <= ct_pk c)%Z
         /\ forall u s, In u (ct_urns c) -> In s urns_strings ->
                        lower (urn_urn u) <> lower s)
  /\ (ContactWriteSerializer.validate self db attrs <> Ok attrs ->
      ContactWriteSerializer.validate self db attrs
      = Raise (ValidationError "URNs %s are used by other contacts"
                 [VList (VStr <$> urns_strings)])).
Proof.
  intros Hi Hid Hu Hne Hp Hg Hf.
  assert (ContactWriteSerializer.validate self db attrs
          = match ContactWriteSerializer.other_contacts self db urns_strings (VStr id) with
            | [] => Ok attrs
            | _ :: _ => Raise (ValidationError "URNs %s are used by other contacts"
                                 [VList (VStr <$> urns_strings)])
            end) as ->.
  { unfold ContactWriteSerializer.validate.
    rewrite !truthy_get by reflexivity. rewrite Hp, Hg.
    unfold supplied, get, getitem. rewrite Hi, Hu. simpl.
    destruct id; [done|]. simpl.
    destruct urns as [|u urns]; [done|]. simpl in *.
    by rewrite Hf. }
  rewrite <- other_contacts_nil.
  destruct (ContactWriteSerializer.other_contacts self db urns_strings (VStr id));
    split; try done.
Qed.

Lemma validate_fields_loop_ok (org_fields : list ContactField) (items : list (string * value)) :
  ContactWriteSerializer.validate_fields_loop org_fields items = Ok tt
  <-> forall key v, In (key, v) items ->
        exists field, In field org_fields /\ (cf_key field = key \/ cf_label field = key).
Proof.
  induction items as [|[k v] items IH]; simpl.
  - split; [intros _ ? ? [] | done].
  - destruct (existsb _ org_fields) eqn:Hex.
    + rewrite IH. apply existsb_exists in Hex as (field & Hin & Hm).
      apply orb_prop in Hm. rewrite !String.eqb_eq in Hm.
      split.
      * intros Hall key v' [[= <- <-]|Hrest]; [by exists field | by eapply Hall].
      * intros Hall key v' Hrest. apply (Hall key v'). by right.
    + split; [discriminate|]. intros Hall.
      destruct (Hall k v (or_introl eq_refl)) as (field & Hin & Hm).
      apply not_true_iff_false in Hex. exfalso. apply Hex.
      apply existsb_exists. exists field. split; [done|].
      apply orb_true_intro. rewrite !String.eqb_eq. done.
Qed.

(** X19.  [validate_fields] of Contact write accepts a dict of custom
    fields exactly when every key is, letter for letter, the key or the
    label of one of the org's fields, and returns the attributes unchanged;
    an absent or empty dict is accepted without looking at the org's fields;
    any other key is a validation error. *)
Theorem contact_validate_fields (org_fields : list ContactField) (attrs : Attrs) :
  (forall fields, attrs !! "fields" = Some (VDict fields) ->
     (ContactWriteSerializer.validate_fields org_fields attrs "fields" = Ok attrs
      <-> forall key v, In (key, v) fields ->
            exists field, In field org_fields
                          /\ (cf_key field = key \/ cf_label field = key))
     /\ (ContactWriteSerializer.validate_fields org_fields attrs "fields" <> Ok attrs ->
         is_validation_error
           (ContactWriteSerializer.validate_fields org_fields attrs "fields")))
  /\ (attrs !! "fields" = None ->
      ContactWriteSerializer.validate_fields org_fields attrs "fields" = Ok attrs).
Proof.
  split.
  - intros fields Hl. unfold ContactWriteSerializer.validate_fields, get. rewrite Hl.
    destruct fields as [|item fields].
    + split; [|done]. split; [intros _ ? ? [] | done].
    + rewrite <- validate_fields_loop_ok.
      assert (forall r : result unit,
                r = ContactWriteSerializer.validate_fields_loop org_fields (item :: fields) ->
                r = Ok tt \/ is_validation_error r) as Hshape.
      { intros r ->. generalize (item :: fields). intros items.
        induction items as [|[k v] items IH]; simpl; [by left|].
        destruct (existsb _ org_fields); [exact IH | by right]. }
      destruct (Hshape _ eq_refl) as [Hok|Herr].
      * rewrite Hok. simpl. split; [done|]. intros Hne. by destruct Hne.
      * destruct (ContactWriteSerializer.validate_fields_loop org_fields (item :: fields))
          as [[]|[]]; done.
  - intros Hl. unfold ContactWriteSerializer.validate_fields, get. by rewrite Hl.
Qed.

(** X20.  [validate_language] of Contact write: without the key
    'language' the attributes are returned as they are; with an empty
    language the key is set to [None]; with a language whose lower-cased
    code is one of the org's languages the key is set to that lower-cased
    code; a language given to an org without languages, and a code that is
    not one of the org's languages, are validation errors. *)
Theorem contact_validate_language (str_lower : string -> string)
    (supported_languages : list string) (attrs : Attrs) :
  (attrs !! "language" = None ->
   ContactWriteSerializer.validate_language str_lower supported_languages attrs "language"
   = Ok attrs)
  /\ (forall language, attrs !! "language" = Some language -> truthy language = false ->
        ContactWriteSerializer.validate_language str_lower supported_languages attrs
          "language"
        = Ok (<["language" := VNone]> attrs))
  /\ (forall code, attrs !! "language" = Some (VStr code) -> code <> "" ->
        In (str_lower code) supported_languages ->
        ContactWriteSerializer.validate_language str_lower supported_languages attrs
          "language"
        = Ok (<["language" := VStr (str_lower code)]> attrs))
  /\ (forall language, attrs !! "language" = Some language -> truthy language = true ->
        supported_languages = [] ->
        ContactWriteSerializer.validate_language str_lower supported_languages attrs
          "language"
        = Raise (ValidationError
                   "You do not have any languages configured for your organization." []))
  /\ (forall code, attrs !! "language" = Some (VStr code) -> code <> "" ->
        supported_languages <> [] ->
        ~ In (str_lower code) supported_languages ->
        ContactWriteSerializer.validate_language str_lower supported_languages attrs
          "language"
        = Raise (ValidationError
                   "Language code '%s' is not one of supported for organization. (%s)"
                   [VStr code; VList (VStr <$> supported_languages)])).
Proof.
  assert (forall code,
            existsb (String.eqb (str_lower code)) supported_languages = true
            <-> In (str_lower code) supported_languages) as Hin.
  { intros code. rewrite existsb_exists. split.
    - intros (x & Hx & Heq). apply String.eqb_eq in Heq. by subst.
    - intros Hx. exists (str_lower code). split; [done | apply String.eqb_refl]. }
  assert (forall code : string, code <> "" -> truthy (VStr code) = true) as Htruthy.
  { intros code Hne. by destruct code. }
  unfold ContactWriteSerializer.validate_language, contains, get.
  split; [|split; [|split; [|split]]].
  - by intros ->.
  - intros language -> Ht. by rewrite Ht.
  - intros code -> Hne Hs. rewrite (Htruthy _ Hne).
    destruct supported_languages as [|l ls]; [done|].
    by rewrite (proj2 (Hin code) Hs).
  - intros language -> Ht ->. by rewrite Ht.
  - intros code -> Hne Hs Hnot. rewrite (Htruthy _ Hne).
    destruct supported_languages as [|l ls]; [done|].
    destruct (existsb _ (l :: ls)) eqn:Hex; [by apply Hin in Hex | reflexivity].
Qed.

(** ** Recipients of a message *)

Lemma create_contacts_length `{Collaborators} (channel : value) (urns : list value)
    (contacts out : list Contact) (db db' : Store) :
  MsgCreateSerializer.create_contacts channel urns contacts db = Ok (out, db') ->
  length out = (length contacts + length urns)%nat.
Proof.
  revert contacts db. induction urns as [|urn urns IH]; intros contacts db; simpl.
  - intros [= <- <-]. lia.
  - destruct (as_channel channel) as [c|]; simpl; [|discriminate].
    destruct (as_urn urn) as [u|]; simpl; [|discriminate].
    destruct (Contact_get_or_create (ch_org c) u db) as [contact db1].
    intros Hrest. apply IH in Hrest. rewrite Hrest, length_app. simpl. lia.
Qed.

Lemma append_contacts_length (l : list value) (contacts out : list Contact) :
  MsgCreateSerializer.append_contacts l contacts = Ok out ->
  length out = (length contacts + length l)%nat.
Proof.
  revert contacts. induction l as [|v l IH]; intros contacts; simpl.
  - intros [= <-]. lia.
  - destruct v as [| | | | | | |o]; try discriminate.
    destruct o; try discriminate.
    intros Hrest. apply IH in Hrest. rewrite Hrest, length_app. simpl. lia.
Qed.

Lemma msg_restore_recipients `{Collaborators} (self : Self) (db db' : Store)
    (attrs attrs' : Attrs) (object : value) :
  MsgCreateSerializer.validate self db attrs = Ok attrs' ->
  MsgCreateSerializer.restore_object self db attrs' = Ok (object, db') ->
  exists b, object = VObj (OBroadcast b) /\ bc_recipients b <> []
            /\ bc_org b = org_id (org self)
            /\ Forall (fun r => exists pk, r = ToContact pk) (bc_recipients b).
Proof.
  unfold MsgCreateSerializer.validate.
  destruct (_ || _) eqn:Hany; [discriminate|]. intros [= <-].
  apply orb_false_elim in Hany as [Hnone Hboth].
  unfold MsgCreateSerializer.restore_object.
  destruct (getitem attrs "channel") as [channel|]; simpl; [|discriminate].
  destruct (iter (if contains attrs "urn" && truthy (get attrs "urn" VNone)
                  then get attrs "urn" (VList []) else get attrs "phone" (VList [])))
    as [urns|] eqn:Hu; simpl; [|discriminate].
  destruct (MsgCreateSerializer.create_contacts channel urns [] db)
    as [[contacts db1]|] eqn:Hcreate; simpl; [|discriminate].
  destruct (iter (get attrs "contact" (VList []))) as [uuid_contacts|] eqn:Hc; simpl;
    [|discriminate].
  destruct (MsgCreateSerializer.append_contacts uuid_contacts contacts)
    as [recipients|] eqn:Happ; simpl; [|discriminate].
  destruct (getitem attrs "text") as [text|]; simpl; [|discriminate].
  destruct text; try discriminate. intros [= <- <-].
  eexists. split; [reflexivity|]. simpl.
  split; [|split; [reflexivity|]].
  - apply create_contacts_length in Hcreate. apply append_contacts_length in Happ.
    simpl in Hcreate. intros Hnil.
    apply (f_equal length) in Hnil. rewrite length_fmap in Hnil. simpl in Hnil.
    assert (length urns = 0 /\ length uuid_contacts = 0)%nat as [Hu0 Hc0] by lia.
    destruct urns; [|discriminate]. destruct uuid_contacts; [|discriminate].
    assert (truthy (get attrs "contact" (VList [])) = false) as Hcontact.
    { destruct (truthy (get attrs "contact" (VList []))) eqn:Ht; [|done].
      by destruct (iter_truthy _ _ Hc Ht). }
    rewrite Hcontact in Hnone. simpl in Hnone. rewrite andb_true_r in Hnone.
    rewrite !truthy_get in Hnone, Hboth by reflexivity.
    rewrite get_supplied in Hu.
    assert (contains attrs "urn" && supplied attrs "urn" = supplied attrs "urn") as Hcs.
    { unfold contains, supplied. by destruct (attrs !! "urn"). }
    rewrite Hcs in Hu.
    destruct (supplied attrs "urn") eqn:Hurn.
    + rewrite <- (truthy_get attrs "urn" (VList [])) in Hurn by reflexivity.
      by destruct (iter_truthy _ _ Hu Hurn).
    + simpl in Hnone. apply negb_false_iff in Hnone.
      rewrite <- (truthy_get attrs "phone" (VList [])) in Hnone by reflexivity.
      by destruct (iter_truthy _ _ Hu Hnone).
  - apply Forall_forall. intros r Hr.
    apply list_elem_of_fmap in Hr as (c & -> & _). by exists (ct_pk c).
Qed.

(** X21.  Every broadcast that Message create restores has at least one
    recipient, belongs to the caller's org, and is addressed to contacts
    only, one per address or phone number and one per contact UUID: a
    request whose urn, phone and contact are all empty never creates a
    broadcast. *)
Theorem msg_create_has_recipients `{Collaborators} (self : Self) (db db' : Store)
    (_errors : Errors) (attrs : Attrs) (object : value) :
  rest_framework.from_native_attrs MsgCreateSerializer.serializer self db _errors attrs
  = Ok (rest_framework.Restored object db') ->
  exists b, object = VObj (OBroadcast b) /\ bc_recipients b <> []
            /\ bc_org b = org_id (org self)
            /\ Forall (fun r => exists pk, r = ToContact pk) (bc_recipients b).
Proof.
  intros Hrun.
  apply from_native_attrs_restored_run in Hrun as (attrs1 & attrs2 & _ & Hv & Hr).
  by eapply msg_restore_recipients.
Qed.

Lemma msg_create_has_recipients_witness :
  exists b db',
    rest_framework.from_native_attrs (@MsgCreateSerializer.serializer Sample.collaborators)
      Sample.self1 Sample.store1 ∅ Sample.msg_attrs
    = Ok (rest_framework.Restored (VObj (OBroadcast b)) db')
    /\ bc_recipients b <> [].
Proof.
  assert (exists object db',
            rest_framework.from_native_attrs
              (@MsgCreateSerializer.serializer Sample.collaborators)
              Sample.self1 Sample.store1 ∅ Sample.msg_attrs
            = Ok (rest_framework.Restored object db')) as (object & db' & Hrun).
  { eexists _, _. vm_compute. reflexivity. }
  destruct (@msg_create_has_recipients Sample.collaborators _ _ _ _ _ _ Hrun)
    as (b & -> & Hne & _).
  by exists b, db'.
Defined.

(** ** The label named by a Label write *)

(** X22.  [validate_uuid] of Label write accepts a given UUID exactly when
    a label of the caller's org has it; otherwise it raises the 'No such
    message label' validation error.  [restore_object] looks the label up
    with the same filter, so after [validate_uuid] has accepted, the update
    never raises [DoesNotExist]: it returns the renamed label, or raises
    [MultipleObjectsReturned] when the org has several labels with the
    UUID. *)
Theorem label_update_finds_label
    (get_or_create : Z -> string -> list Label -> Label * list Label)
    (self : Self) (labels : list Label) (attrs : Attrs) (uuid : value) (name : string) :
  attrs !! "uuid" = Some uuid -> truthy uuid = true ->
  attrs !! "name" = Some (VStr name) ->
  (LabelWriteSerializer.validate_uuid self labels attrs "uuid" = Ok attrs
   <-> exists l, In l labels /\ lb_org l = org_id (org self) /\ uuid = VStr (lb_uuid l))
  /\ (LabelWriteSerializer.validate_uuid self labels attrs "uuid" <> Ok attrs ->
      LabelWriteSerializer.validate_uuid self labels attrs "uuid"
      = Raise (ValidationError "No such message label with UUID: %s" [uuid]))
  /\ (LabelWriteSerializer.validate_uuid self labels attrs "uuid" = Ok attrs ->
      LabelWriteSerializer.restore_object get_or_create self labels attrs
      = Raise MultipleObjectsReturned
      \/ exists l labels',
           LabelWriteSerializer.restore_object get_or_create self labels attrs
           = Ok (VObj (OLabel l), labels')
           /\ lb_name l = name /\ lb_org l = org_id (org self)
           /\ uuid = VStr (lb_uuid l)).
Proof.
  intros Hu Ht Hn.
  unfold LabelWriteSerializer.validate_uuid, LabelWriteSerializer.restore_object, get.
  rewrite Hu, Hn, Ht. simpl.
  set (P := fun l : Label => (lb_org l =? org_id (org self))%Z && str_is uuid (lb_uuid l)).
  destruct (existsb P labels) eqn:Hex; simpl.
  - apply existsb_exists in Hex as (l & Hin & Hl).
    split; [|split].
    + split; [|done]. intros _. exists l. unfold P in Hl.
      apply andb_prop in Hl as [Ho Hs]. apply Z.eqb_eq in Ho. by apply str_is_eq in Hs.
    + intros Hne. by destruct Hne.
    + intros _.
      assert (In l (List.filter P labels)) as Hf by (by apply filter_In).
      destruct (List.filter P labels) as [|l1 [|l2 rest]] eqn:Hfilter; [done| |by left].
      right. simpl. eexists _, _. split; [reflexivity|]. simpl.
      assert (In l1 (List.filter P labels)) as Hl1 by (rewrite Hfilter; by left).
      apply filter_In in Hl1 as [_ Hl1]. unfold P in Hl1.
      apply andb_prop in Hl1 as [Ho Hs]. apply Z.eqb_eq in Ho. by apply str_is_eq in Hs.
  - split; [|split]; [|done|discriminate].
    split; [discriminate|]. intros (l & Hin & Ho & ->).
    apply not_true_iff_false in Hex. exfalso. apply Hex.
    apply existsb_exists. exists l. split; [done|]. unfold P.
    rewrite Ho, Z.eqb_refl. simpl. apply String.eqb_refl.
Qed.

Lemma label_update_finds_label_witness :
  LabelWriteSerializer.validate_uuid Sample.self1 [Sample.label1; Examples.label2]
    Examples.label_rename_attrs "uuid"
  = Ok Examples.label_rename_attrs
  /\ LabelWriteSerializer.validate_uuid Sample.self1 [Examples.label2]
       Examples.label_rename_attrs "uuid"
     = Raise (ValidationError "No such message label with UUID: %s" [VStr "l-1"]).
Proof.
  split.
  - destruct (label_update_finds_label Examples.get_or_create Sample.self1
                [Sample.label1; Examples.label2] Examples.label_rename_attrs
                (VStr "l-1") "Urgent") as [Hiff _];
      [vm_compute; reflexivity | reflexivity | vm_compute; reflexivity |].
    apply Hiff. exists Sample.label1. split; [by left | by split].
  - destruct (label_update_finds_label Examples.get_or_create Sample.self1
                [Examples.label2] Examples.label_rename_attrs
                (VStr "l-1") "Urgent") as (Hiff & Herr & _);
      [vm_compute; reflexivity | reflexivity | vm_compute; reflexivity |].
    apply Herr. intros Hok.
    destruct (proj1 Hiff Hok) as (l & [<-|[]] & _ & Heq). discriminate.
Defined.

(** ** The properties on the sample data *)

Lemma validate_groups_resolves_witness :
  Examples.groups_attrs !! "groups" = Some (VList [VStr "g-1"])
  /\ match BroadcastCreateSerializer.validate_groups Sample.self1 Sample.group_store
             Examples.groups_attrs "groups" with
     | Ok attrs' =>
         exists gs, attrs' = <["groups" := VList gs]> Examples.groups_attrs
                    /\ Forall2 (resolved_group Sample.self1 Sample.group_store) [VStr "g-1"] gs
     | Raise e =>
         exists uuid, In uuid [VStr "g-1"]
                      /\ groups_by_uuid Sample.group_store Sample.self1 uuid = []
                      /\ e = ValidationError "Unable to find contact group with uuid: %s" [uuid]
     end.
Proof.
  split; [apply lookup_insert_eq|].
  apply (validate_groups_resolves Sample.self1 Sample.group_store Examples.groups_attrs
           [VStr "g-1"]).
  apply lookup_insert_eq.
Defined.

Lemma validate_contacts_resolves_witness :
  match BroadcastCreateSerializer.validate_contacts Sample.self1 Sample.contact_store
          (<["contacts" := VList [VStr "c-1"]]> ∅) "contacts" with
  | Ok attrs' =>
      exists cs, attrs' = <["contacts" := VList cs]> (<["contacts" := VList [VStr "c-1"]]> ∅)
                 /\ Forall2 (resolved_contact Sample.self1 Sample.contact_store)
                      [VStr "c-1"] cs
  | Raise e =>
      exists uuid, In uuid [VStr "c-1"]
                   /\ contacts_by_uuid Sample.contact_store Sample.self1 uuid = []
                   /\ e = ValidationError "Unable to find contact with uuid: %s" [uuid]
  end.
Proof.
  apply (proj1 (validate_contacts_resolves Sample.self1 Sample.contact_store
                  (<["contacts" := VList [VStr "c-1"]]> ∅) [VStr "c-1"])).
  apply lookup_insert_eq.
Defined.

Lemma broadcast_validate_urns_witness :
  exists us,
    @BroadcastCreateSerializer.validate_urns Sample.collaborators Sample.self1 Sample.store1
      Sample.broadcast_attrs "urns"
    = Ok (<["urns" := VList us]> Sample.broadcast_attrs)
    /\ Forall2 (@resolved_urn Sample.collaborators (Some {| country_code := "RW" |}))
         [VStr "tel:+250788123123"] us.
Proof.
  assert (exists attrs',
            @BroadcastCreateSerializer.validate_urns Sample.collaborators Sample.self1
              Sample.store1 Sample.broadcast_attrs "urns" = Ok attrs') as (attrs' & Hrun).
  { eexists. vm_compute. reflexivity. }
  assert (Sample.broadcast_attrs !! "urns" = Some (VList [VStr "tel:+250788123123"]))
    as Hurns by (vm_compute; reflexivity).
  destruct (@broadcast_validate_urns Sample.collaborators Sample.self1 Sample.store1
              Sample.broadcast_attrs [VStr "tel:+250788123123"] Hurns) as [Hok _].
  destruct (Hok attrs' Hrun) as (us & -> & Hall).
  exists us. split; [exact Hrun | exact Hall].
Defined.

Lemma campaign_event_flow_isolation_witness :
  CampaignEventWriteSerializer.validate_flow_uuid Sample.self1
    Examples.event_store_with_foreign_flow (<["flow_uuid" := VStr "f-6"]> ∅) "flow_uuid"
  = CampaignEventWriteSerializer.validate_flow_uuid Sample.self1 Sample.event_store
      (<["flow_uuid" := VStr "f-6"]> ∅) "flow_uuid".
Proof.
  apply (campaign_event_flow_isolation Sample.self1 Sample.event_store
           Examples.event_store_with_foreign_flow).
  reflexivity.
Defined.

Lemma campaign_event_resolves_event_witness :
  match CampaignEventWriteSerializer.validate_uuid Sample.self1 Sample.event_store
          (<["uuid" := VStr "e-1"]> ∅) "uuid" with
  | Ok attrs' =>
      exists e c, attrs' = <["event_obj" := VObj (OEvent e)]> (<["uuid" := VStr "e-1"]> ∅)
                  /\ In e (events Sample.event_store) /\ ev_is_active e = true
                  /\ get (<["uuid" := VStr "e-1"]> ∅) "uuid" VNone = VStr (ev_uuid e)
                  /\ In c (campaigns Sample.event_store) /\ ca_pk c = ev_campaign e
                  /\ ca_org c = org_id (org Sample.self1)
  | Raise e =>
      e = ValidationError "No event with UUID %s" [get (<["uuid" := VStr "e-1"]> ∅) "uuid" VNone]
  end.
Proof.
  apply (proj1 (campaign_event_resolves_event Sample.self1 Sample.event_store
                  (<["uuid" := VStr "e-1"]> ∅) "uuid")).
  vm_compute. reflexivity.
Defined.

Lemma campaign_event_hour_and_unit_witness :
  CampaignEventWriteSerializer.validate_delivery_hour Sample.self1 Sample.event_store
    Sample.event_base_attrs "delivery_hour" = Ok Sample.event_base_attrs
  /\ is_validation_error
       (CampaignEventWriteSerializer.validate_unit Sample.self1 Sample.event_store
          (<["unit" := VStr "Y"]> ∅) "unit").
Proof.
  split.
  - apply (proj1 (campaign_event_hour_and_unit Sample.self1 Sample.event_store
                    Sample.event_base_attrs "delivery_hour") 10%Z);
      [vm_compute; reflexivity | lia].
  - apply (proj1 (proj2 (campaign_event_hour_and_unit Sample.self1 Sample.event_store
                           (<["unit" := VStr "Y"]> ∅) "unit")) "Y");
      [apply lookup_insert_eq|].
    simpl. intros [H|[H|[H|[H|[]]]]]; discriminate.
Defined.

Lemma msg_create_channel_of_org_witness :
  MsgCreateSerializer.validate_channel Sample.self1 Sample.store1
    Examples.foreign_channel_attrs "channel"
  = Raise (ValidationError "Invalid pk '%d' - object does not exist." [VInt 9]).
Proof.
  apply (proj2 (msg_create_channel_of_org Sample.self1 Sample.store1
                  Examples.foreign_channel_attrs "channel") Examples.foreign_channel);
    [apply lookup_insert_eq | discriminate].
Defined.

Lemma flow_start_anon_witness :
  not_restored
    (rest_framework.from_native (fun d => (∅, list_to_map d))
       (@FlowRunStartSerializer.serializer Sample.collaborators Examples.start)
       Sample.anon_self Examples.start_store
       (VDict [("flow_uuid", VStr "f-6"); ("contacts", VList [VStr "c-1"])]))
    Examples.start_store.
Proof.
  apply (@flow_start_anon Sample.collaborators). reflexivity.
Defined.

Lemma flow_start_nothing_to_do_witness :
  @FlowRunStartSerializer.restore_object Sample.collaborators Examples.start Sample.self1
    Examples.start_store Examples.started_attrs
  = Ok (VList [VObj (OContact Sample.contact1)], Examples.start_store)
  /\ @FlowRunStartSerializer.restore_object Sample.collaborators Examples.start Sample.self1
       Examples.start_store (<["flow" := VObj (OFlow Sample.survey_flow)]> ∅)
     = Ok (VList [], Examples.start_store).
Proof.
  split.
  - assert (supplied Examples.started_attrs "phone" = false) as Hp
      by (vm_compute; reflexivity).
    destruct (@flow_start_nothing_to_do Sample.collaborators Examples.start Sample.self1
                Examples.start_store Examples.started_attrs Hp) as (_ & Hstart & _).
    rewrite (Hstart Sample.survey_flow);
      [vm_compute; reflexivity | apply lookup_insert_eq | vm_compute; reflexivity].
  - assert (supplied (<["flow" := VObj (OFlow Sample.survey_flow)]> ∅ : Attrs) "phone" = false)
      as Hp by (vm_compute; reflexivity).
    destruct (@flow_start_nothing_to_do Sample.collaborators Examples.start Sample.self1
                Examples.start_store _ Hp) as (Hnone & _ & _).
    apply (Hnone (VObj (OFlow Sample.survey_flow)));
      [apply lookup_insert_eq | vm_compute; reflexivity | vm_compute; reflexivity].
Defined.

Lemma flow_start_contact_overrides_witness :
  exists cs,
    (<["contacts" := VList [VObj (OContact Sample.contact1)]]> Examples.start_contact_attrs)
      !! "contacts" = Some (VList cs)
    /\ Forall2 (resolved_contact Sample.self1 Examples.start_store) [VStr "c-1"] cs.
Proof.
  apply (proj1 (flow_start_contact_overrides Sample.self1 Examples.start_store
                  Examples.start_contact_attrs Examples.start_contact_attrs
                  (<["contacts" := VList [VObj (OContact Sample.contact1)]]>
                     Examples.start_contact_attrs)
                  [VStr "c-1"]
                  ltac:(vm_compute; reflexivity) ltac:(vm_compute; reflexivity)));
    [apply lookup_insert_eq | discriminate].
Defined.

Lemma flow_start_restored_flow_witness :
  exists (attrs' : Attrs) f object db',
    rest_framework.from_native_attrs
      (@FlowRunStartSerializer.serializer Sample.collaborators Examples.start)
      Sample.self1 Examples.start_store ∅ Examples.start_attrs
    = Ok (rest_framework.Restored object db')
    /\ attrs' !! "flow" = Some (VObj (OFlow f))
    /\ fl_is_archived f = false
    /\ fl_org f = 1%Z.
Proof.
  assert (exists object db',
            rest_framework.from_native_attrs
              (@FlowRunStartSerializer.serializer Sample.collaborators Examples.start)
              Sample.self1 Examples.start_store ∅ Examples.start_attrs
            = Ok (rest_framework.Restored object db')) as (object & db' & Hrun).
  { eexists _, _. vm_compute. reflexivity. }
  destruct (@flow_start_restored_flow Sample.collaborators _ _ _ _ _ _ _ Hrun)
    as (attrs' & f & _ & Hflow & Harch & Horg & _).
  by exists attrs', f, object, db'.
Defined.

Lemma bulk_action_empty_label_uuid_witness :
  MsgBulkActionSerializer.validate Examples.label_action_attrs
  = Ok Examples.label_action_attrs
  /\ MsgBulkActionSerializer.restore_object Sample.archive id id Sample.self1
       Sample.msg_store Examples.label_action_attrs
     = Raise (KeyError "label").
Proof.
  destruct (bulk_action_empty_label_uuid (fun _ => true) Examples.get_or_create
              Sample.archive id id Sample.self1 [Sample.label1] Sample.msg_store
              Examples.label_action_attrs [VInt 1] (VStr "label")) as [Hempty _];
    [vm_compute; reflexivity | vm_compute; reflexivity | reflexivity
    | vm_compute; reflexivity |].
  destruct (Hempty (VStr "")) as (_ & _ & _ & Hvalidate & Hrestore);
    [vm_compute; reflexivity | reflexivity |].
  by split.
Defined.

Lemma label_rename_keeps_names_unique_witness :
  exists object labels',
    LabelWriteSerializer.restore_object Examples.get_or_create Sample.self1
      [Sample.label1; Examples.label2] Examples.label_rename_attrs
    = Ok (object, labels')
    /\ label_names_unique labels' /\ label_pks_unique labels'
    /\ length labels' = 2%nat.
Proof.
  assert (exists object labels',
            LabelWriteSerializer.restore_object Examples.get_or_create Sample.self1
              [Sample.label1; Examples.label2] Examples.label_rename_attrs
            = Ok (object, labels')) as (object & labels' & Hrun).
  { eexists _, _. vm_compute. reflexivity. }
  assert (label_names_unique [Sample.label1; Examples.label2]) as Hnames.
  { intros [|[|i]] [|[|j]] l1 l2; simpl; intros H1 H2 Ho Hn;
      try done; simplify_eq. }
  assert (label_pks_unique [Sample.label1; Examples.label2]) as Hpks.
  { intros [|[|i]] [|[|j]] l1 l2; simpl; intros H1 H2 Hp;
      try done; simplify_eq. }
  destruct (label_rename_keeps_names_unique Examples.get_or_create Sample.self1
              [Sample.label1; Examples.label2] labels' Examples.label_rename_attrs
              (VStr "l-1") "Urgent" object Hnames Hpks)
    as (Hn' & Hp' & Hlen & _);
    [vm_compute; reflexivity | reflexivity | vm_compute; reflexivity
    | vm_compute; reflexivity | exact Hrun |].
  by exists object, labels'.
Defined.

Lemma contact_address_conflict_witness :
  ContactWriteSerializer.validate Sample.self1 Examples.two_contact_store
    Sample.contact_uuid_urns_attrs
  = Ok Sample.contact_uuid_urns_attrs
  /\ ContactWriteSerializer.validate Sample.self1 Examples.two_contact_store
       Examples.contact_taken_attrs
     = Raise (ValidationError "URNs %s are used by other contacts"
                [VList [VStr "tel:+250788000000"]]).
Proof.
  split.
  - destruct (contact_address_conflict Sample.self1 Examples.two_contact_store
                Sample.contact_uuid_urns_attrs "c-1"
                [VTuple [VStr "tel"; VStr "+250788383383"]] ["tel:+250788383383"])
      as [Hiff _];
      [vm_compute; reflexivity | discriminate | vm_compute; reflexivity | discriminate
      | vm_compute; reflexivity | vm_compute; reflexivity | vm_compute; reflexivity |].
    apply Hiff. intros c [<-|[<-|[]]] _ Hu; [done|].
    split; [discriminate|].
    intros u s [<-|[]] [<-|[]]. discriminate.
  - destruct (contact_address_conflict Sample.self1 Examples.two_contact_store
                Examples.contact_taken_attrs "c-1"
                [VTuple [VStr "tel"; VStr "+250788000000"]] ["tel:+250788000000"])
      as [Hiff Herr];
      [vm_compute; reflexivity | discriminate | vm_compute; reflexivity | discriminate
      | vm_compute; reflexivity | vm_compute; reflexivity | vm_compute; reflexivity |].
    apply Herr. intros Hok.
    destruct (proj1 Hiff Hok Examples.contact2) as [_ Hurns];
      [right; by left | reflexivity | discriminate |].
    apply (Hurns {| urn_scheme := "tel"; urn_path := "+250788000000";
                    urn_urn := "tel:+250788000000" |} "tel:+250788000000");
      [by left | by left | reflexivity].
Defined.

Lemma contact_validate_fields_witness :
  ContactWriteSerializer.validate_fields [Sample.planting_date] Examples.fields_attrs "fields"
  = Ok Examples.fields_attrs
  /\ is_validation_error
       (ContactWriteSerializer.validate_fields [] Examples.fields_attrs "fields").
Proof.
  destruct (proj1 (contact_validate_fields [Sample.planting_date] Examples.fields_attrs)
              [("Planting Date", VStr "2015-03-01")]) as [Hiff _];
    [apply lookup_insert_eq|].
  destruct (proj1 (contact_validate_fields [] Examples.fields_attrs)
              [("Planting Date", VStr "2015-03-01")]) as [Hiff' Herr];
    [apply lookup_insert_eq|].
  split.
  - apply Hiff. intros key v [[= <- <-]|[]].
    exists Sample.planting_date. split; [by left | by right].
  - apply Herr. intros Hok.
    destruct (proj1 Hiff' Hok "Planting Date" (VStr "2015-03-01")) as (field & [] & _).
    by left.
Defined.

Lemma contact_validate_language_witness :
  ContactWriteSerializer.validate_language lower ["eng"; "fre"]
    (<["language" := VStr "ENG"]> ∅) "language"
  = Ok (<["language" := VStr "eng"]> (<["language" := VStr "ENG"]> ∅))
  /\ ContactWriteSerializer.validate_language lower ["eng"; "fre"] Examples.language_attrs
       "language"
     = Raise (ValidationError
                "Language code '%s' is not one of supported for organization. (%s)"
                [VStr "xx"; VList [VStr "eng"; VStr "fre"]])
  /\ ContactWriteSerializer.validate_language lower [] Examples.language_attrs "language"
     = Raise (ValidationError
                "You do not have any languages configured for your organization." []).
Proof.
  split; [|split].
  - apply (proj1 (proj2 (proj2 (contact_validate_language lower ["eng"; "fre"]
                                  (<["language" := VStr "ENG"]> ∅)))) "ENG");
      [apply lookup_insert_eq | discriminate | by left].
  - apply (proj2 (proj2 (proj2 (proj2 (contact_validate_language lower ["eng"; "fre"]
                                         Examples.language_attrs)))) "xx");
      [apply lookup_insert_eq | discriminate | discriminate |].
    simpl. intros [Heq|[Heq|[]]]; discriminate.
  - apply (proj1 (proj2 (proj2 (proj2 (contact_validate_language lower []
                                         Examples.language_attrs)))) (VStr "xx"));
      [apply lookup_insert_eq | reflexivity | reflexivity].
Defined.
